(** * Tagged arbitrary-precision integers of the mypyc runtime

    A shallow embedding of [mypyc/lib-rt/int_ops.c] and
    [mypyc/lib-rt/pythonsupport.c]: the tagged word [CPyTagged], the
    boxed [PyLongObject] with its digit array, the slow paths of the
    arithmetic and bitwise operators, the fixed-width floor division and
    the overflow-checked conversion to [Py_ssize_t].

    Machine integers are [Z] with the wrap-around of every C conversion
    written out.  The interpreter state (object heap, allocator, error
    indicator) is threaded through a small monad [M]; a call of
    [CPyError_OutOfMemory] ends the run with [Fatal]. *)

From Stdlib Require Import ZArith Lia Bool List Ascii String SpecFloat.
From stdpp Require Import base option gmap list.

Local Open Scope Z_scope.

(** ** Platform: the 64-bit build *)

Module Platform.

(** Width of [size_t], [Py_ssize_t] and [CPyTagged]. *)
Definition CPY_INT_BITS : Z := 64.

Definition PY_SSIZE_T_MAX : Z := 2 ^ (CPY_INT_BITS - 1) - 1.
Definition PY_SSIZE_T_MIN : Z := - 2 ^ (CPY_INT_BITS - 1).

(** Conversion of a mathematical integer to an unsigned or signed C
    integer of [bits] bits. *)
Definition to_unsigned (bits z : Z) : Z := z mod 2 ^ bits.
Definition to_signed (bits z : Z) : Z :=
  (z + 2 ^ (bits - 1)) mod 2 ^ bits - 2 ^ (bits - 1).

Definition to_size_t (z : Z) : Z := to_unsigned CPY_INT_BITS z.
Definition to_ssize_t (z : Z) : Z := to_signed CPY_INT_BITS z.

(** Digits of a [PyLongObject]: 30 bits in a 32-bit [digit]. *)
Definition PyLong_SHIFT : Z := 30.
Definition PyLong_BASE : Z := 2 ^ PyLong_SHIFT.
Definition PyLong_MASK : Z := PyLong_BASE - 1.
Definition to_digit (z : Z) : Z := to_unsigned 32 z.

End Platform.
Export Platform.

(** ** Tag and range model *)

(** The tag constants and predicates are declared in CPy.h and
    mypyc_util.h, which are not among the sources. *)

(** Modelled from the spec: [CPY_INT_TAG] of mypyc_util.h; the tag is the
    reserved low bit of the word, and the word with only that bit set is
    the reserved sentinel. *)
Definition CPY_INT_TAG : Z := 1.

(** Modelled from the spec: [CPY_TAGGED_MAX] of mypyc_util.h;
    [TAGGED_MAX = floor(WORD_MAX/2)]. *)
Definition CPY_TAGGED_MAX : Z := PY_SSIZE_T_MAX / 2.

(** Modelled from the spec: [CPY_TAGGED_MIN] of mypyc_util.h;
    [TAGGED_MIN = -(TAGGED_MAX+1)]. *)
Definition CPY_TAGGED_MIN : Z := - (CPY_TAGGED_MAX + 1).

(** Modelled from the spec: [CPY_TAGGED_ABS_MIN] of mypyc_util.h; the
    magnitude of [TAGGED_MIN], one more than the positive maximum, as an
    unsigned word. *)
Definition CPY_TAGGED_ABS_MIN : Z := to_size_t (0 - CPY_TAGGED_MIN).

(** Modelled from the spec: [CPyTagged_CheckLong] of CPy.h; [is_boxed]
    tests the reserved low bit of the word. *)
Definition CPyTagged_CheckLong (x : Z) : bool := Z.testbit x 0.

(** Modelled from the spec: [CPyTagged_CheckShort] of CPy.h; [is_inline]
    is the tag bit being clear. *)
Definition CPyTagged_CheckShort (x : Z) : bool := negb (CPyTagged_CheckLong x).

(** Modelled from the spec: [CPyTagged_ShortAsSsize_t] of CPy.h; an inline
    word encodes the stored word arithmetically shifted right by one. *)
Definition CPyTagged_ShortAsSsize_t (x : Z) : Z := Z.shiftr (to_ssize_t x) 1.

(** Modelled from the spec: [CPyTagged_LongAsObject] of CPy.h; a boxed
    word, with the tag bit masked off, addresses the object. *)
Definition CPyTagged_LongAsObject (x : Z) : Z := Z.land x (Z.lnot CPY_INT_TAG).

(** Modelled from the spec: [CPyTagged_TooBig] of CPy.h;
    [too_big_for_inline] is true iff the native value doubled overflows the
    word. *)
Definition CPyTagged_TooBig (value : Z) : bool :=
  negb ((PY_SSIZE_T_MIN <=? 2 * value) && (2 * value <=? PY_SSIZE_T_MAX)).

(** ** Objects and the interpreter state *)

Definition NULL : Z := 0.

Record PyLongObject := mkLong {
  ob_size : Z;            (* signed digit count: negative for a negative value *)
  ob_digit : list Z       (* least significant digit first *)
}.

Inductive PyBody :=
| PyLong (v : PyLongObject)
| PyFloat (ob_fval : spec_float).

Record PyObject := mkObject {
  ob_refcnt : Z;
  ob_body : PyBody
}.

Inductive PyExc :=
| PyExc_ZeroDivisionError
| PyExc_OverflowError
| PyExc_MemoryError
| PyExc_ValueError.

Record Runtime := mkRuntime {
  heap : gmap Z PyObject;              (* live objects by address *)
  brk : Z;                             (* next free address of the allocator *)
  limit : Z;                           (* end of the memory the allocator owns *)
  err : option (PyExc * string)        (* the error indicator *)
}.

Inductive Outcome (A : Type) :=
| Ret (a : A) (s : Runtime)   (* the call returns *)
| Fatal                       (* the process is aborted *)
| Undef.                      (* undefined behaviour: a wild pointer is used *)
Arguments Ret {A} a s.
Arguments Fatal {A}.
Arguments Undef {A}.

Definition M (A : Type) : Type := Runtime -> Outcome A.

#[global] Instance M_ret : MRet M := fun A a s => Ret a s.
#[global] Instance M_bind : MBind M := fun A B f m s =>
  match m s with
  | Ret a s' => f a s'
  | Fatal => Fatal
  | Undef => Undef
  end.

Definition undefined {A} : M A := fun _ => Undef.

Definition set_heap (h : gmap Z PyObject) (s : Runtime) : Runtime :=
  mkRuntime h (brk s) (limit s) (err s).
Definition set_err (e : option (PyExc * string)) (s : Runtime) : Runtime :=
  mkRuntime (heap s) (brk s) (limit s) e.

(** *** The host object runtime *)

Definition PyErr_SetString (exc : PyExc) (msg : string) : M unit :=
  fun s => Ret tt (set_err (Some (exc, msg)) s).

(** Modelled from the spec: [CPyError_OutOfMemory] of CPy.h, which is not
    among the sources; a fatal, unrecoverable condition: the process is
    aborted and the call never returns. *)
Definition CPyError_OutOfMemory {A} : M A := fun _ => Fatal.

(** Every object takes one aligned slot of the allocator; a slot is never
    handed out twice.  When the memory is used up the allocation returns
    [NULL] with [MemoryError] set; the host gives this error no message. *)
Definition OBJECT_SLOT : Z := 16.

Definition PyObject_New (body : PyBody) : M Z := fun s =>
  if brk s + OBJECT_SLOT <=? limit s then
    Ret (brk s)
        (mkRuntime (<[brk s := mkObject 1 body]> (heap s))
                   (brk s + OBJECT_SLOT) (limit s) (err s))
  else Ret NULL (set_err (Some (PyExc_MemoryError, EmptyString)) s).

Definition get_object (p : Z) : M PyObject := fun s =>
  match heap s !! p with
  | Some o => Ret o s
  | None => Undef
  end.

Definition get_long (p : Z) : M PyLongObject :=
  o ← get_object p;
  match ob_body o with
  | PyLong v => mret v
  | PyFloat _ => undefined
  end.

Definition put_object (p : Z) (o : PyObject) : M unit := fun s =>
  Ret tt (set_heap (<[p := o]> (heap s)) s).

Definition free_object (p : Z) : M unit := fun s =>
  Ret tt (set_heap (delete p (heap s)) s).

Definition Py_INCREF (p : Z) : M unit :=
  o ← get_object p;
  put_object p (mkObject (ob_refcnt o + 1) (ob_body o)).

(** The object is deallocated when its last reference goes. *)
Definition Py_DECREF (p : Z) : M unit :=
  o ← get_object p;
  if ob_refcnt o - 1 =? 0 then free_object p
  else put_object p (mkObject (ob_refcnt o - 1) (ob_body o)).

(** *** Values of boxed integers *)

(** Value of a digit sequence, least significant digit first. *)
Fixpoint digits_value (ds : list Z) : Z :=
  match ds with
  | [] => 0
  | d :: ds' => d + PyLong_BASE * digits_value ds'
  end.

(** The digits in use are the first [|ob_size|] cells of the array. *)
Definition long_digits (v : PyLongObject) : list Z :=
  take (Z.to_nat (Z.abs (ob_size v))) (ob_digit v).

Definition PyLong_value (v : PyLongObject) : Z :=
  Z.sgn (ob_size v) * digits_value (long_digits v).

(** Digits of a magnitude, as the host writes them: no leading zero. *)
Fixpoint digits_of (fuel : nat) (n : Z) : list Z :=
  match fuel with
  | O => []
  | S fuel' =>
      if n =? 0 then []
      else n mod PyLong_BASE :: digits_of fuel' (n / PyLong_BASE)
  end.

Definition PyLong_of_Z (z : Z) : PyLongObject :=
  let ds := digits_of (Z.to_nat (Z.log2 (Z.abs z) + 1)) (Z.abs z) in
  mkLong (Z.sgn z * Z.of_nat (length ds)) ds.

(** Magnitude and sign ([-1] for a negative size, else [1]) of an object. *)
Definition magnitude (v : PyLongObject) : Z := digits_value (long_digits v).
Definition sign_of (v : PyLongObject) : Z := if ob_size v <? 0 then -1 else 1.

(** Every digit is below the base and the array holds the digits in use. *)
Definition digit_ok (d : Z) : Prop := 0 <= d < PyLong_BASE.
Definition valid_long (v : PyLongObject) : Prop :=
  Forall digit_ok (ob_digit v) /\
  Z.abs (ob_size v) <= Z.of_nat (length (ob_digit v)).

(** Canonical form: no digit in use at the top is zero; the value 0 has
    no digit. *)
Definition canonical_digits (ds : list Z) : Prop :=
  ds = [] \/ last ds <> Some 0.
Definition canonical_long (v : PyLongObject) : Prop :=
  canonical_digits (long_digits v).

(** *** Host operations on boxed integers *)

(** The host's constructors and operators are given by their values.  In
    this model each of them allocates its result, so a result takes memory
    here even where the host has none to allocate (it keeps the integers
    from -5 to 256 preallocated, and an operator may hand back one of its
    operands); the memory a property asks for is therefore enough for the
    host as well. *)
Definition PyLong_FromZ (z : Z) : M Z := PyObject_New (PyLong (PyLong_of_Z z)).

Definition PyLong_FromSsize_t (value : Z) : M Z := PyLong_FromZ value.
Definition PyLong_FromLong (value : Z) : M Z := PyLong_FromZ value.
Definition PyLong_FromLongLong (value : Z) : M Z := PyLong_FromZ value.

(** [_PyLong_New(n)] gives an object of [n] digits whose cells the caller
    fills in. *)
Definition _PyLong_New (n : Z) : M Z :=
  PyObject_New (PyLong (mkLong n (replicate (Z.to_nat n) 0))).

Definition long_unop (f : Z -> Z) (a : Z) : M Z :=
  va ← get_long a;
  PyLong_FromZ (f (PyLong_value va)).

Definition long_binop (f : Z -> Z -> Z) (a b : Z) : M Z :=
  va ← get_long a;
  vb ← get_long b;
  PyLong_FromZ (f (PyLong_value va) (PyLong_value vb)).

Definition PyNumber_Negative : Z -> M Z := long_unop Z.opp.
Definition PyNumber_Invert : Z -> M Z := long_unop Z.lnot.
Definition PyNumber_Add : Z -> Z -> M Z := long_binop Z.add.
Definition PyNumber_Subtract : Z -> Z -> M Z := long_binop Z.sub.
Definition PyNumber_Multiply : Z -> Z -> M Z := long_binop Z.mul.
Definition PyNumber_And : Z -> Z -> M Z := long_binop Z.land.
Definition PyNumber_Or : Z -> Z -> M Z := long_binop Z.lor.
Definition PyNumber_Xor : Z -> Z -> M Z := long_binop Z.lxor.

Definition zero_division_msg : string := "integer division or modulo by zero".
Definition modulo_by_zero_msg : string := "integer modulo by zero".

(** The host's [//] and [%] round toward negative infinity and raise
    [ZeroDivisionError] on a zero divisor, each with its own message. *)
Definition PyNumber_FloorDivide (a b : Z) : M Z :=
  va ← get_long a;
  vb ← get_long b;
  if PyLong_value vb =? 0 then
    PyErr_SetString PyExc_ZeroDivisionError zero_division_msg;; mret NULL
  else PyLong_FromZ (PyLong_value va / PyLong_value vb).

Definition PyNumber_Remainder (a b : Z) : M Z :=
  va ← get_long a;
  vb ← get_long b;
  if PyLong_value vb =? 0 then
    PyErr_SetString PyExc_ZeroDivisionError modulo_by_zero_msg;; mret NULL
  else PyLong_FromZ (PyLong_value va mod PyLong_value vb).

(** A negative shift count is a [ValueError].  An object has no bound on
    its digits here; the host refuses a left shift whose result would have
    more digits than it can hold. *)
Definition PyNumber_Rshift (a b : Z) : M Z :=
  va ← get_long a;
  vb ← get_long b;
  if PyLong_value vb <? 0 then
    PyErr_SetString PyExc_ValueError "negative shift count";; mret NULL
  else PyLong_FromZ (Z.shiftr (PyLong_value va) (PyLong_value vb)).

Definition PyNumber_Lshift (a b : Z) : M Z :=
  va ← get_long a;
  vb ← get_long b;
  if PyLong_value vb <? 0 then
    PyErr_SetString PyExc_ValueError "negative shift count";; mret NULL
  else PyLong_FromZ (Z.shiftl (PyLong_value va) (PyLong_value vb)).

Inductive CompareOp := Py_LT | Py_EQ.

(** Comparison of two integers: 1 or 0 (-1 would report an error). *)
Definition PyObject_RichCompareBool (a b : Z) (op : CompareOp) : M Z :=
  va ← get_long a;
  vb ← get_long b;
  mret (match op with
        | Py_EQ => Z.b2z (PyLong_value va =? PyLong_value vb)
        | Py_LT => Z.b2z (PyLong_value va <? PyLong_value vb)
        end).

Definition PyFloat_AsDouble (p : Z) : M spec_float :=
  o ← get_object p;
  match ob_body o with
  | PyFloat f => mret f
  | PyLong _ => undefined
  end.

(** ** pythonsupport.c: exact overflow-safe size conversion *)

(** Modelled from the spec: [CPY_LONG_DIGIT] of mypyc_util.h, which is not
    among the sources; the host's "get digit at index", least significant
    digit first. *)
Definition CPY_LONG_DIGIT (v : PyLongObject) (i : nat) : Z := nth i (ob_digit v) 0.

(** The loop [while (--i >= 0)]: [None] is the jump to [exit] taken when
    bits were shifted out of [x]. *)
Fixpoint accumulate_digits (v : PyLongObject) (i : nat) (x : Z) : option Z :=
  match i with
  | O => Some x
  | S i' =>
      let prev := x in
      let x := to_size_t (Z.shiftl x PyLong_SHIFT + CPY_LONG_DIGIT v i') in
      if negb (Z.shiftr x PyLong_SHIFT =? prev) then None
      else accumulate_digits v i' x
  end.

(** The part after the loop, shared by both versions of the function. *)
Definition finish_conversion (sign : Z) (acc : option Z) : Z * Z :=
  match acc with
  | None => (-1, sign)
  | Some x =>
      if x <=? to_size_t CPY_TAGGED_MAX then (to_ssize_t (to_ssize_t x * sign), 0)
      else if (sign <? 0) && (x =? CPY_TAGGED_ABS_MIN) then (CPY_TAGGED_MIN, 0)
      else (-1, sign)
  end.

(** Python 3.11 and earlier: the sign is the sign of [Py_SIZE(v)].
    The result is the pair of the returned value and of [*overflow]. *)
Definition CPyLong_AsSsize_tAndOverflow_ (v : PyLongObject) : Z * Z :=
  let i := ob_size v in
  let sign := if i <? 0 then -1 else 1 in
  let i := if i <? 0 then - i else i in
  finish_conversion sign (accumulate_digits v (Z.to_nat i) 0).

(** Python 3.12: the digit count and the sign are packed in the tag
    [lv_tag] of the object.  The headers that declare the layout of the tag
    are not among the sources: the accessor [CPY_LONG_TAG] and the
    constants [CPY_NON_SIZE_BITS] and [CPY_SIGN_NEGATIVE] are parameters of
    this version. *)
Module Py312.

Section Layout.

Variable CPY_LONG_TAG : PyLongObject -> Z.
Variables CPY_NON_SIZE_BITS CPY_SIGN_NEGATIVE : Z.

Definition CPyLong_AsSsize_tAndOverflow_ (v : PyLongObject) : Z * Z :=
  let i := CPY_LONG_TAG v in
  let sign := if negb (Z.land i CPY_SIGN_NEGATIVE =? 0) then -1 else 1 in
  let i := Z.shiftr i CPY_NON_SIZE_BITS in
  finish_conversion sign (accumulate_digits v (Z.to_nat i) 0).

End Layout.

(** A layout of the tag: the digit count above three low bits, of which
    bit 1 marks a negative value and bit 0 the value zero. *)
Definition lv_tag (v : PyLongObject) : Z :=
  Z.lor (Z.shiftl (Z.abs (ob_size v)) 3)
        (if ob_size v <? 0 then 2 else if ob_size v =? 0 then 1 else 0).

End Py312.

(** ** int_ops.c: boxing and unboxing *)

(** On 64-bit Linux and macOS [CPyLong_FromSsize_t] is [PyLong_FromLong]. *)
Definition CPyLong_FromSsize_t : Z -> M Z := PyLong_FromLong.

Definition CPyTagged_FromSsize_t (value : Z) : M Z :=
  if CPyTagged_TooBig value then
    object ← PyLong_FromSsize_t value;
    mret (Z.lor object CPY_INT_TAG)
  else mret (to_size_t (Z.shiftl value 1)).

Definition CPyTagged_FromInt64 (value : Z) : M Z :=
  if CPyTagged_TooBig value then
    object ← PyLong_FromLongLong value;
    mret (Z.lor object CPY_INT_TAG)
  else mret (to_size_t (Z.shiftl value 1)).

Definition CPyTagged_AsObject (x : Z) : M Z :=
  if CPyTagged_CheckLong x then
    let value := CPyTagged_LongAsObject x in
    Py_INCREF value;; mret value
  else
    value ← CPyLong_FromSsize_t (CPyTagged_ShortAsSsize_t x);
    if value =? NULL then CPyError_OutOfMemory else mret value.

Definition CPyTagged_StealAsObject (x : Z) : M Z :=
  if CPyTagged_CheckLong x then mret (CPyTagged_LongAsObject x)
  else
    value ← CPyLong_FromSsize_t (CPyTagged_ShortAsSsize_t x);
    if value =? NULL then CPyError_OutOfMemory else mret value.

(** Modelled from the spec: [CPyTagged_StealFromObject] of CPy.h, which is
    not among the sources, re-encodes a result into inline form if it fits;
    whether it fits is decided by the overflow-checked size conversion. *)
Definition CPyTagged_StealFromObject (object : Z) : M Z :=
  v ← get_long object;
  let '(value, overflow) := CPyLong_AsSsize_tAndOverflow_ v in
  if negb (overflow =? 0) then mret (Z.lor object CPY_INT_TAG)
  else Py_DECREF object;; mret (to_size_t (Z.shiftl value 1)).

(** ** int_ops.c: arithmetic slow paths *)

Definition CPyTagged_Negate_ (num : Z) : M Z :=
  num_obj ← CPyTagged_AsObject num;
  result ← PyNumber_Negative num_obj;
  (if result =? NULL then CPyError_OutOfMemory else mret tt);;
  Py_DECREF num_obj;;
  CPyTagged_StealFromObject result.

Definition CPyTagged_Add_ (left right : Z) : M Z :=
  left_obj ← CPyTagged_AsObject left;
  right_obj ← CPyTagged_AsObject right;
  result ← PyNumber_Add left_obj right_obj;
  (if result =? NULL then CPyError_OutOfMemory else mret tt);;
  Py_DECREF left_obj;;
  Py_DECREF right_obj;;
  CPyTagged_StealFromObject result.

Definition CPyTagged_Subtract_ (left right : Z) : M Z :=
  left_obj ← CPyTagged_AsObject left;
  right_obj ← CPyTagged_AsObject right;
  result ← PyNumber_Subtract left_obj right_obj;
  (if result =? NULL then CPyError_OutOfMemory else mret tt);;
  Py_DECREF left_obj;;
  Py_DECREF right_obj;;
  CPyTagged_StealFromObject result.

Definition CPyTagged_Multiply_ (left right : Z) : M Z :=
  left_obj ← CPyTagged_AsObject left;
  right_obj ← CPyTagged_AsObject right;
  result ← PyNumber_Multiply left_obj right_obj;
  (if result =? NULL then CPyError_OutOfMemory else mret tt);;
  Py_DECREF left_obj;;
  Py_DECREF right_obj;;
  CPyTagged_StealFromObject result.

Definition CPyTagged_FloorDivide_ (left right : Z) : M Z :=
  left_obj ← CPyTagged_AsObject left;
  right_obj ← CPyTagged_AsObject right;
  result ← PyNumber_FloorDivide left_obj right_obj;
  Py_DECREF left_obj;;
  Py_DECREF right_obj;;
  if result =? NULL then mret CPY_INT_TAG
  else CPyTagged_StealFromObject result.

Definition CPyTagged_Remainder_ (left right : Z) : M Z :=
  left_obj ← CPyTagged_AsObject left;
  right_obj ← CPyTagged_AsObject right;
  result ← PyNumber_Remainder left_obj right_obj;
  Py_DECREF left_obj;;
  Py_DECREF right_obj;;
  if result =? NULL then mret CPY_INT_TAG
  else CPyTagged_StealFromObject result.

Definition CPyTagged_IsEq_ (left right : Z) : M bool :=
  if CPyTagged_CheckShort right then mret false
  else
    left_obj ← CPyTagged_AsObject left;
    right_obj ← CPyTagged_AsObject right;
    result ← PyObject_RichCompareBool left_obj right_obj Py_EQ;
    Py_DECREF left_obj;;
    Py_DECREF right_obj;;
    (if result =? -1 then CPyError_OutOfMemory else mret tt);;
    mret (negb (result =? 0)).

Definition CPyTagged_IsLt_ (left right : Z) : M bool :=
  left_obj ← CPyTagged_AsObject left;
  right_obj ← CPyTagged_AsObject right;
  result ← PyObject_RichCompareBool left_obj right_obj Py_LT;
  Py_DECREF left_obj;;
  Py_DECREF right_obj;;
  (if result =? -1 then CPyError_OutOfMemory else mret tt);;
  mret (negb (result =? 0)).

(** ** int_ops.c: the digit-level bitwise engine *)

(** Modelled from the spec: [CPY_LONG_SIZE_SIGNED] of mypyc_util.h, which
    is not among the sources; the host's "get signed digit-count", negative
    for a negative value. *)
Definition CPY_LONG_SIZE_SIGNED (v : PyLongObject) : Z := ob_size v.

(** Modelled from the spec: [CPY_LONG_SIZE_UNSIGNED] of mypyc_util.h, which
    is not among the sources; the digit count of an object known to be
    non-negative. *)
Definition CPY_LONG_SIZE_UNSIGNED (v : PyLongObject) : Z := ob_size v.

Definition put_long (p : Z) (v : PyLongObject) : M unit :=
  o ← get_object p;
  put_object p (mkObject (ob_refcnt o) (PyLong v)).

(** Modelled from the spec: [CPyLong_SetUnsignedSize] of mypyc_util.h,
    which is not among the sources; sets the digit count of a non-negative
    object and leaves its digits alone. *)
Definition CPyLong_SetUnsignedSize (p : Z) (n : Z) : M unit :=
  v ← get_long p;
  put_long p (mkLong n (ob_digit v)).

(** The assignment [CPY_LONG_DIGIT(r, i) = d]. *)
Definition CPY_LONG_DIGIT_set (r : Z) (i : nat) (d : Z) : M unit :=
  v ← get_long r;
  put_long r (mkLong (ob_size v) (<[i := d]> (ob_digit v))).

(** The loop [while (i > 0 && CPY_LONG_DIGIT(v, i - 1) == 0) i--]. *)
Fixpoint normalize_size (v : PyLongObject) (i : nat) : nat :=
  match i with
  | O => O
  | S i' => if CPY_LONG_DIGIT v i' =? 0 then normalize_size v i' else i
  end.

Definition CPyLong_NormalizeUnsigned (p : Z) : M unit :=
  v ← get_long p;
  let i := normalize_size v (Z.to_nat (CPY_LONG_SIZE_UNSIGNED v)) in
  CPyLong_SetUnsignedSize p (Z.of_nat i).

Definition GenericBitwiseOp (a b : Z) (op : ascii) : M Z :=
  aobj ← CPyTagged_AsObject a;
  bobj ← CPyTagged_AsObject b;
  r ← (if Ascii.eqb op "&" then PyNumber_And aobj bobj
       else if Ascii.eqb op "|" then PyNumber_Or aobj bobj
       else PyNumber_Xor aobj bobj);
  (if r =? NULL then CPyError_OutOfMemory else mret tt);;
  Py_DECREF aobj;;
  Py_DECREF bobj;;
  CPyTagged_StealFromObject r.

(** [GetIntDigits] gives the digit array and the signed digit count.  A
    short integer is decomposed into the scratch buffer [buf]; the digits
    of a long integer are those of the object itself. *)
Definition GetIntDigits (n : Z) (buf : list Z) : M (list Z * Z) :=
  if CPyTagged_CheckShort n then
    let val := CPyTagged_ShortAsSsize_t n in
    let neg := val <? 0 in
    let val := if neg then to_ssize_t (- val) else val in
    let buf := <[0%nat := to_digit (Z.land val PyLong_MASK)]> buf in
    if val >? PyLong_MASK then
      let val := Z.shiftr val PyLong_SHIFT in
      let buf := <[1%nat := to_digit (Z.land val PyLong_MASK)]> buf in
      if val >? PyLong_MASK then
        let buf := <[2%nat := to_digit (Z.shiftr val PyLong_SHIFT)]> buf in
        mret (buf, if neg then -3 else 3)
      else mret (buf, if neg then -2 else 2)
    else mret (buf, if neg then -1 else 1)
  else
    obj ← get_long (CPyTagged_LongAsObject n);
    mret (ob_digit obj, CPY_LONG_SIZE_SIGNED obj).

(** A loop [for (; i < n; i++) CPY_LONG_DIGIT(r, i) = f(i)] with [count]
    iterations left. *)
Fixpoint digit_loop (r : Z) (f : nat -> Z) (i count : nat) : M unit :=
  match count with
  | O => mret tt
  | S count' => CPY_LONG_DIGIT_set r i (f i);; digit_loop r f (S i) count'
  end.

Definition digit_at (ds : list Z) (i : nat) : Z := nth i ds 0.

Definition CPyTagged_BitwiseLongOp_ (a b : Z) (op : ascii) : M Z :=
  '(adigits, asize) ← GetIntDigits a [0; 0; 0];
  '(bdigits, bsize) ← GetIntDigits b [0; 0; 0];
  if (asize <? 0) || (bsize <? 0) then GenericBitwiseOp a b op
  else
    let '(adigits, asize, bdigits, bsize) :=
      if asize >? bsize then (bdigits, bsize, adigits, asize)
      else (adigits, asize, bdigits, bsize) in
    r ← _PyLong_New (if Ascii.eqb op "&" then asize else bsize);
    (if r =? NULL then CPyError_OutOfMemory else mret tt);;
    (if Ascii.eqb op "&" then
       digit_loop r (fun i => Z.land (digit_at adigits i) (digit_at bdigits i))
                  0 (Z.to_nat asize)
     else
       (if Ascii.eqb op "|" then
          digit_loop r (fun i => Z.lor (digit_at adigits i) (digit_at bdigits i))
                     0 (Z.to_nat asize)
        else
          digit_loop r (fun i => Z.lxor (digit_at adigits i) (digit_at bdigits i))
                     0 (Z.to_nat asize));;
       digit_loop r (digit_at bdigits) (Z.to_nat asize)
                  (Z.to_nat bsize - Z.to_nat asize));;
    CPyLong_NormalizeUnsigned r;;
    CPyTagged_StealFromObject r.

Definition CPyTagged_Invert_ (num : Z) : M Z :=
  obj ← CPyTagged_AsObject num;
  result ← PyNumber_Invert obj;
  (if result =? NULL then CPyError_OutOfMemory else mret tt);;
  Py_DECREF obj;;
  CPyTagged_StealFromObject result.

Definition CPyTagged_Rshift_ (left right : Z) : M Z :=
  lobj ← CPyTagged_AsObject left;
  robj ← CPyTagged_AsObject right;
  result ← PyNumber_Rshift lobj robj;
  Py_DECREF lobj;;
  Py_DECREF robj;;
  if result =? NULL then mret CPY_INT_TAG
  else CPyTagged_StealFromObject result.

Definition CPyTagged_Lshift_ (left right : Z) : M Z :=
  lobj ← CPyTagged_AsObject left;
  robj ← CPyTagged_AsObject right;
  result ← PyNumber_Lshift lobj robj;
  Py_DECREF lobj;;
  Py_DECREF robj;;
  if result =? NULL then mret CPY_INT_TAG
  else CPyTagged_StealFromObject result.

(** ** int_ops.c: floor division at fixed widths *)

(** Modelled from the spec: the reserved error sentinel of the fixed-width
    operations ([CPY_LL_INT_ERROR] of mypyc_util.h, not among the sources). *)
Definition CPY_LL_INT_ERROR : Z := -113.

Definition INT16_MIN : Z := - 2 ^ 15.
Definition INT16_MAX : Z := 2 ^ 15 - 1.
Definition INT32_MIN : Z := - 2 ^ 31.
Definition INT32_MAX : Z := 2 ^ 31 - 1.
Definition INT64_MIN : Z := - 2 ^ 63.
Definition INT64_MAX : Z := 2 ^ 63 - 1.

Definition to_int16 : Z -> Z := to_signed 16.
Definition to_int32 : Z -> Z := to_signed 32.
Definition to_int64 : Z -> Z := to_signed 64.

(** [(x < 0) != (y < 0)] *)
Definition signs_differ (x y : Z) : bool := negb (Bool.eqb (x <? 0) (y <? 0)).

Definition CPyInt64_Divide (x y : Z) : M Z :=
  if y =? 0 then
    PyErr_SetString PyExc_ZeroDivisionError zero_division_msg;;
    mret CPY_LL_INT_ERROR
  else if (y =? -1) && (x =? INT64_MIN) then
    PyErr_SetString PyExc_OverflowError "integer division overflow";;
    mret CPY_LL_INT_ERROR
  else
    let d := to_int64 (Z.quot x y) in
    let d := if signs_differ x y && negb (to_int64 (d * y) =? x)
             then to_int64 (d - 1) else d in
    mret d.

Definition CPyInt64_Remainder (x y : Z) : M Z :=
  if y =? 0 then
    PyErr_SetString PyExc_ZeroDivisionError zero_division_msg;;
    mret CPY_LL_INT_ERROR
  else if (y =? -1) && (x =? INT64_MIN) then mret 0
  else
    let d := to_int64 (Z.rem x y) in
    let d := if signs_differ x y && negb (d =? 0)
             then to_int64 (d + y) else d in
    mret d.

Definition CPyInt32_Divide (x y : Z) : M Z :=
  if y =? 0 then
    PyErr_SetString PyExc_ZeroDivisionError zero_division_msg;;
    mret CPY_LL_INT_ERROR
  else if (y =? -1) && (x =? INT32_MIN) then
    PyErr_SetString PyExc_OverflowError "integer division overflow";;
    mret CPY_LL_INT_ERROR
  else
    let d := to_int32 (Z.quot x y) in
    let d := if signs_differ x y && negb (to_int32 (d * y) =? x)
             then to_int32 (d - 1) else d in
    mret d.

Definition CPyInt32_Remainder (x y : Z) : M Z :=
  if y =? 0 then
    PyErr_SetString PyExc_ZeroDivisionError zero_division_msg;;
    mret CPY_LL_INT_ERROR
  else if (y =? -1) && (x =? INT32_MIN) then mret 0
  else
    let d := to_int32 (Z.rem x y) in
    let d := if signs_differ x y && negb (d =? 0)
             then to_int32 (d + y) else d in
    mret d.

(** The operands of an [int16_t] operation are promoted to [int]; the
    result is converted back on assignment. *)
Definition CPyInt16_Divide (x y : Z) : M Z :=
  if y =? 0 then
    PyErr_SetString PyExc_ZeroDivisionError zero_division_msg;;
    mret CPY_LL_INT_ERROR
  else if (y =? -1) && (x =? INT16_MIN) then
    PyErr_SetString PyExc_OverflowError "integer division overflow";;
    mret CPY_LL_INT_ERROR
  else
    let d := to_int16 (Z.quot x y) in
    let d := if signs_differ x y && negb (to_int32 (d * y) =? x)
             then to_int16 (d - 1) else d in
    mret d.

Definition CPyInt16_Remainder (x y : Z) : M Z :=
  if y =? 0 then
    PyErr_SetString PyExc_ZeroDivisionError zero_division_msg;;
    mret CPY_LL_INT_ERROR
  else if (y =? -1) && (x =? INT16_MIN) then mret 0
  else
    let d := to_int16 (Z.rem x y) in
    let d := if signs_differ x y && negb (d =? 0)
             then to_int16 (d + y) else d in
    mret d.

(** The three widths, for statements that range over them. *)
Inductive Width := W16 | W32 | W64.

Definition width_bits (w : Width) : Z :=
  match w with W16 => 16 | W32 => 32 | W64 => 64 end.
Definition WIDTH_MIN (w : Width) : Z :=
  match w with W16 => INT16_MIN | W32 => INT32_MIN | W64 => INT64_MIN end.
Definition WIDTH_MAX (w : Width) : Z :=
  match w with W16 => INT16_MAX | W32 => INT32_MAX | W64 => INT64_MAX end.
Definition intW_divide (w : Width) : Z -> Z -> M Z :=
  match w with
  | W16 => CPyInt16_Divide | W32 => CPyInt32_Divide | W64 => CPyInt64_Divide
  end.
Definition intW_remainder (w : Width) : Z -> Z -> M Z :=
  match w with
  | W16 => CPyInt16_Remainder | W32 => CPyInt32_Remainder | W64 => CPyInt64_Remainder
  end.

(** ** int_ops.c: true division *)

(** IEEE binary64. *)
Definition double_prec : Z := 53.
Definition double_emax : Z := 1024.

(** The conversion [(double)n] of an integer. *)
Definition double_of_Z (n : Z) : spec_float :=
  binary_normalize double_prec double_emax n 0 false.
Definition double_div : spec_float -> spec_float -> spec_float :=
  SFdiv double_prec double_emax.

(** Modelled from the spec: the reserved floating-point error sentinel
    ([CPY_FLOAT_ERROR] of mypyc_util.h, not among the sources). *)
Definition CPY_FLOAT_ERROR : spec_float := double_of_Z (-113).

(** The host's [/] on two integers: the correctly rounded quotient, a
    [ZeroDivisionError] on a zero divisor, an [OverflowError] when the
    quotient is too large for a double. *)
Definition long_true_divide (a b : Z) : spec_float :=
  if a =? 0 then S754_zero (b <? 0)
  else
    let '(mz, ez, lz) :=
      SFdiv_core_binary double_prec double_emax (Z.abs a) 0 (Z.abs b) 0 in
    binary_round_aux double_prec double_emax (xorb (a <? 0) (b <? 0)) mz ez lz.

Definition PyNumber_TrueDivide (a b : Z) : M Z :=
  va ← get_long a;
  vb ← get_long b;
  if PyLong_value vb =? 0 then
    PyErr_SetString PyExc_ZeroDivisionError "division by zero";; mret NULL
  else
    let f := long_true_divide (PyLong_value va) (PyLong_value vb) in
    match f with
    | S754_finite _ _ _ | S754_zero _ => PyObject_New (PyFloat f)
    | _ =>
        PyErr_SetString PyExc_OverflowError
                        "integer division result too large for a float";;
        mret NULL
    end.

Definition CPyTagged_TrueDivide (x y : Z) : M spec_float :=
  if y =? 0 then
    PyErr_SetString PyExc_ZeroDivisionError "division by zero";;
    mret CPY_FLOAT_ERROR
  else if negb (CPyTagged_CheckLong x) && negb (CPyTagged_CheckLong y) then
    mret (double_div (double_of_Z (Z.shiftr (to_ssize_t x) 1))
                     (double_of_Z (Z.shiftr (to_ssize_t y) 1)))
  else
    xo ← CPyTagged_AsObject x;
    yo ← CPyTagged_AsObject y;
    result ← PyNumber_TrueDivide xo yo;
    if result =? NULL then mret CPY_FLOAT_ERROR
    else PyFloat_AsDouble result.

(** ** Reading tagged values and well-formed states *)

(** The integer a tagged word stands for in a state. *)
Definition tagged_value (s : Runtime) (x : Z) : option Z :=
  if CPyTagged_CheckShort x then Some (CPyTagged_ShortAsSsize_t x)
  else
    match heap s !! CPyTagged_LongAsObject x with
    | Some (mkObject _ (PyLong v)) => Some (PyLong_value v)
    | _ => None
    end.

Definition valid_body (b : PyBody) : Prop :=
  match b with
  | PyLong v => valid_long v
  | PyFloat _ => True
  end.

Definition valid_address (s : Runtime) (p : Z) : Prop :=
  0 < p < brk s /\ p mod 2 = 0.

(** Objects live at aligned addresses below [brk], are referenced, and
    hold valid digits; the allocator's memory lies within the address
    space. *)
Definition wf_runtime (s : Runtime) : Prop :=
  0 < brk s /\ brk s mod 2 = 0 /\ limit s <= 2 ^ CPY_INT_BITS /\
  forall p o, heap s !! p = Some o ->
    valid_address s p /\ 1 <= ob_refcnt o /\ valid_body (ob_body o).

(** Two references a slow path holds while the host works on them: both
    objects are live, and an object referenced twice is counted twice. *)
Definition held (s : Runtime) (lo ro : Z) : Prop :=
  exists ol or, heap s !! lo = Some ol /\ heap s !! ro = Some or /\
    1 <= ob_refcnt ol /\ 1 <= ob_refcnt or /\ (lo = ro -> 2 <= ob_refcnt ol).

(** ** Host failures and the slow paths *)

(** What a host operation on one or two integers returns: [NULL] with the
    heap untouched, or a fresh object at [brk]. *)
Definition host_result (s : Runtime) (p : Z) (s' : Runtime) : Prop :=
  (p = NULL /\ heap s' = heap s /\ brk s' = brk s /\ limit s' = limit s) \/
  (p = brk s /\ brk s' = brk s + OBJECT_SLOT /\ limit s' = limit s /\
   exists v, heap s' = <[brk s := mkObject 1 (PyLong v)]> (heap s)).

(** The shapes the slow paths share: the host's failure ends the run, or is
    passed on as [CPY_INT_TAG]. *)
Definition binary_fatal (host : Z -> Z -> M Z) (left right : Z) : M Z :=
  left_obj ← CPyTagged_AsObject left;
  right_obj ← CPyTagged_AsObject right;
  result ← host left_obj right_obj;
  (if result =? NULL then CPyError_OutOfMemory else mret tt);;
  Py_DECREF left_obj;;
  Py_DECREF right_obj;;
  CPyTagged_StealFromObject result.

Definition binary_sentinel (host : Z -> Z -> M Z) (left right : Z) : M Z :=
  left_obj ← CPyTagged_AsObject left;
  right_obj ← CPyTagged_AsObject right;
  result ← host left_obj right_obj;
  Py_DECREF left_obj;;
  Py_DECREF right_obj;;
  if result =? NULL then mret CPY_INT_TAG
  else CPyTagged_StealFromObject result.

Definition unary_fatal (host : Z -> M Z) (num : Z) : M Z :=
  num_obj ← CPyTagged_AsObject num;
  result ← host num_obj;
  (if result =? NULL then CPyError_OutOfMemory else mret tt);;
  Py_DECREF num_obj;;
  CPyTagged_StealFromObject result.

(** How a slow path [op] treats the failure ([NULL]) of its host delegate. *)
Definition propagates_sentinel (op host : Z -> Z -> M Z) : Prop :=
  forall s l r lo s1 ro s2 s3,
    wf_runtime s ->
    CPyTagged_AsObject l s = Ret lo s1 -> CPyTagged_AsObject r s1 = Ret ro s2 ->
    host lo ro s2 = Ret NULL s3 ->
    exists s', op l r s = Ret CPY_INT_TAG s' /\ err s' = err s3.

Definition aborts_on_failure2 (op host : Z -> Z -> M Z) : Prop :=
  (forall s l r lo s1 ro s2 s3,
      CPyTagged_AsObject l s = Ret lo s1 -> CPyTagged_AsObject r s1 = Ret ro s2 ->
      host lo ro s2 = Ret NULL s3 -> op l r s = Fatal) /\
  (forall s l r x s', wf_runtime s -> op l r s = Ret x s' -> x <> CPY_INT_TAG).

Definition aborts_on_failure1 (op host : Z -> M Z) : Prop :=
  (forall s n o s1 s2,
      CPyTagged_AsObject n s = Ret o s1 -> host o s1 = Ret NULL s2 -> op n s = Fatal) /\
  (forall s n x s', wf_runtime s -> op n s = Ret x s' -> x <> CPY_INT_TAG).

(** The host operation [GenericBitwiseOp] selects by [op]. *)
Definition bitwise_host (op : ascii) (aobj bobj : Z) : M Z :=
  if Ascii.eqb op "&" then PyNumber_And aobj bobj
  else if Ascii.eqb op "|" then PyNumber_Or aobj bobj
  else PyNumber_Xor aobj bobj.

(** ** The bitwise engine, digit by digit *)

(** The integer operation [op] selects. *)
Definition bitop (op : ascii) : Z -> Z -> Z :=
  if Ascii.eqb op "&" then Z.land
  else if Ascii.eqb op "|" then Z.lor else Z.lxor.

(** The digit array after a loop that stores [f i] at the indices
    [i, ..., i + count - 1]. *)
Fixpoint fill (ds : list Z) (f : nat -> Z) (i count : nat) : list Z :=
  match count with
  | O => ds
  | S count' => fill (<[i := f i]> ds) f (S i) count'
  end.

(** The part of [CPyTagged_BitwiseLongOp_] after the swap. *)
Definition engine_body (op : ascii) (adigits : list Z) (asize : Z)
    (bdigits : list Z) (bsize : Z) : M Z :=
  r ← _PyLong_New (if Ascii.eqb op "&" then asize else bsize);
  (if r =? NULL then CPyError_OutOfMemory else mret tt);;
  (if Ascii.eqb op "&" then
     digit_loop r (fun i => Z.land (digit_at adigits i) (digit_at bdigits i))
                0 (Z.to_nat asize)
   else
     (if Ascii.eqb op "|" then
        digit_loop r (fun i => Z.lor (digit_at adigits i) (digit_at bdigits i))
                   0 (Z.to_nat asize)
      else
        digit_loop r (fun i => Z.lxor (digit_at adigits i) (digit_at bdigits i))
                   0 (Z.to_nat asize));;
     digit_loop r (digit_at bdigits) (Z.to_nat asize)
                (Z.to_nat bsize - Z.to_nat asize));;
  CPyLong_NormalizeUnsigned r;;
  CPyTagged_StealFromObject r.

(** The digits the engine computes, in the spec's words: digit by digit up
    to the length [nx] of the shorter operand [xs]; OR and XOR then copy
    the remaining digits of the longer operand [ys]. *)
Definition digitwise (op : ascii) (xs : list Z) (nx : nat) (ys : list Z) (ny : nat)
  : list Z :=
  if Ascii.eqb op "&" then zip_with Z.land (take nx xs) (take ny ys)
  else zip_with (bitop op) (take nx xs) (take ny ys) ++ drop nx (take ny ys).

(** The operands are swapped so that the shorter one comes first. *)
Definition engine_digits (op : ascii) (adigits : list Z) (asize : Z)
    (bdigits : list Z) (bsize : Z) : list Z :=
  if asize >? bsize
  then digitwise op bdigits (Z.to_nat bsize) adigits (Z.to_nat asize)
  else digitwise op adigits (Z.to_nat asize) bdigits (Z.to_nat bsize).

(** [x] re-encodes the object [v]: inline if the value fits, else the
    boxed object itself. *)
Definition encodes (s : Runtime) (x : Z) (v : PyLongObject) : Prop :=
  (CPY_TAGGED_MIN <= PyLong_value v <= CPY_TAGGED_MAX /\
   CPyTagged_CheckShort x = true /\ CPyTagged_ShortAsSsize_t x = PyLong_value v) \/
  (~ (CPY_TAGGED_MIN <= PyLong_value v <= CPY_TAGGED_MAX) /\
   CPyTagged_CheckLong x = true /\
   exists c, heap s !! CPyTagged_LongAsObject x = Some (mkObject c (PyLong v))).

(** ** Reference counts on the heap *)

(** One more reference to the object at an address; [fresh] is the object
    stored where there was none. *)
Definition retained (fresh : PyObject) (o : option PyObject) : option PyObject :=
  match o with
  | Some o => Some (mkObject (ob_refcnt o + 1) (ob_body o))
  | None => Some fresh
  end.

(** One reference less; the object goes with its last reference. *)
Definition released (o : option PyObject) : option PyObject :=
  match o with
  | Some o => if ob_refcnt o =? 1 then None
              else Some (mkObject (ob_refcnt o - 1) (ob_body o))
  | None => None
  end.

(** The object that materializes an inline operand. *)
Definition short_object (x : Z) : PyObject :=
  mkObject 1 (PyLong (PyLong_of_Z (CPyTagged_ShortAsSsize_t x))).

(** ** Results of the slow paths *)

(** A slow path started in [s] returns the integer [z] as the word [x]:
    [x] stands for [z] and is inline exactly when [z] fits; the objects of
    [s] are as they were, reference counts included, and the only new
    object is the boxed result, with one reference; the error indicator
    is untouched. *)
Definition returns_integer (s : Runtime) (z x : Z) (s' : Runtime) : Prop :=
  tagged_value s' x = Some z /\
  (CPyTagged_CheckShort x = true <-> CPY_TAGGED_MIN <= z <= CPY_TAGGED_MAX) /\
  heap s' =
    (if CPyTagged_CheckShort x then heap s
     else <[CPyTagged_LongAsObject x := mkObject 1 (PyLong (PyLong_of_Z z))]> (heap s)) /\
  (CPyTagged_CheckLong x = true -> brk s <= CPyTagged_LongAsObject x < brk s') /\
  err s' = err s /\ limit s' = limit s /\ wf_runtime s'.

(** A slow path started in [s] fails with the error [e]: the heap is as it
    was and the error indicator holds [e]. *)
Definition fails_with (s : Runtime) (e : PyExc * string) (s' : Runtime) : Prop :=
  heap s' = heap s /\ err s' = Some e /\ limit s' = limit s /\ wf_runtime s'.

(** Memory that is enough for two operands and a result: one object for
    each inline operand and one for the result. *)
Definition slots2 (l r : Z) : Z :=
  OBJECT_SLOT * (Z.b2z (CPyTagged_CheckShort l) + Z.b2z (CPyTagged_CheckShort r) + 1).
Definition slots1 (n : Z) : Z :=
  OBJECT_SLOT * (Z.b2z (CPyTagged_CheckShort n) + 1).

(** A call started in [s] leaves the objects and the error indicator as
    they were. *)
Definition state_kept (s s' : Runtime) : Prop :=
  heap s' = heap s /\ err s' = err s /\ limit s' = limit s /\ wf_runtime s'.

(** ** int_ops.c: pointers, native words and reference counts *)

(** The host's [PyLong_FromVoidPtr]: the address read as an unsigned
    integer. *)
Definition PyLong_FromVoidPtr (ptr : Z) : M Z := PyLong_FromZ (to_size_t ptr).

Definition CPyTagged_FromVoidPtr (ptr : Z) : M Z :=
  if to_size_t ptr >? PY_SSIZE_T_MAX then
    object ← PyLong_FromVoidPtr ptr;
    mret (Z.lor object CPY_INT_TAG)
  else CPyTagged_FromSsize_t (to_ssize_t ptr).

(** The host's [PyLong_AsSsize_t]: the value, or -1 with [OverflowError]
    when it does not fit [Py_ssize_t]. *)
Definition PyLong_AsSsize_t (o : Z) : M Z :=
  v ← get_long o;
  if (PY_SSIZE_T_MIN <=? PyLong_value v) && (PyLong_value v <=? PY_SSIZE_T_MAX)
  then mret (PyLong_value v)
  else
    PyErr_SetString PyExc_OverflowError "Python int too large to convert to C ssize_t";;
    mret (-1).

Definition CPyTagged_AsSsize_t (x : Z) : M Z :=
  if CPyTagged_CheckShort x then mret (CPyTagged_ShortAsSsize_t x)
  else PyLong_AsSsize_t (CPyTagged_LongAsObject x).

(** [Py_XDECREF] does nothing on [NULL]. *)
Definition Py_XDECREF (p : Z) : M unit :=
  if p =? NULL then mret tt else Py_DECREF p.

Definition CPyTagged_IncRef (x : Z) : M unit :=
  if CPyTagged_CheckLong x then Py_INCREF (CPyTagged_LongAsObject x) else mret tt.

Definition CPyTagged_DecRef (x : Z) : M unit :=
  if CPyTagged_CheckLong x then Py_DECREF (CPyTagged_LongAsObject x) else mret tt.

Definition CPyTagged_XDecRef (x : Z) : M unit :=
  if CPyTagged_CheckLong x then Py_XDECREF (CPyTagged_LongAsObject x) else mret tt.

(** ** int_ops.c: unboxing to fixed widths *)

(** [long] and [long long] have 64 bits on 64-bit Linux and macOS. *)
Definition LONG_MIN : Z := - 2 ^ 63.
Definition LONG_MAX : Z := 2 ^ 63 - 1.

(** The host's [PyLong_AsLongAndOverflow] on an integer object: the value
    with [*overflow = 0], or -1 with [*overflow] set to 1 or -1 when the
    value is above or below the range of [long]. *)
Definition PyLong_AsLongAndOverflow (o : Z) : M (Z * Z) :=
  v ← get_long o;
  mret (if PyLong_value v >? LONG_MAX then (-1, 1)
        else if PyLong_value v <? LONG_MIN then (-1, -1)
        else (PyLong_value v, 0)).

Definition PyLong_AsLongLongAndOverflow : Z -> M (Z * Z) := PyLong_AsLongAndOverflow.

(** The host's [PyErr_Occurred]: is the error indicator set? *)
Definition PyErr_Occurred : M bool :=
  fun s => Ret (match err s with Some _ => true | None => false end) s.

Definition CPyLong_AsInt64_ (o : Z) : M Z :=
  '(result, overflow) ← PyLong_AsLongLongAndOverflow o;
  if result =? -1 then
    occurred ← PyErr_Occurred;
    if (occurred : bool) then mret CPY_LL_INT_ERROR
    else if negb (overflow =? 0) then
      PyErr_SetString PyExc_OverflowError "int too large to convert to i64";;
      mret CPY_LL_INT_ERROR
    else mret (to_int64 result)
  else mret (to_int64 result).

Definition CPyLong_AsInt32_ (o : Z) : M Z :=
  '(result, overflow) ← PyLong_AsLongAndOverflow o;
  let '(result, overflow) :=
    if (result >? 2147483647) || (result <? -2147483648) then (-1, 1)
    else (result, overflow) in
  if result =? -1 then
    occurred ← PyErr_Occurred;
    if (occurred : bool) then mret CPY_LL_INT_ERROR
    else if negb (overflow =? 0) then
      PyErr_SetString PyExc_OverflowError "int too large to convert to i32";;
      mret CPY_LL_INT_ERROR
    else mret (to_int32 result)
  else mret (to_int32 result).

Definition CPyInt32_Overflow : M unit :=
  PyErr_SetString PyExc_OverflowError "int too large to convert to i32".

Definition CPyLong_AsInt16_ (o : Z) : M Z :=
  '(result, overflow) ← PyLong_AsLongAndOverflow o;
  let '(result, overflow) :=
    if (result >? 32767) || (result <? -32768) then (-1, 1)
    else (result, overflow) in
  if result =? -1 then
    occurred ← PyErr_Occurred;
    if (occurred : bool) then mret CPY_LL_INT_ERROR
    else if negb (overflow =? 0) then
      PyErr_SetString PyExc_OverflowError "int too large to convert to i16";;
      mret CPY_LL_INT_ERROR
    else mret (to_int16 result)
  else mret (to_int16 result).

Definition CPyInt16_Overflow : M unit :=
  PyErr_SetString PyExc_OverflowError "int too large to convert to i16".

Definition to_uint8 : Z -> Z := to_unsigned 8.

Section UInt8.

(** The error sentinel of the unsigned operations is declared in
    mypyc_util.h, which is not among the sources: it is a parameter. *)
Variable CPY_LL_UINT_ERROR : Z.

Definition CPyLong_AsUInt8_ (o : Z) : M Z :=
  '(result, overflow) ← PyLong_AsLongAndOverflow o;
  let '(result, overflow) :=
    if (result <? 0) || (result >=? 256) then (-1, 1)
    else (result, overflow) in
  if result =? -1 then
    occurred ← PyErr_Occurred;
    if (occurred : bool) then mret (to_uint8 CPY_LL_UINT_ERROR)
    else if negb (overflow =? 0) then
      PyErr_SetString PyExc_OverflowError "int too large or small to convert to u8";;
      mret (to_uint8 CPY_LL_UINT_ERROR)
    else mret (to_uint8 result)
  else mret (to_uint8 result).

End UInt8.

Definition CPyUInt8_Overflow : M unit :=
  PyErr_SetString PyExc_OverflowError "int too large or small to convert to u8".

(** ** int_ops.c: conversion from a double *)

Definition double_add : spec_float -> spec_float -> spec_float :=
  SFadd double_prec double_emax.
Definition double_sub : spec_float -> spec_float -> spec_float :=
  SFsub double_prec double_emax.

(** The conversion of a double to an integer type drops the fractional
    part. *)
Definition double_trunc (f : spec_float) : Z :=
  match f with
  | S754_finite s m e =>
      let n := if 0 <=? e then Zpos m * 2 ^ e else Zpos m / 2 ^ (- e) in
      if s then - n else n
  | _ => 0
  end.

(** The host's [PyLong_FromDouble]: the integral part of a finite double,
    [OverflowError] for an infinity, [ValueError] for a NaN. *)
Definition PyLong_FromDouble (f : spec_float) : M Z :=
  match f with
  | S754_nan =>
      PyErr_SetString PyExc_ValueError "cannot convert float NaN to integer";;
      mret NULL
  | S754_infinity _ =>
      PyErr_SetString PyExc_OverflowError "cannot convert float infinity to integer";;
      mret NULL
  | _ => PyLong_FromZ (double_trunc f)
  end.

Definition CPyTagged_FromFloat (f : spec_float) : M Z :=
  if SFltb f (double_add (double_of_Z CPY_TAGGED_MAX) (double_of_Z 1))
     && SFltb (double_sub (double_of_Z CPY_TAGGED_MIN) (double_of_Z 1)) f
  then mret (to_size_t (Z.shiftl (to_ssize_t (double_trunc f)) 1))
  else
    o ← PyLong_FromDouble f;
    if o =? NULL then mret CPY_INT_TAG else CPyTagged_StealFromObject o.

(** ** int_ops.c: parsing *)

Section FromStr.

(** The host's parser [PyLong_FromUnicodeObject(o, base)] is a parameter;
    its [base] is an [int], to which the call converts the [Py_ssize_t]. *)
Variable PyLong_FromUnicodeObject : Z -> Z -> M Z.

Definition CPyLong_FromStrWithBase (o base : Z) : M Z :=
  base_size_t ← CPyTagged_AsSsize_t base;
  PyLong_FromUnicodeObject o (to_int32 base_size_t).

Definition CPyLong_FromStr (o : Z) : M Z :=
  base ← CPyTagged_FromSsize_t 10;
  CPyLong_FromStrWithBase o base.

End FromStr.

(** ** Sample states *)

Module Samples.

(** No object yet, room for many. *)
Definition rt_empty : Runtime := mkRuntime ∅ 16 4096 None.

(** The boxed integer [2^62 = CPY_TAGGED_MAX + 1] and the boxed [- 2^62 - 1]. *)
Definition big : PyLongObject := mkLong 3 [0; 0; 4].
Definition big_neg : PyLongObject := mkLong (-3) [1; 0; 4].

Definition rt_big : Runtime :=
  mkRuntime (<[16 := mkObject 1 (PyLong big)]> (<[32 := mkObject 1 (PyLong big_neg)]> ∅))
            48 4096 None.

(** The same objects with the allocator's memory used up. *)
Definition rt_full : Runtime :=
  mkRuntime (<[16 := mkObject 1 (PyLong big)]> (<[32 := mkObject 1 (PyLong big_neg)]> ∅))
            48 48 None.

End Samples.

(** The sample state [Samples.rt_big] with room for one more object. *)
Definition rt_tight : Runtime :=
  mkRuntime (heap Samples.rt_big) (brk Samples.rt_big)
            (brk Samples.rt_big + OBJECT_SLOT) None.

(** * Properties *)

(** ** Fixed-width conversions *)

Lemma to_signed_id (bits z : Z) :
  0 < bits -> - 2 ^ (bits - 1) <= z < 2 ^ (bits - 1) -> to_signed bits z = z.
Proof.
  intros Hb Hz. unfold to_signed.
  replace (2 ^ bits) with (2 * 2 ^ (bits - 1)).
  - rewrite Z.mod_small; lia.
  - rewrite <- Z.pow_succ_r by lia. f_equal. lia.
Qed.

Lemma to_unsigned_id (bits z : Z) :
  0 <= z < 2 ^ bits -> to_unsigned bits z = z.
Proof. intros Hz. unfold to_unsigned. now apply Z.mod_small. Qed.

Lemma to_ssize_t_id (z : Z) :
  PY_SSIZE_T_MIN <= z <= PY_SSIZE_T_MAX -> to_ssize_t z = z.
Proof.
  unfold PY_SSIZE_T_MIN, PY_SSIZE_T_MAX, to_ssize_t, CPY_INT_BITS. intros Hz.
  apply to_signed_id; lia.
Qed.

Lemma to_size_t_id (z : Z) : 0 <= z < 2 ^ 64 -> to_size_t z = z.
Proof. intros Hz. now apply to_unsigned_id. Qed.

(** A non-negative word that fits is read back unchanged as [Py_ssize_t];
    a word with the top bit set is read as a negative number. *)
Lemma to_ssize_t_of_size_t (z : Z) :
  PY_SSIZE_T_MIN <= z <= PY_SSIZE_T_MAX -> to_ssize_t (to_size_t z) = z.
Proof.
  unfold PY_SSIZE_T_MIN, PY_SSIZE_T_MAX, to_ssize_t, to_size_t, to_signed,
    to_unsigned, CPY_INT_BITS. intros Hz.
  change (2 ^ (64 - 1)) with 9223372036854775808 in *.
  change (2 ^ 64) with 18446744073709551616.
  rewrite Zplus_mod_idemp_l.
  rewrite Z.mod_small; lia.
Qed.

Lemma tagged_range :
  CPY_TAGGED_MAX = 2 ^ 62 - 1 /\ CPY_TAGGED_MIN = - 2 ^ 62 /\
  CPY_TAGGED_ABS_MIN = 2 ^ 62.
Proof. repeat split; reflexivity. Qed.

Lemma TooBig_spec (value : Z) :
  CPyTagged_TooBig value = false <-> CPY_TAGGED_MIN <= value <= CPY_TAGGED_MAX.
Proof.
  destruct tagged_range as (-> & -> & _).
  unfold CPyTagged_TooBig, PY_SSIZE_T_MIN, PY_SSIZE_T_MAX, CPY_INT_BITS.
  change (2 ^ (64 - 1)) with (2 * 2 ^ 62).
  rewrite negb_false_iff, andb_true_iff, !Z.leb_le. lia.
Qed.

(** ** The tag bit *)

Lemma shiftl1_short (n : Z) :
  CPyTagged_CheckShort (to_size_t (Z.shiftl n 1)) = true.
Proof.
  unfold CPyTagged_CheckShort, CPyTagged_CheckLong, to_size_t, to_unsigned,
    CPY_INT_BITS.
  rewrite Z.mod_pow2_bits_low by lia.
  rewrite Z.shiftl_spec_low by lia. reflexivity.
Qed.

Lemma shiftl1_decode (n : Z) :
  CPY_TAGGED_MIN <= n <= CPY_TAGGED_MAX ->
  CPyTagged_ShortAsSsize_t (to_size_t (Z.shiftl n 1)) = n.
Proof.
  destruct tagged_range as (-> & -> & _). intros Hn.
  unfold CPyTagged_ShortAsSsize_t.
  rewrite Z.shiftl_mul_pow2 by lia.
  rewrite to_ssize_t_of_size_t.
  - rewrite Z.shiftr_div_pow2 by lia. change (2 ^ 1) with 2.
    now rewrite Z.div_mul.
  - unfold PY_SSIZE_T_MIN, PY_SSIZE_T_MAX, CPY_INT_BITS.
    change (2 ^ (64 - 1)) with (2 * 2 ^ 62). lia.
Qed.

Lemma tag_bit_set (p : Z) : CPyTagged_CheckLong (Z.lor p CPY_INT_TAG) = true.
Proof.
  unfold CPyTagged_CheckLong, CPY_INT_TAG.
  rewrite Z.lor_spec. apply orb_true_r.
Qed.

Lemma even_bit0 (p : Z) : p mod 2 = 0 -> Z.testbit p 0 = false.
Proof.
  intros Hp. pose proof (Z.bit0_mod p) as H. rewrite Hp in H.
  destruct (Z.testbit p 0); [discriminate | reflexivity].
Qed.

Lemma untag_tagged (p : Z) :
  p mod 2 = 0 -> CPyTagged_LongAsObject (Z.lor p CPY_INT_TAG) = p.
Proof.
  intros Hp. unfold CPyTagged_LongAsObject, CPY_INT_TAG.
  apply Z.bits_inj'. intros i Hi.
  rewrite Z.land_spec, Z.lor_spec, Z.lnot_spec by assumption.
  destruct (Z.eq_dec i 0) as [-> | Hne].
  - rewrite even_bit0 by assumption. reflexivity.
  - replace (Z.testbit 1 i) with false.
    + now rewrite orb_false_r, andb_true_r.
    + symmetry. apply (Z.bits_above_log2 1 i); simpl; lia.
Qed.

Lemma tagged_not_sentinel (p : Z) :
  0 < p -> p mod 2 = 0 -> Z.lor p CPY_INT_TAG <> CPY_INT_TAG.
Proof.
  intros Hpos Hp Heq.
  apply (f_equal CPyTagged_LongAsObject) in Heq.
  rewrite untag_tagged in Heq by assumption.
  change (CPyTagged_LongAsObject CPY_INT_TAG) with 0 in Heq. lia.
Qed.

Lemma short_not_sentinel (x : Z) :
  CPyTagged_CheckShort x = true -> x <> CPY_INT_TAG.
Proof. intros Hs ->. discriminate Hs. Qed.

(** ** Digit sequences *)

Lemma base_pos : 0 < PyLong_BASE.
Proof. reflexivity. Qed.

Lemma digits_value_bound (ds : list Z) :
  Forall digit_ok ds ->
  0 <= digits_value ds < PyLong_BASE ^ Z.of_nat (length ds).
Proof.
  induction 1 as [| d ds Hd _ IH].
  - simpl. lia.
  - cbn [digits_value length]. rewrite Nat2Z.inj_succ, Z.pow_succ_r by lia.
    unfold digit_ok in Hd. pose proof base_pos. nia.
Qed.

Lemma digits_of_valid (fuel : nat) (n : Z) : Forall digit_ok (digits_of fuel n).
Proof.
  revert n. induction fuel as [| fuel IH]; intros n; simpl.
  - constructor.
  - destruct (n =? 0); constructor; [| apply IH].
    apply Z.mod_pos_bound, base_pos.
Qed.

Lemma digits_of_value (fuel : nat) (n : Z) :
  0 <= n < 2 ^ Z.of_nat fuel -> digits_value (digits_of fuel n) = n.
Proof.
  revert n. induction fuel as [| fuel IH]; intros n Hn.
  - simpl in *. lia.
  - cbn [digits_of]. destruct (n =? 0) eqn:Hz.
    + apply Z.eqb_eq in Hz. now subst.
    + cbn [digits_value]. rewrite IH.
      * pose proof (Z.div_mod n PyLong_BASE). pose proof base_pos. lia.
      * rewrite Nat2Z.inj_succ, Z.pow_succ_r in Hn by lia.
        split; [apply Z.div_pos; [lia | apply base_pos] |].
        apply Z.div_lt_upper_bound; [apply base_pos |].
        unfold PyLong_BASE, PyLong_SHIFT.
        change (2 ^ 30) with 1073741824. lia.
Qed.

Lemma digits_of_nonempty (fuel : nat) (n : Z) :
  n <> 0 -> digits_of (S fuel) n <> [].
Proof.
  intros Hn. cbn [digits_of].
  destruct (n =? 0) eqn:Hz; [apply Z.eqb_eq in Hz; contradiction | discriminate].
Qed.

Lemma PyLong_of_Z_value (z : Z) : PyLong_value (PyLong_of_Z z) = z.
Proof.
  unfold PyLong_value, PyLong_of_Z, long_digits. cbn [ob_size ob_digit].
  set (fuel := Z.to_nat (Z.log2 (Z.abs z) + 1)).
  set (ds := digits_of fuel (Z.abs z)).
  destruct (Z.eq_dec z 0) as [-> | Hz]; [reflexivity |].
  assert (Hlen : (0 < length ds)%nat).
  { subst ds fuel. pose proof (Z.log2_nonneg (Z.abs z)).
    replace (Z.to_nat (Z.log2 (Z.abs z) + 1))
      with (S (Z.to_nat (Z.log2 (Z.abs z)))) by lia.
    pose proof (digits_of_nonempty (Z.to_nat (Z.log2 (Z.abs z))) (Z.abs z)) as Hne.
    destruct (digits_of _ _); [exfalso; apply Hne; [lia | reflexivity] | simpl; lia]. }
  assert (Hval : digits_value ds = Z.abs z).
  { subst ds fuel. apply digits_of_value.
    pose proof (Z.log2_spec (Z.abs z)). pose proof (Z.log2_nonneg (Z.abs z)).
    rewrite Z2Nat.id by lia. replace (Z.log2 (Z.abs z) + 1) with (Z.succ (Z.log2 (Z.abs z))) by lia.
    lia. }
  replace (Z.to_nat (Z.abs (Z.sgn z * Z.of_nat (length ds)))) with (length ds) by lia.
  rewrite firstn_all, Hval.
  replace (Z.sgn (Z.sgn z * Z.of_nat (length ds))) with (Z.sgn z) by lia.
  lia.
Qed.

Lemma PyLong_of_Z_valid (z : Z) : valid_long (PyLong_of_Z z).
Proof.
  split; unfold PyLong_of_Z; cbn [ob_size ob_digit].
  - apply digits_of_valid.
  - lia.
Qed.

(** ** pythonsupport.c: the size conversion *)

(** A boolean check of the digits of a concrete object. *)
Lemma digits_ok_check (ds : list Z) :
  forallb (fun d => (0 <=? d) && (d <? PyLong_BASE)) ds = true -> Forall digit_ok ds.
Proof.
  induction ds as [| d ds IH]; cbn [forallb]; intros H; constructor.
  - apply andb_true_iff in H as [H _]. apply andb_true_iff in H as [H1 H2].
    split; lia.
  - apply IH. now apply andb_true_iff in H as [_ H].
Qed.

Lemma nth_digit_ok (ds : list Z) (i : nat) :
  Forall digit_ok ds -> digit_ok (nth i ds 0).
Proof.
  intros Hds. revert i. induction Hds as [| d ds Hd _ IH]; intros [| i]; simpl;
    try assumption; try apply IH; unfold digit_ok; pose proof base_pos; lia.
Qed.

Lemma take_succ_value (ds : list Z) (i : nat) :
  digits_value (take (S i) ds) =
  digits_value (take i ds) + nth i ds 0 * PyLong_BASE ^ Z.of_nat i.
Proof.
  revert i. induction ds as [| d ds IH]; intros i.
  - destruct i; reflexivity.
  - destruct i as [| i].
    + change (take 1 (d :: ds)) with [d]. change (take 0 (d :: ds)) with (@nil Z).
      cbn [digits_value nth Z.of_nat]. rewrite Z.pow_0_r. lia.
    + change (take (S (S i)) (d :: ds)) with (d :: take (S i) ds).
      change (take (S i) (d :: ds)) with (d :: take i ds).
      cbn [digits_value nth]. rewrite IH, Nat2Z.inj_succ, Z.pow_succ_r by lia.
      ring.
Qed.

(** The loop computes the value of the digits it has read, and leaves
    through [exit] exactly when that value does not fit in [size_t]. *)
Lemma accumulate_digits_spec (v : PyLongObject) (i : nat) (x : Z) :
  Forall digit_ok (ob_digit v) -> 0 <= x < 2 ^ 64 ->
  accumulate_digits v i x =
  let V := x * PyLong_BASE ^ Z.of_nat i + digits_value (take i (ob_digit v)) in
  if V <? 2 ^ 64 then Some V else None.
Proof.
  intros Hds. revert x. induction i as [| i IH]; intros x Hx.
  - cbn. rewrite Z.mul_1_r, Z.add_0_r.
    destruct (Z.ltb_spec x (2 ^ 64)); [reflexivity | lia].
  - cbn [accumulate_digits]. cbv zeta.
    rewrite take_succ_value, Nat2Z.inj_succ, Z.pow_succ_r by lia.
    unfold CPY_LONG_DIGIT.
    pose proof (nth_digit_ok (ob_digit v) i Hds) as Hd. unfold digit_ok in Hd.
    pose proof (digits_value_bound (take i (ob_digit v))
                  (Forall_take _ _ _ Hds)) as Hlow.
    set (d := nth i (ob_digit v) 0) in *.
    set (low := digits_value (take i (ob_digit v))) in *.
    assert (Hpow : 1 <= PyLong_BASE ^ Z.of_nat i).
    { pose proof (Z.pow_pos_nonneg PyLong_BASE (Z.of_nat i) base_pos). lia. }
    set (P := PyLong_BASE ^ Z.of_nat i) in *.
    rewrite Z.shiftl_mul_pow2 by (unfold PyLong_SHIFT; lia).
    rewrite Z.shiftr_div_pow2 by (unfold PyLong_SHIFT; lia).
    unfold to_size_t, to_unsigned, CPY_INT_BITS.
    fold PyLong_BASE. unfold PyLong_BASE, PyLong_SHIFT in *.
    change (2 ^ 64) with 18446744073709551616 in *.
    change (2 ^ 30) with 1073741824 in *.
    set (x' := x * 1073741824 + d).
    destruct (Z.ltb_spec x' 18446744073709551616) as [Hfit | Hover].
    + rewrite (Z.mod_small x') by (subst x'; lia).
      replace (x' / 1073741824) with x
        by (subst x'; rewrite Z.div_add_l, Z.div_small by lia; lia).
      rewrite Z.eqb_refl. cbn [negb].
      rewrite IH by (subst x'; lia). cbv zeta. fold P. fold low.
      replace (x' * P + low) with (x * (1073741824 * P) + (low + d * P))
        by (subst x'; ring).
      reflexivity.
    + assert (Hne : x' mod 18446744073709551616 / 1073741824 <> x).
      { pose proof (Z.div_mod x' 18446744073709551616) as Hdm.
        pose proof (Z.mod_pos_bound x' 18446744073709551616) as Hmb.
        assert (1 <= x' / 18446744073709551616)
          by (apply Z.div_le_lower_bound; lia).
        pose proof (Z.mul_div_le (x' mod 18446744073709551616) 1073741824).
        subst x'. lia. }
      apply Z.eqb_neq in Hne. rewrite Hne. cbn [negb].
      destruct (Z.ltb_spec (x * (1073741824 * P) + (low + d * P))
                           18446744073709551616); [| reflexivity].
      subst x'. nia.
Qed.

Lemma AsSsize_t_finish (v : PyLongObject) :
  Forall digit_ok (ob_digit v) ->
  CPyLong_AsSsize_tAndOverflow_ v =
  finish_conversion (sign_of v)
    (if magnitude v <? 2 ^ 64 then Some (magnitude v) else None).
Proof.
  intros Hds. unfold CPyLong_AsSsize_tAndOverflow_. cbv zeta.
  rewrite accumulate_digits_spec by (assumption || lia). cbv zeta.
  rewrite Z.mul_0_l, Z.add_0_l. unfold magnitude, long_digits, sign_of.
  replace (Z.to_nat (if ob_size v <? 0 then - ob_size v else ob_size v))
    with (Z.to_nat (Z.abs (ob_size v)))
    by (destruct (Z.ltb_spec (ob_size v) 0); lia).
  reflexivity.
Qed.

(** The layout [Py312.lv_tag] gives back the digit count and the sign. *)
Lemma lv_tag_fields (v : PyLongObject) :
  Z.shiftr (Py312.lv_tag v) 3 = Z.abs (ob_size v) /\
  negb (Z.land (Py312.lv_tag v) 2 =? 0) = (ob_size v <? 0).
Proof.
  unfold Py312.lv_tag.
  set (n := Z.abs (ob_size v)). assert (Hn : 0 <= n) by (subst n; lia).
  set (c := if ob_size v <? 0 then 2 else if ob_size v =? 0 then 1 else 0).
  assert (Hc : c = 0 \/ c = 1 \/ c = 2)
    by (subst c; destruct (ob_size v <? 0), (ob_size v =? 0); auto).
  split.
  - rewrite Z.shiftr_lor, Z.shiftr_shiftl_l, Z.sub_diag, Z.shiftl_0_r by lia.
    replace (Z.shiftr c 3) with 0 by (destruct Hc as [-> | [-> | ->]]; reflexivity).
    apply Z.lor_0_r.
  - rewrite Z.land_lor_distr_l.
    replace (Z.land (Z.shiftl n 3) 2) with 0.
    + rewrite Z.lor_0_l. subst c.
      destruct (ob_size v <? 0); [reflexivity |].
      destruct (ob_size v =? 0); reflexivity.
    + symmetry. apply Z.bits_inj'. intros i Hi.
      rewrite Z.land_spec, Z.bits_0.
      destruct (Z.ltb_spec i 3).
      * rewrite Z.shiftl_spec_low by lia. reflexivity.
      * replace (Z.testbit 2 i) with false; [apply andb_false_r |].
        symmetry. apply (Z.bits_above_log2 2 i); simpl; lia.
Qed.

(** Whatever the layout, if the tag gives the digit count and the sign, the
    version for Python 3.12 agrees with the older one. *)
Lemma AsSsize_t_312_agrees (tag : PyLongObject -> Z) (bits neg : Z) (v : PyLongObject) :
  Z.shiftr (tag v) bits = Z.abs (ob_size v) ->
  negb (Z.land (tag v) neg =? 0) = (ob_size v <? 0) ->
  Py312.CPyLong_AsSsize_tAndOverflow_ tag bits neg v = CPyLong_AsSsize_tAndOverflow_ v.
Proof.
  intros Hsize Hsign.
  unfold Py312.CPyLong_AsSsize_tAndOverflow_, CPyLong_AsSsize_tAndOverflow_.
  cbv zeta. rewrite Hsize, Hsign.
  replace (Z.to_nat (if ob_size v <? 0 then - ob_size v else ob_size v))
    with (Z.to_nat (Z.abs (ob_size v)))
    by (destruct (Z.ltb_spec (ob_size v) 0); lia).
  reflexivity.
Qed.

Lemma finish_in_range (sign M : Z) :
  sign = 1 \/ sign = -1 -> 0 <= M <= CPY_TAGGED_MAX ->
  finish_conversion sign (if M <? 2 ^ 64 then Some M else None) = (sign * M, 0).
Proof.
  destruct tagged_range as (Hmax & _ & _). intros Hs HM.
  rewrite Hmax in HM. change (2 ^ 62) with 4611686018427387904 in HM.
  destruct (Z.ltb_spec M (2 ^ 64)) as [_ | Hge];
    [| change (2 ^ 64) with 18446744073709551616 in Hge; lia].
  unfold finish_conversion.
  rewrite to_size_t_id by (rewrite Hmax; lia).
  destruct (Z.leb_spec M CPY_TAGGED_MAX) as [_ | Hlt]; [| lia].
  assert (Hr : forall z, - 4611686018427387904 <= z <= 4611686018427387904 ->
                         to_ssize_t z = z).
  { intros z Hz. apply to_ssize_t_id. unfold PY_SSIZE_T_MIN, PY_SSIZE_T_MAX, CPY_INT_BITS.
    change (2 ^ (64 - 1)) with 9223372036854775808. lia. }
  rewrite (Hr M) by lia. rewrite Hr by (destruct Hs as [-> | ->]; lia).
  f_equal. lia.
Qed.

Lemma finish_minimum (M : Z) :
  M = CPY_TAGGED_MAX + 1 ->
  finish_conversion (-1) (if M <? 2 ^ 64 then Some M else None) = (CPY_TAGGED_MIN, 0).
Proof. intros ->. reflexivity. Qed.

Lemma finish_overflow (sign M : Z) :
  sign = 1 \/ sign = -1 -> CPY_TAGGED_MAX < M ->
  ~ (sign = -1 /\ M = CPY_TAGGED_MAX + 1) ->
  finish_conversion sign (if M <? 2 ^ 64 then Some M else None) = (-1, sign).
Proof.
  destruct tagged_range as (Hmax & _ & Habs). intros Hs HM Hne.
  destruct (Z.ltb_spec M (2 ^ 64)) as [Hlt | Hge]; [| reflexivity].
  unfold finish_conversion. rewrite Habs.
  rewrite to_size_t_id by (rewrite Hmax; lia).
  destruct (Z.leb_spec M CPY_TAGGED_MAX) as [Hle | _]; [lia |].
  destruct (Z.ltb_spec sign 0), (Z.eqb_spec M (2 ^ 62)); cbn [andb]; try reflexivity.
  exfalso. apply Hne. rewrite Hmax. lia.
Qed.

Lemma sign_of_cases (v : PyLongObject) : sign_of v = 1 \/ sign_of v = -1.
Proof. unfold sign_of. destruct (ob_size v <? 0); auto. Qed.

Lemma magnitude_nonneg (v : PyLongObject) :
  Forall digit_ok (ob_digit v) -> 0 <= magnitude v.
Proof.
  intros Hds. unfold magnitude, long_digits.
  apply digits_value_bound, Forall_take, Hds.
Qed.

(** A step that does not grow the accumulator has lost bits, unless the
    accumulator and the digit are both zero (a zero digit at the top, which
    a canonical integer does not have). *)
Lemma accumulate_step_exit (v : PyLongObject) (i : nat) (x : Z) :
  digit_ok (CPY_LONG_DIGIT v i) -> 0 <= x < 2 ^ 64 ->
  0 < x \/ 0 < CPY_LONG_DIGIT v i ->
  to_size_t (Z.shiftl x PyLong_SHIFT + CPY_LONG_DIGIT v i) <= x ->
  accumulate_digits v (S i) x = None.
Proof.
  intros Hd Hx Hpos Hle. cbn [accumulate_digits]. cbv zeta.
  set (x' := to_size_t _) in *.
  destruct (Z.eqb_spec (Z.shiftr x' PyLong_SHIFT) x) as [Heq | _]; [| reflexivity].
  exfalso. rewrite Z.shiftr_div_pow2 in Heq by (unfold PyLong_SHIFT; lia).
  unfold PyLong_SHIFT in Heq. change (2 ^ 30) with 1073741824 in Heq.
  pose proof (Z.mul_div_le x' 1073741824).
  destruct Hpos as [Hpos | Hpos]; [lia |].
  assert (Hx0 : x = 0) by lia.
  assert (Hx' : x' = CPY_LONG_DIGIT v i).
  { subst x' x. rewrite Z.shiftl_0_l, Z.add_0_l.
    unfold digit_ok, PyLong_BASE, PyLong_SHIFT in Hd.
    change (2 ^ 30) with 1073741824 in Hd. apply to_size_t_id.
    change (2 ^ 64) with 18446744073709551616. lia. }
  lia.
Qed.

(** C5: the overflow-safe size conversion reads the digits from the most
    significant one down (the accumulator holds the digits read so far,
    above the [i] digits still to come), leaves at once with [*overflow]
    set to the sign when a shift-and-add step does not grow the
    accumulator (a step from 0 with a zero digit apart, which needs a zero
    digit at the top), and afterwards
    has three outcomes: a magnitude up to [CPY_TAGGED_MAX] gives sign times
    magnitude with [*overflow == 0]; a negative operand of magnitude
    [CPY_TAGGED_MAX + 1] gives [CPY_TAGGED_MIN] with [*overflow == 0];
    anything else gives [-1] with [*overflow] set to the sign.  The version
    for Python 3.12 agrees with the one for 3.11 and earlier whenever the
    tag gives the digit count and the sign, as the layout [Py312.lv_tag]
    does. *)
Theorem size_conversion_outcomes (v : PyLongObject) :
  Forall digit_ok (ob_digit v) ->
  (forall (i : nat) (x : Z),
      0 <= x < 2 ^ 64 ->
      accumulate_digits v i x =
      let V := x * PyLong_BASE ^ Z.of_nat i + digits_value (take i (ob_digit v)) in
      if V <? 2 ^ 64 then Some V else None) /\
  (forall (i : nat) (x : Z),
      0 <= x < 2 ^ 64 -> 0 < x \/ 0 < CPY_LONG_DIGIT v i ->
      to_size_t (Z.shiftl x PyLong_SHIFT + CPY_LONG_DIGIT v i) <= x ->
      accumulate_digits v (S i) x = None /\
      finish_conversion (sign_of v) (accumulate_digits v (S i) x) = (-1, sign_of v)) /\
  (magnitude v <= CPY_TAGGED_MAX ->
   CPyLong_AsSsize_tAndOverflow_ v = (sign_of v * magnitude v, 0)) /\
  (sign_of v = -1 -> magnitude v = CPY_TAGGED_MAX + 1 ->
   CPyLong_AsSsize_tAndOverflow_ v = (CPY_TAGGED_MIN, 0)) /\
  (CPY_TAGGED_MAX < magnitude v ->
   ~ (sign_of v = -1 /\ magnitude v = CPY_TAGGED_MAX + 1) ->
   CPyLong_AsSsize_tAndOverflow_ v = (-1, sign_of v)) /\
  (forall (tag : PyLongObject -> Z) (bits neg : Z),
      Z.shiftr (tag v) bits = Z.abs (ob_size v) ->
      negb (Z.land (tag v) neg =? 0) = (ob_size v <? 0) ->
      Py312.CPyLong_AsSsize_tAndOverflow_ tag bits neg v =
      CPyLong_AsSsize_tAndOverflow_ v) /\
  Py312.CPyLong_AsSsize_tAndOverflow_ Py312.lv_tag 3 2 v =
  CPyLong_AsSsize_tAndOverflow_ v.
Proof.
  intros Hds. pose proof (magnitude_nonneg v Hds) as Hnn.
  pose proof (sign_of_cases v) as Hs.
  split; [intros i x Hx; now apply accumulate_digits_spec |]. split.
  { intros i x Hx Hpos Hle.
    assert (Hexit : accumulate_digits v (S i) x = None).
    { apply accumulate_step_exit; try assumption.
      apply nth_digit_ok, Hds. }
    rewrite Hexit. split; reflexivity. }
  split_and!.
  - intros HM. rewrite AsSsize_t_finish by assumption.
    apply finish_in_range; [assumption | lia].
  - intros Hneg HM. rewrite AsSsize_t_finish by assumption.
    rewrite Hneg. now apply finish_minimum.
  - intros HM Hne. rewrite AsSsize_t_finish by assumption.
    now apply finish_overflow.
  - intros tag bits neg. apply AsSsize_t_312_agrees.
  - apply AsSsize_t_312_agrees; apply lv_tag_fields.
Qed.

Lemma size_conversion_outcomes_witness :
  Forall digit_ok (ob_digit Samples.big_neg) /\
  CPyLong_AsSsize_tAndOverflow_ Samples.big_neg = (-1, -1) /\
  CPyLong_AsSsize_tAndOverflow_ (mkLong (-3) [0; 0; 4]) = (CPY_TAGGED_MIN, 0) /\
  CPyLong_AsSsize_tAndOverflow_ (mkLong (-2) [5; 7]) = (- (5 + 7 * 2 ^ 30), 0).
Proof.
  pose proof digits_ok_check as Hok.
  split; [apply Hok; reflexivity |]. split; [| split].
  - destruct (size_conversion_outcomes Samples.big_neg) as (_ & _ & _ & _ & H & _ & _);
      [apply Hok; reflexivity |].
    apply H.
    + vm_compute. reflexivity.
    + vm_compute. intros [_ H']. discriminate H'.
  - destruct (size_conversion_outcomes (mkLong (-3) [0; 0; 4])) as (_ & _ & _ & H & _);
      [apply Hok; reflexivity |].
    apply H; reflexivity.
  - destruct (size_conversion_outcomes (mkLong (-2) [5; 7])) as (_ & _ & H & _);
      [apply Hok; reflexivity |].
    apply H. vm_compute. discriminate.
Defined.

(** ** Boxing a native integer *)

Lemma PyObject_New_ok (body : PyBody) (s : Runtime) :
  brk s + OBJECT_SLOT <= limit s ->
  PyObject_New body s =
  Ret (brk s) (mkRuntime (<[brk s := mkObject 1 body]> (heap s))
                         (brk s + OBJECT_SLOT) (limit s) (err s)).
Proof.
  intros Hmem. unfold PyObject_New.
  destruct (Z.leb_spec (brk s + OBJECT_SLOT) (limit s)); [reflexivity | lia].
Qed.

Lemma PyObject_New_fail (body : PyBody) (s : Runtime) :
  limit s < brk s + OBJECT_SLOT ->
  PyObject_New body s =
  Ret NULL (set_err (Some (PyExc_MemoryError, EmptyString)) s).
Proof.
  intros Hmem. unfold PyObject_New.
  destruct (Z.leb_spec (brk s + OBJECT_SLOT) (limit s)); [lia | reflexivity].
Qed.

Lemma tagged_value_boxed (s : Runtime) (p c : Z) (v : PyLongObject) :
  p mod 2 = 0 -> heap s !! p = Some (mkObject c (PyLong v)) ->
  tagged_value s (Z.lor p CPY_INT_TAG) = Some (PyLong_value v).
Proof.
  intros Hp Hv. unfold tagged_value, CPyTagged_CheckShort.
  rewrite tag_bit_set. cbn [negb]. rewrite untag_tagged by assumption.
  now rewrite Hv.
Qed.

(** C1: a native integer within [CPY_TAGGED_MIN, CPY_TAGGED_MAX] is encoded
    inline (tag bit 0) without touching the state and decodes back to
    itself; a native integer outside that range, in particular
    [CPY_TAGGED_MAX + 1], is returned with the tag bit set, and when the
    allocation succeeds the boxed object holds exactly that integer. *)
Theorem from_native_inline_iff_in_range (n : Z) (s : Runtime) :
  PY_SSIZE_T_MIN <= n <= PY_SSIZE_T_MAX ->
  (CPY_TAGGED_MIN <= n <= CPY_TAGGED_MAX ->
   exists x, CPyTagged_FromSsize_t n s = Ret x s /\
             CPyTagged_CheckShort x = true /\ CPyTagged_CheckLong x = false /\
             CPyTagged_ShortAsSsize_t x = n) /\
  (~ (CPY_TAGGED_MIN <= n <= CPY_TAGGED_MAX) ->
   exists x s', CPyTagged_FromSsize_t n s = Ret x s' /\
                CPyTagged_CheckLong x = true /\
                (wf_runtime s -> brk s + OBJECT_SLOT <= limit s ->
                 tagged_value s' x = Some n)) /\
  (exists x s', CPyTagged_FromSsize_t (CPY_TAGGED_MAX + 1) s = Ret x s' /\
                CPyTagged_CheckLong x = true).
Proof.
  intros Hn. split; [| split].
  - intros Hin. exists (to_size_t (Z.shiftl n 1)).
    unfold CPyTagged_FromSsize_t.
    rewrite (proj2 (TooBig_spec n) Hin).
    pose proof (shiftl1_short n) as Hs. repeat split; try assumption.
    + unfold CPyTagged_CheckShort in Hs. now apply negb_true_iff in Hs.
    + now apply shiftl1_decode.
  - intros Hout. unfold CPyTagged_FromSsize_t.
    destruct (CPyTagged_TooBig n) eqn:Hbig;
      [| apply TooBig_spec in Hbig; contradiction].
    unfold PyLong_FromSsize_t, PyLong_FromZ, mbind, M_bind, mret, M_ret.
    destruct (Z.leb_spec (brk s + OBJECT_SLOT) (limit s)) as [Hmem | Hmem].
    + rewrite PyObject_New_ok by assumption. eexists _, _.
      split; [reflexivity |]. split; [apply tag_bit_set |].
      intros (_ & Heven & _) _.
      erewrite tagged_value_boxed; [| assumption | cbn [heap]; apply lookup_insert_eq].
      now rewrite PyLong_of_Z_value.
    + rewrite PyObject_New_fail by assumption. eexists _, _.
      split; [reflexivity |]. split; [apply tag_bit_set | lia].
  - unfold CPyTagged_FromSsize_t.
    change (CPyTagged_TooBig (CPY_TAGGED_MAX + 1)) with true.
    unfold PyLong_FromSsize_t, PyLong_FromZ, mbind, M_bind, mret, M_ret.
    destruct (PyObject_New _ s) as [p s' | |] eqn:Hnew.
    + eexists _, _. split; [reflexivity | apply tag_bit_set].
    + unfold PyObject_New in Hnew. destruct (_ <=? _); discriminate.
    + unfold PyObject_New in Hnew. destruct (_ <=? _); discriminate.
Qed.

Lemma from_native_inline_iff_in_range_witness :
  (exists x, CPyTagged_FromSsize_t CPY_TAGGED_MIN Samples.rt_empty = Ret x Samples.rt_empty /\
             CPyTagged_CheckShort x = true /\ CPyTagged_CheckLong x = false /\
             CPyTagged_ShortAsSsize_t x = CPY_TAGGED_MIN) /\
  (exists x s', CPyTagged_FromSsize_t (- 2 ^ 63) Samples.rt_empty = Ret x s' /\
                CPyTagged_CheckLong x = true /\
                (wf_runtime Samples.rt_empty ->
                 brk Samples.rt_empty + OBJECT_SLOT <= limit Samples.rt_empty ->
                 tagged_value s' x = Some (- 2 ^ 63))).
Proof.
  split.
  - apply (from_native_inline_iff_in_range CPY_TAGGED_MIN Samples.rt_empty);
      vm_compute; split; discriminate.
  - apply (from_native_inline_iff_in_range (- 2 ^ 63) Samples.rt_empty).
    + vm_compute; split; discriminate.
    + vm_compute. intros [H _]. apply H. reflexivity.
Defined.

(** ** Floor division at fixed widths *)

(** Truncating quotient and remainder of C. *)
Lemma quot_rem_facts (x y : Z) :
  y <> 0 ->
  x = y * Z.quot x y + Z.rem x y /\ Z.abs (Z.rem x y) < Z.abs y /\
  (0 <= x -> 0 <= Z.rem x y <= x) /\ (x <= 0 -> x <= Z.rem x y <= 0).
Proof.
  intros Hy0.
  pose proof (Z.quot_rem' x y) as Hqr.
  pose proof (Z.rem_bound_abs x y Hy0) as Hrb.
  split; [assumption |]. split; [assumption |]. split; intros Hx.
  - pose proof (Z.rem_nonneg x y Hy0 Hx).
    split; [assumption |].
    destruct (Z.eq_dec (Z.quot x y) 0) as [Hq | Hq]; [rewrite Hq in Hqr; lia |].
    assert (0 <= y * Z.quot x y); [| lia].
    assert (Z.abs y <= Z.abs (y * Z.quot x y)) by (rewrite Z.abs_mul; nia).
    lia.
  - pose proof (Z.rem_nonpos x y Hy0 Hx).
    split; [| assumption].
    destruct (Z.eq_dec (Z.quot x y) 0) as [Hq | Hq]; [rewrite Hq in Hqr; lia |].
    assert (y * Z.quot x y <= 0); [| lia].
    assert (Z.abs y <= Z.abs (y * Z.quot x y)) by (rewrite Z.abs_mul; nia).
    lia.
Qed.

Lemma quot_rem_range (B x y : Z) :
  - B <= x < B -> - B <= y < B -> y <> 0 -> ~ (y = -1 /\ x = - B) ->
  - B <= Z.quot x y < B /\ - B <= Z.quot x y * y < B /\ - B <= Z.rem x y < B /\
  (Z.quot x y * y = x <-> Z.rem x y = 0).
Proof.
  intros Hx Hy Hy0 Hmin.
  destruct (quot_rem_facts x y Hy0) as (Hqr & Hrb & Hpos & Hneg).
  set (q := Z.quot x y) in *. set (r := Z.rem x y) in *.
  assert (Hr : - B <= r < B) by lia.
  assert (Hqy : - B <= q * y < B) by lia.
  repeat split; try lia.
  - destruct (Z.le_gt_cases 0 x).
    + assert (Z.abs q <= Z.abs (q * y)) by (rewrite Z.abs_mul; nia). lia.
    + assert (Z.abs q <= Z.abs (q * y)) by (rewrite Z.abs_mul; nia).
      destruct (Z.eq_dec y (-1)); [subst y; lia | lia].
  - destruct (Z.le_gt_cases 0 x).
    + assert (Z.abs q <= Z.abs (q * y)) by (rewrite Z.abs_mul; nia). lia.
    + assert (Z.abs q <= Z.abs (q * y)) by (rewrite Z.abs_mul; nia).
      destruct (Z.eq_dec y (-1)); [subst y; lia |].
      destruct (Z.eq_dec y 1); [subst y; lia |].
      assert (2 * Z.abs q <= Z.abs (q * y)) by (rewrite Z.abs_mul; nia). lia.
Qed.

Lemma floor_adjust (x y : Z) :
  y <> 0 ->
  (if signs_differ x y && negb (Z.rem x y =? 0)
   then x / y = Z.quot x y - 1 /\ x mod y = Z.rem x y + y
   else x / y = Z.quot x y /\ x mod y = Z.rem x y).
Proof.
  intros Hy0.
  destruct (quot_rem_facts x y Hy0) as (Hqr & Hrb & Hpos & Hneg).
  unfold signs_differ.
  destruct (Z.ltb_spec x 0) as [Hx | Hx], (Z.ltb_spec y 0) as [Hy | Hy],
    (Z.eqb_spec (Z.rem x y) 0) as [Hr | Hr]; cbn [Bool.eqb negb andb];
    (split;
     [ symmetry;
       first [ apply Z.div_unique with (r := Z.rem x y); lia
             | apply Z.div_unique with (r := Z.rem x y + y); lia ]
     | symmetry;
       first [ apply Z.mod_unique with (q := Z.quot x y); lia
             | apply Z.mod_unique with (q := Z.quot x y - 1); lia ] ]).
Qed.

Lemma floor_range (B x y : Z) :
  - B <= x < B -> - B <= y < B -> y <> 0 -> ~ (y = -1 /\ x = - B) ->
  - B <= x / y < B /\ - B <= x mod y < B.
Proof.
  intros Hx Hy Hy0 Hmin.
  pose proof (Z.div_mod x y Hy0) as Hdm.
  destruct (Z.lt_total y 0) as [Hneg | [-> | Hpos]]; [| contradiction |].
  - pose proof (Z.mod_neg_bound x y Hneg). split; [| lia].
    destruct (Z.eq_dec y (-1)) as [-> | Hy1]; [lia |]. nia.
  - pose proof (Z.mod_pos_bound x y Hpos). split; [nia | lia].
Qed.

(** The bodies of the division and remainder functions: operands of
    [bits] bits, the product computed at the width [pbits] of the promoted
    operands. *)
Lemma divide_body (bits pbits x y : Z) :
  1 < bits <= pbits ->
  - 2 ^ (bits - 1) <= x < 2 ^ (bits - 1) ->
  - 2 ^ (bits - 1) <= y < 2 ^ (bits - 1) ->
  y <> 0 -> ~ (y = -1 /\ x = - 2 ^ (bits - 1)) ->
  (let d := to_signed bits (Z.quot x y) in
   if signs_differ x y && negb (to_signed pbits (d * y) =? x)
   then to_signed bits (d - 1) else d) = x / y.
Proof.
  intros Hb Hx Hy Hy0 Hmin. cbv zeta.
  destruct (quot_rem_range _ x y Hx Hy Hy0 Hmin) as (Hq & Hqy & Hr & Hiff).
  destruct (floor_range _ x y Hx Hy Hy0 Hmin) as (Hfq & Hfr).
  pose proof (floor_adjust x y Hy0) as Hadj.
  assert (Hpow : 2 ^ (bits - 1) <= 2 ^ (pbits - 1))
    by (apply Z.pow_le_mono_r; lia).
  rewrite (to_signed_id bits (Z.quot x y)) by lia.
  rewrite (to_signed_id pbits) by lia.
  replace (Z.quot x y * y =? x) with (Z.rem x y =? 0).
  - destruct (signs_differ x y && negb (Z.rem x y =? 0)).
    + destruct Hadj as [Hd _]. rewrite <- Hd. apply to_signed_id; lia.
    + now destruct Hadj as [Hd _].
  - destruct (Z.eqb_spec (Z.rem x y) 0) as [H0 | H0],
      (Z.eqb_spec (Z.quot x y * y) x) as [H1 | H1]; try reflexivity;
      exfalso; tauto.
Qed.

Lemma remainder_body (bits x y : Z) :
  1 < bits ->
  - 2 ^ (bits - 1) <= x < 2 ^ (bits - 1) ->
  - 2 ^ (bits - 1) <= y < 2 ^ (bits - 1) ->
  y <> 0 -> ~ (y = -1 /\ x = - 2 ^ (bits - 1)) ->
  (let d := to_signed bits (Z.rem x y) in
   if signs_differ x y && negb (d =? 0)
   then to_signed bits (d + y) else d) = x mod y.
Proof.
  intros Hb Hx Hy Hy0 Hmin. cbv zeta.
  destruct (quot_rem_range _ x y Hx Hy Hy0 Hmin) as (Hq & Hqy & Hr & Hiff).
  destruct (floor_range _ x y Hx Hy Hy0 Hmin) as (Hfq & Hfr).
  pose proof (floor_adjust x y Hy0) as Hadj.
  rewrite (to_signed_id bits (Z.rem x y)) by lia.
  destruct (signs_differ x y && negb (Z.rem x y =? 0)).
  - destruct Hadj as [_ Hm]. rewrite <- Hm. apply to_signed_id; lia.
  - now destruct Hadj as [_ Hm].
Qed.

Lemma width_range (w : Width) :
  WIDTH_MIN w = - 2 ^ (width_bits w - 1) /\ WIDTH_MAX w = 2 ^ (width_bits w - 1) - 1.
Proof. destruct w; split; reflexivity. Qed.

Lemma intW_floor (w : Width) (x y : Z) (s : Runtime) :
  WIDTH_MIN w <= x <= WIDTH_MAX w -> WIDTH_MIN w <= y <= WIDTH_MAX w ->
  y <> 0 -> ~ (y = -1 /\ x = WIDTH_MIN w) ->
  intW_divide w x y s = Ret (x / y) s /\ intW_remainder w x y s = Ret (x mod y) s.
Proof.
  destruct (width_range w) as [Hmin Hmax]. rewrite Hmin, Hmax.
  intros Hx Hy Hy0 Hnot.
  assert (Hguard : (y =? -1) && (x =? WIDTH_MIN w) = false).
  { destruct (Z.eqb_spec y (-1)), (Z.eqb_spec x (WIDTH_MIN w)); try reflexivity.
    exfalso. apply Hnot. split; [assumption | congruence]. }
  apply Z.eqb_neq in Hy0 as Hy0'.
  destruct w; cbn [intW_divide intW_remainder WIDTH_MIN width_bits] in *;
    unfold CPyInt16_Divide, CPyInt32_Divide, CPyInt64_Divide,
      CPyInt16_Remainder, CPyInt32_Remainder, CPyInt64_Remainder,
      to_int16, to_int32, to_int64;
    rewrite Hy0', Hguard; unfold mret, M_ret; split; f_equal.
  - apply (divide_body 16 32); (assumption || lia).
  - apply (remainder_body 16); (assumption || lia).
  - apply (divide_body 32 32); (assumption || lia).
  - apply (remainder_body 32); (assumption || lia).
  - apply (divide_body 64 64); (assumption || lia).
  - apply (remainder_body 64); (assumption || lia).
Qed.

(** C2: at each width, for operands of that width with [y <> 0] and not
    ([y = -1] and [x = WIDTH_MIN]), the division returns the quotient
    rounded toward negative infinity and the remainder returns a value
    whose sign is 0 or the sign of the divisor, with
    [divide * y + remainder = x]; no error is signalled. *)
Theorem intW_floor_semantics (w : Width) (x y : Z) (s : Runtime) :
  WIDTH_MIN w <= x <= WIDTH_MAX w -> WIDTH_MIN w <= y <= WIDTH_MAX w ->
  y <> 0 -> ~ (y = -1 /\ x = WIDTH_MIN w) ->
  exists d r,
    intW_divide w x y s = Ret d s /\ intW_remainder w x y s = Ret r s /\
    d * y + r = x /\
    d = x / y /\
    (forall k, (0 < y -> (k * y <= x <-> k <= d)) /\
               (y < 0 -> (x <= k * y <-> k <= d))) /\
    (r = 0 \/ Z.sgn r = Z.sgn y) /\
    Z.abs r < Z.abs y /\
    WIDTH_MIN w <= d <= WIDTH_MAX w /\ WIDTH_MIN w <= r <= WIDTH_MAX w.
Proof.
  intros Hx Hy Hy0 Hnot.
  destruct (intW_floor w x y s Hx Hy Hy0 Hnot) as [Hd Hr].
  exists (x / y), (x mod y).
  pose proof (Z.div_mod x y Hy0) as Hdm.
  assert (Hbound : (0 < y -> 0 <= x mod y < y) /\ (y < 0 -> y < x mod y <= 0)).
  { split; intros H; [now apply Z.mod_pos_bound | now apply Z.mod_neg_bound]. }
  destruct Hbound as [Hpos Hneg].
  destruct (width_range w) as [Hmin Hmax].
  assert (Hrange : - 2 ^ (width_bits w - 1) <= x / y < 2 ^ (width_bits w - 1) /\
                   - 2 ^ (width_bits w - 1) <= x mod y < 2 ^ (width_bits w - 1)).
  { apply floor_range; rewrite <- ?Hmin; try lia. }
  split; [assumption |]. split; [assumption |].
  split; [lia |]. split; [reflexivity |].
  split; [| lia].
  intros k. split; intros Hsign.
  - specialize (Hpos Hsign). split; intros Hk; nia.
  - specialize (Hneg Hsign). split; intros Hk; nia.
Qed.

Lemma intW_floor_semantics_witness :
  exists d r,
    intW_divide W16 (-7) 2 Samples.rt_empty = Ret d Samples.rt_empty /\
    intW_remainder W16 (-7) 2 Samples.rt_empty = Ret r Samples.rt_empty /\
    d * 2 + r = -7 /\
    d = -7 / 2 /\
    (forall k, (0 < 2 -> (k * 2 <= -7 <-> k <= d)) /\
               (2 < 0 -> (-7 <= k * 2 <-> k <= d))) /\
    (r = 0 \/ Z.sgn r = Z.sgn 2) /\
    Z.abs r < Z.abs 2 /\
    WIDTH_MIN W16 <= d <= WIDTH_MAX W16 /\ WIDTH_MIN W16 <= r <= WIDTH_MAX W16.
Proof.
  apply (intW_floor_semantics W16 (-7) 2 Samples.rt_empty).
  - vm_compute; split; discriminate.
  - vm_compute; split; discriminate.
  - discriminate.
  - intros [H _]. discriminate H.
Defined.

(** C3: at each width, [WIDTH_MIN / -1] signals [OverflowError] and
    returns the error sentinel, while [WIDTH_MIN % -1] returns 0 and
    leaves the state, and so the error indicator, untouched. *)
Theorem intW_min_by_minus_one (w : Width) (s : Runtime) :
  intW_divide w (WIDTH_MIN w) (-1) s =
    Ret CPY_LL_INT_ERROR
        (set_err (Some (PyExc_OverflowError, "integer division overflow"%string)) s) /\
  intW_remainder w (WIDTH_MIN w) (-1) s = Ret 0 s /\
  CPyInt32_Divide INT32_MIN (-1) s =
    Ret CPY_LL_INT_ERROR
        (set_err (Some (PyExc_OverflowError, "integer division overflow"%string)) s) /\
  CPyInt32_Remainder INT32_MIN (-1) s = Ret 0 s.
Proof. destruct w; repeat split; reflexivity. Qed.

(** ** Running monadic code *)

Lemma bind_run {A B} (m : M A) (f : A -> M B) (s s' : Runtime) (a : A) :
  m s = Ret a s' -> (m ≫= f) s = f a s'.
Proof. intros H. unfold mbind, M_bind. now rewrite H. Qed.

Lemma bind_inv {A B} (m : M A) (f : A -> M B) (s s' : Runtime) (b : B) :
  (m ≫= f) s = Ret b s' -> exists a s1, m s = Ret a s1 /\ f a s1 = Ret b s'.
Proof.
  unfold mbind, M_bind. destruct (m s) as [a s1 | |]; try discriminate.
  intros H. now exists a, s1.
Qed.

Lemma get_object_run (p : Z) (s : Runtime) (o : PyObject) :
  heap s !! p = Some o -> get_object p s = Ret o s.
Proof. intros H. unfold get_object. now rewrite H. Qed.

Lemma get_long_run (p c : Z) (v : PyLongObject) (s : Runtime) :
  heap s !! p = Some (mkObject c (PyLong v)) -> get_long p s = Ret v s.
Proof.
  intros H. unfold get_long. erewrite bind_run by (apply get_object_run, H).
  reflexivity.
Qed.

Lemma get_long_inv (p : Z) (v : PyLongObject) (s s' : Runtime) :
  get_long p s = Ret v s' ->
  s' = s /\ exists c, heap s !! p = Some (mkObject c (PyLong v)).
Proof.
  unfold get_long, get_object, mbind, M_bind.
  destruct (heap s !! p) as [[c [w | f]] |] eqn:Hp; try discriminate.
  cbn. intros [= <- <-]. split; [reflexivity | now exists c].
Qed.

Lemma Py_INCREF_run (p : Z) (s : Runtime) (o : PyObject) :
  heap s !! p = Some o ->
  Py_INCREF p s =
  Ret tt (set_heap (<[p := mkObject (ob_refcnt o + 1) (ob_body o)]> (heap s)) s).
Proof.
  intros H. unfold Py_INCREF. erewrite bind_run by (apply get_object_run, H).
  reflexivity.
Qed.

Lemma Py_DECREF_run (p : Z) (s : Runtime) (o : PyObject) :
  heap s !! p = Some o ->
  Py_DECREF p s =
  Ret tt (set_heap (if ob_refcnt o =? 1 then delete p (heap s)
                    else <[p := mkObject (ob_refcnt o - 1) (ob_body o)]> (heap s)) s).
Proof.
  intros H. unfold Py_DECREF. erewrite bind_run by (apply get_object_run, H).
  destruct (Z.eqb_spec (ob_refcnt o) 1) as [-> | Hne].
  - reflexivity.
  - destruct (Z.eqb_spec (ob_refcnt o - 1) 0); [lia | reflexivity].
Qed.

(** What a successful [CPyTagged_AsObject] did. *)
Lemma AsObject_inv (x p : Z) (s s' : Runtime) :
  CPyTagged_AsObject x s = Ret p s' ->
  (CPyTagged_CheckLong x = true /\ p = CPyTagged_LongAsObject x /\
   exists o, heap s !! p = Some o /\
     s' = set_heap (<[p := mkObject (ob_refcnt o + 1) (ob_body o)]> (heap s)) s) \/
  (CPyTagged_CheckLong x = false /\ p = brk s /\ p <> NULL /\
   brk s + OBJECT_SLOT <= limit s /\
   s' = mkRuntime (<[brk s := mkObject 1 (PyLong (PyLong_of_Z (CPyTagged_ShortAsSsize_t x)))]> (heap s))
                  (brk s + OBJECT_SLOT) (limit s) (err s)).
Proof.
  unfold CPyTagged_AsObject. destruct (CPyTagged_CheckLong x) eqn:Hx.
  - intros H. left. split; [reflexivity |].
    apply bind_inv in H as ([] & s1 & Hinc & Hret).
    injection Hret as <- <-. split; [reflexivity |].
    unfold Py_INCREF in Hinc. apply bind_inv in Hinc as (o & s0 & Hget & Hput).
    unfold get_object in Hget.
    destruct (heap s !! CPyTagged_LongAsObject x) as [o' |] eqn:Hp; [| discriminate].
    injection Hget as <- <-. exists o'. split; [reflexivity |].
    now injection Hput as <-.
  - intros H. right. split; [reflexivity |].
    apply bind_inv in H as (q & s1 & Hnew & Hret).
    unfold CPyLong_FromSsize_t, PyLong_FromLong, PyLong_FromZ, PyObject_New in Hnew.
    destruct (Z.leb_spec (brk s + OBJECT_SLOT) (limit s)) as [Hmem | Hmem].
    + injection Hnew as <- <-.
      destruct (Z.eqb_spec (brk s) NULL) as [H0 | H0]; [discriminate |].
      now injection Hret as <- <-.
    + injection Hnew as <- <-. discriminate Hret.
Qed.

Lemma even_add_slot (b : Z) : b mod 2 = 0 -> (b + OBJECT_SLOT) mod 2 = 0.
Proof.
  intros Hb. unfold OBJECT_SLOT. rewrite Z.add_mod, Hb by lia. reflexivity.
Qed.

(** Effect of a successful [CPyTagged_AsObject] on the heap. *)
Lemma AsObject_frame (x p : Z) (s s' : Runtime) :
  wf_runtime s -> CPyTagged_AsObject x s = Ret p s' ->
  wf_runtime s' /\
  brk s <= brk s' <= brk s + OBJECT_SLOT /\ limit s' = limit s /\ err s' = err s /\
  (forall q, q <> p -> heap s' !! q = heap s !! q) /\
  (exists o, heap s' !! p = Some o /\ 1 <= ob_refcnt o /\
     forall o0, heap s !! p = Some o0 ->
       ob_refcnt o = ob_refcnt o0 + 1 /\ ob_body o = ob_body o0) /\
  (CPyTagged_CheckLong x = false ->
   p = brk s /\ brk s' = brk s + OBJECT_SLOT /\
   heap s' !! p = Some (mkObject 1 (PyLong (PyLong_of_Z (CPyTagged_ShortAsSsize_t x))))) /\
  (CPyTagged_CheckLong x = true -> p = CPyTagged_LongAsObject x /\ brk s' = brk s /\
                                    is_Some (heap s !! p)).
Proof.
  intros (Hbrk & Heven & Hlim & Hobj) Hrun.
  apply AsObject_inv in Hrun as [(Hx & -> & o & Ho & ->) | (Hx & -> & Hnn & Hmem & ->)].
  - destruct (Hobj _ _ Ho) as (Haddr & Hrc & Hbody).
    unfold wf_runtime, OBJECT_SLOT. cbn [heap set_heap brk limit err].
    split_and!; try (reflexivity || lia || assumption).
    + intros q oq Hq.
      destruct (decide (CPyTagged_LongAsObject x = q)) as [<- | Hne].
      * rewrite lookup_insert_eq in Hq. injection Hq as <-.
        cbn [ob_refcnt ob_body]. split; [exact Haddr |]. split; [lia | assumption].
      * rewrite lookup_insert_ne in Hq by assumption. now apply Hobj.
    + intros q Hq. now rewrite lookup_insert_ne.
    + eexists. rewrite lookup_insert_eq.
      split; [reflexivity |]. cbn [ob_refcnt ob_body]. split; [lia |].
      intros o0 Ho0. rewrite Ho in Ho0. injection Ho0 as <-. now split.
    + congruence.
    + intros _. split_and!; [reflexivity | reflexivity | now exists o].
  - assert (Hfresh : heap s !! brk s = None).
    { destruct (heap s !! brk s) as [o |] eqn:Ho; [| reflexivity].
      destruct (Hobj _ _ Ho) as (Ha & _). unfold valid_address in Ha. lia. }
    unfold wf_runtime. cbn [heap set_heap brk limit err].
    split_and!; try (reflexivity || (unfold OBJECT_SLOT in *; lia) || assumption).
    + now apply even_add_slot.
    + unfold OBJECT_SLOT in *. intros q oq Hq.
      destruct (decide (brk s = q)) as [<- | Hne].
      * rewrite lookup_insert_eq in Hq. injection Hq as <-. cbn [ob_refcnt ob_body].
        split; [| split; [lia | apply PyLong_of_Z_valid]].
        unfold valid_address. cbn [brk]. split; [lia | assumption].
      * rewrite lookup_insert_ne in Hq by assumption.
        destruct (Hobj _ _ Hq) as (Ha & Hrc & Hbody).
        split; [| now split]. unfold valid_address in *. cbn [brk]. lia.
    + intros q Hq. now rewrite lookup_insert_ne.
    + eexists. rewrite lookup_insert_eq.
      split; [reflexivity |]. cbn [ob_refcnt]. split; [lia |].
      intros o0 Ho0. congruence.
    + intros _. split_and!; [reflexivity | reflexivity | now rewrite lookup_insert_eq].
    + congruence.
Qed.

(** Two operands that were materialized one after the other found the
    memory for the objects of the inline ones. *)
Lemma materialized_memory (l r lo ro : Z) (s s1 s2 : Runtime) :
  wf_runtime s ->
  CPyTagged_AsObject l s = Ret lo s1 -> CPyTagged_AsObject r s1 = Ret ro s2 ->
  CPyTagged_CheckShort l = true \/ CPyTagged_CheckShort r = true ->
  brk s + OBJECT_SLOT * (Z.b2z (CPyTagged_CheckShort l) + Z.b2z (CPyTagged_CheckShort r))
    <= limit s.
Proof.
  intros Hwf Hl Hr Hshort. assert (Hslot : OBJECT_SLOT = 16) by reflexivity.
  destruct (AsObject_frame _ _ _ _ Hwf Hl) as (_ & _ & Hlim1 & _ & _ & _ & Hs1 & Hl1).
  unfold CPyTagged_CheckShort in *.
  apply AsObject_inv in Hl as [(Hxl & _) | (Hxl & _ & _ & Hml & _)];
    apply AsObject_inv in Hr as [(Hxr & _ & o & Ho & _) | (Hxr & _ & _ & Hmr & _)];
    rewrite Hxl, Hxr in *; cbn [negb Z.b2z] in *;
    try (destruct (Hs1 eq_refl) as (_ & Hb1 & _));
    try (destruct (Hl1 eq_refl) as (_ & Hb1 & _));
    first [lia | destruct Hshort; discriminate].
Qed.

Lemma acquire_pair (l r lo ro : Z) (s s1 s2 : Runtime) :
  wf_runtime s ->
  CPyTagged_AsObject l s = Ret lo s1 -> CPyTagged_AsObject r s1 = Ret ro s2 ->
  wf_runtime s2 /\ held s2 lo ro /\
  brk s <= brk s2 <= brk s + 2 * OBJECT_SLOT /\ limit s2 = limit s /\ err s2 = err s.
Proof.
  intros Hwf Hl Hr.
  destruct (AsObject_frame _ _ _ _ Hwf Hl)
    as (Hwf1 & Hb1 & Hlim1 & Herr1 & Hfr1 & (ol & Hol & Hrcl & _) & _).
  destruct (AsObject_frame _ _ _ _ Hwf1 Hr)
    as (Hwf2 & Hb2 & Hlim2 & Herr2 & Hfr2 & (or & Hor & Hrcr & Hprev) & _).
  split_and!; try (assumption || lia || congruence).
  destruct (decide (lo = ro)) as [-> | Hne].
  - exists or, or. destruct (Hprev _ Hol) as [Hrc _].
    split_and!; try (assumption || lia).
  - exists ol, or. rewrite Hfr2 by assumption.
    split_and!; try (assumption || lia || contradiction).
Qed.

Lemma release_pair (lo ro : Z) (s : Runtime) :
  held s lo ro ->
  exists s1 s2, Py_DECREF lo s = Ret tt s1 /\ Py_DECREF ro s1 = Ret tt s2 /\
    brk s2 = brk s /\ limit s2 = limit s /\ err s2 = err s /\
    forall q, q <> lo -> q <> ro -> heap s2 !! q = heap s !! q.
Proof.
  intros (ol & or & Hol & Hor & Hrcl & Hrcr & Hsame).
  rewrite (Py_DECREF_run _ _ _ Hol).
  set (s1 := set_heap _ s).
  assert (Hs1 : exists o1, heap s1 !! ro = Some o1).
  { subst s1. cbn [heap set_heap].
    destruct (decide (lo = ro)) as [<- | Hne].
    - specialize (Hsame eq_refl).
      destruct (Z.eqb_spec (ob_refcnt ol) 1) as [H1 | H1]; [lia |].
      rewrite lookup_insert_eq. eauto.
    - destruct (ob_refcnt ol =? 1).
      + rewrite lookup_delete_ne by assumption. eauto.
      + rewrite lookup_insert_ne by assumption. eauto. }
  destruct Hs1 as (o1 & Ho1).
  exists s1. eexists. split; [reflexivity |].
  split; [apply (Py_DECREF_run _ _ _ Ho1) |].
  subst s1. cbn [heap set_heap brk limit err]. split_and!; try reflexivity.
  intros q Hq1 Hq2.
  destruct (ob_refcnt o1 =? 1), (ob_refcnt ol =? 1);
    rewrite ?lookup_delete_ne, ?lookup_insert_ne by congruence;
    rewrite ?lookup_delete_ne, ?lookup_insert_ne by congruence; reflexivity.
Qed.

Lemma PyLong_value_sign (v : PyLongObject) :
  PyLong_value v = sign_of v * magnitude v.
Proof.
  unfold PyLong_value, sign_of, magnitude.
  destruct (Z.ltb_spec (ob_size v) 0) as [Hneg | Hnn].
  - now rewrite Z.sgn_neg.
  - destruct (Z.eq_dec (ob_size v) 0) as [H0 | H0].
    + unfold long_digits. rewrite H0. reflexivity.
    + rewrite Z.sgn_pos by lia. reflexivity.
Qed.

(** The conversion reports no overflow exactly for the values of the
    inline range, and then returns the value. *)
Lemma AsSsize_t_value (v : PyLongObject) :
  Forall digit_ok (ob_digit v) ->
  (CPY_TAGGED_MIN <= PyLong_value v <= CPY_TAGGED_MAX /\
   CPyLong_AsSsize_tAndOverflow_ v = (PyLong_value v, 0)) \/
  (~ (CPY_TAGGED_MIN <= PyLong_value v <= CPY_TAGGED_MAX) /\
   CPyLong_AsSsize_tAndOverflow_ v = (-1, sign_of v)).
Proof.
  intros Hds. rewrite PyLong_value_sign, AsSsize_t_finish by assumption.
  pose proof (magnitude_nonneg v Hds) as Hnn.
  destruct tagged_range as (Hmax & Hlo & _).
  destruct (sign_of_cases v) as [Hs | Hs]; rewrite Hs.
  - destruct (Z.le_gt_cases (magnitude v) CPY_TAGGED_MAX) as [Hle | Hgt].
    + left. rewrite finish_in_range by (auto || lia). split; [lia | reflexivity].
    + right. rewrite finish_overflow by (auto || lia). split; [lia | reflexivity].
  - destruct (Z.le_gt_cases (magnitude v) CPY_TAGGED_MAX) as [Hle | Hgt].
    + left. rewrite finish_in_range by (auto || lia). split; [lia | reflexivity].
    + destruct (Z.eq_dec (magnitude v) (CPY_TAGGED_MAX + 1)) as [He | Hne].
      * left. rewrite finish_minimum by assumption. split; [lia |].
        f_equal. unfold CPY_TAGGED_MIN. lia.
      * right. rewrite finish_overflow by (auto || tauto). split; [lia | reflexivity].
Qed.

(** Re-encoding an object: the tagged result stands for the object's value. *)
Lemma StealFromObject_run (p c : Z) (v : PyLongObject) (s : Runtime) :
  heap s !! p = Some (mkObject c (PyLong v)) -> Forall digit_ok (ob_digit v) ->
  exists x s', CPyTagged_StealFromObject p s = Ret x s' /\
    err s' = err s /\ brk s' = brk s /\ limit s' = limit s /\
    ((CPY_TAGGED_MIN <= PyLong_value v <= CPY_TAGGED_MAX /\
      CPyTagged_CheckShort x = true /\ CPyTagged_ShortAsSsize_t x = PyLong_value v /\
      Py_DECREF p s = Ret tt s') \/
     (~ (CPY_TAGGED_MIN <= PyLong_value v <= CPY_TAGGED_MAX) /\
      x = Z.lor p CPY_INT_TAG /\ s' = s)).
Proof.
  intros Hp Hds. unfold CPyTagged_StealFromObject.
  erewrite bind_run by (eapply get_long_run, Hp).
  destruct (AsSsize_t_value v Hds) as [(Hin & ->) | (Hout & ->)].
  - cbn [Z.eqb negb]. rewrite (Py_DECREF_run _ _ _ Hp).
    unfold mbind, M_bind.
    rewrite (Py_DECREF_run _ _ _ Hp). eexists _, _. split; [reflexivity |].
    split_and!; try reflexivity. left.
    split_and!; [apply Hin | apply Hin | apply shiftl1_short | now apply shiftl1_decode | reflexivity].
  - replace (negb (sign_of v =? 0)) with true
      by (destruct (sign_of_cases v) as [-> | ->]; reflexivity).
    eexists _, _. split; [reflexivity |]. split_and!; try reflexivity.
    right. auto.
Qed.

Lemma StealFromObject_value (p c : Z) (v : PyLongObject) (s : Runtime) :
  heap s !! p = Some (mkObject c (PyLong v)) -> Forall digit_ok (ob_digit v) ->
  p mod 2 = 0 ->
  exists x s', CPyTagged_StealFromObject p s = Ret x s' /\
    tagged_value s' x = Some (PyLong_value v).
Proof.
  intros Hp Hds Hev.
  destruct (StealFromObject_run p c v s Hp Hds)
    as (x & s' & Hrun & _ & _ & _ & [(_ & Hs & Hv & _) | (_ & Hx & Hs')]);
    exists x, s'; (split; [assumption |]).
  - unfold tagged_value. rewrite Hs. now rewrite Hv.
  - subst x s'. eapply tagged_value_boxed; eassumption.
Qed.

(** ** Materializing operands *)

Lemma tagged_value_long_inv (s : Runtime) (x v : Z) :
  CPyTagged_CheckLong x = true -> tagged_value s x = Some v ->
  exists c w, heap s !! CPyTagged_LongAsObject x = Some (mkObject c (PyLong w)) /\
              PyLong_value w = v.
Proof.
  unfold tagged_value, CPyTagged_CheckShort. intros -> H. cbn [negb] in H.
  destruct (heap s !! CPyTagged_LongAsObject x) as [[c [w | f]] |]; try discriminate.
  injection H as <-. now exists c, w.
Qed.

Lemma tagged_value_short (s : Runtime) (x : Z) :
  CPyTagged_CheckLong x = false ->
  tagged_value s x = Some (CPyTagged_ShortAsSsize_t x).
Proof. unfold tagged_value, CPyTagged_CheckShort. now intros ->. Qed.

Lemma short_value_range (x : Z) :
  CPY_TAGGED_MIN <= CPyTagged_ShortAsSsize_t x <= CPY_TAGGED_MAX.
Proof.
  destruct tagged_range as (-> & -> & _).
  unfold CPyTagged_ShortAsSsize_t, to_ssize_t, to_signed, CPY_INT_BITS.
  rewrite Z.shiftr_div_pow2 by lia.
  change (2 ^ (64 - 1)) with (2 * 2 ^ 62). change (2 ^ 64) with (4 * 2 ^ 62).
  change (2 ^ 1) with 2.
  pose proof (Z.mod_pos_bound (x + 2 * 2 ^ 62) (4 * 2 ^ 62) eq_refl) as Hm.
  set (m := (x + 2 * 2 ^ 62) mod (4 * 2 ^ 62)) in *.
  split.
  - apply Z.div_le_lower_bound; lia.
  - assert ((m - 2 * 2 ^ 62) / 2 < 2 ^ 62); [| lia].
    apply Z.div_lt_upper_bound; lia.
Qed.

(** Objects keep their bodies when an operand is materialized. *)
Lemma AsObject_bodies (x p q c : Z) (b : PyBody) (s s' : Runtime) :
  wf_runtime s -> CPyTagged_AsObject x s = Ret p s' ->
  heap s !! q = Some (mkObject c b) ->
  exists c', heap s' !! q = Some (mkObject c' b).
Proof.
  intros Hwf Hrun Hq.
  destruct (AsObject_frame _ _ _ _ Hwf Hrun)
    as (_ & _ & _ & _ & Hfr & (o & Ho & _ & Hprev) & _).
  destruct (decide (q = p)) as [-> | Hne].
  - destruct (Hprev _ Hq) as [_ Hb]. destruct o as [c' b']. cbn in Hb. subst b'.
    now exists c'.
  - exists c. now rewrite Hfr.
Qed.

Lemma AsObject_preserves (x p y v : Z) (s s' : Runtime) :
  wf_runtime s -> CPyTagged_AsObject x s = Ret p s' ->
  tagged_value s y = Some v -> tagged_value s' y = Some v.
Proof.
  intros Hwf Hrun Hy. destruct (CPyTagged_CheckLong y) eqn:Hl.
  - destruct (tagged_value_long_inv _ _ _ Hl Hy) as (c & w & Hq & <-).
    destruct (AsObject_bodies _ _ _ _ _ _ _ Hwf Hrun Hq) as (c' & Hq').
    unfold tagged_value, CPyTagged_CheckShort. rewrite Hl. cbn [negb].
    now rewrite Hq'.
  - rewrite tagged_value_short in * by assumption. assumption.
Qed.

(** Materializing an operand that stands for [v] gives an object of value [v]. *)
Lemma AsObject_ok (x v : Z) (s : Runtime) :
  wf_runtime s -> tagged_value s x = Some v ->
  (CPyTagged_CheckLong x = false -> brk s + OBJECT_SLOT <= limit s) ->
  exists p s' c w, CPyTagged_AsObject x s = Ret p s' /\
    heap s' !! p = Some (mkObject c (PyLong w)) /\ PyLong_value w = v.
Proof.
  intros Hwf Hv Hmem. unfold CPyTagged_AsObject.
  destruct (CPyTagged_CheckLong x) eqn:Hl.
  - destruct (tagged_value_long_inv _ _ _ Hl Hv) as (c & w & Hq & <-).
    erewrite bind_run by (apply (Py_INCREF_run _ _ _ Hq)).
    eexists _, _, _, w. split; [reflexivity |].
    cbn [heap set_heap ob_body]. rewrite lookup_insert_eq. split; reflexivity.
  - rewrite tagged_value_short in Hv by assumption. injection Hv as <-.
    unfold CPyLong_FromSsize_t, PyLong_FromLong, PyLong_FromZ.
    erewrite bind_run by (apply PyObject_New_ok, Hmem; reflexivity).
    destruct Hwf as (Hbrk & _).
    destruct (Z.eqb_spec (brk s) NULL) as [H0 | H0]; [unfold NULL in H0; lia |].
    eexists _, _, _, _. split; [reflexivity |].
    cbn [heap]. rewrite lookup_insert_eq. split; [reflexivity |].
    apply PyLong_of_Z_value.
Qed.

Lemma materialize_pair (l r vl vr : Z) (s : Runtime) :
  wf_runtime s -> tagged_value s l = Some vl -> tagged_value s r = Some vr ->
  brk s + OBJECT_SLOT * (Z.b2z (CPyTagged_CheckShort l) + Z.b2z (CPyTagged_CheckShort r))
    <= limit s ->
  exists lo s1 ro s2 cl wl cr wr,
    CPyTagged_AsObject l s = Ret lo s1 /\ CPyTagged_AsObject r s1 = Ret ro s2 /\
    heap s2 !! lo = Some (mkObject cl (PyLong wl)) /\ PyLong_value wl = vl /\
    heap s2 !! ro = Some (mkObject cr (PyLong wr)) /\ PyLong_value wr = vr /\
    brk s2 = brk s + OBJECT_SLOT * (Z.b2z (CPyTagged_CheckShort l) + Z.b2z (CPyTagged_CheckShort r)).
Proof.
  intros Hwf Hl Hr Hmem. unfold CPyTagged_CheckShort in *.
  assert (Hslot : 0 < OBJECT_SLOT) by reflexivity.
  destruct (AsObject_ok l vl s Hwf Hl) as (lo & s1 & cl & wl & Hrun1 & Hlo & Hvl).
  { intros Hs. rewrite Hs in Hmem. cbn [negb Z.b2z] in Hmem.
    destruct (CPyTagged_CheckLong r); cbn [negb Z.b2z] in Hmem; lia. }
  destruct (AsObject_frame _ _ _ _ Hwf Hrun1)
    as (Hwf1 & Hb1 & Hlim1 & _ & _ & _ & Hshort1 & Hlong1).
  pose proof (AsObject_preserves _ _ _ _ _ _ Hwf Hrun1 Hr) as Hr1.
  destruct (AsObject_ok r vr s1 Hwf1 Hr1) as (ro & s2 & cr & wr & Hrun2 & Hro & Hvr).
  { intros Hs. rewrite Hs in Hmem. cbn [negb Z.b2z] in Hmem. rewrite Hlim1.
    destruct (CPyTagged_CheckLong l) eqn:Hll; cbn [negb Z.b2z] in Hmem.
    - destruct (Hlong1 eq_refl) as (_ & -> & _). lia.
    - destruct (Hshort1 eq_refl) as (_ & -> & _). lia. }
  destruct (AsObject_bodies _ _ _ _ _ _ _ Hwf1 Hrun2 Hlo) as (cl' & Hlo2).
  destruct (AsObject_frame _ _ _ _ Hwf1 Hrun2)
    as (_ & _ & _ & _ & _ & _ & Hshort2 & Hlong2).
  exists lo, s1, ro, s2, cl', wl, cr, wr. split_and!; try assumption.
  destruct (CPyTagged_CheckLong l), (CPyTagged_CheckLong r); cbn [negb Z.b2z];
    repeat match goal with
           | H : true = true -> _ |- _ => specialize (H eq_refl)
           | H : false = false -> _ |- _ => specialize (H eq_refl)
           | H : true = false -> _ |- _ => clear H
           | H : false = true -> _ |- _ => clear H
           end;
    lia.
Qed.

(** The sample states are well formed. *)
Lemma sample_heap_wf (b lim : Z) (e : option (PyExc * string)) :
  48 <= b -> b mod 2 = 0 -> lim <= 2 ^ CPY_INT_BITS ->
  wf_runtime
    (mkRuntime (<[16 := mkObject 1 (PyLong Samples.big)]>
                  (<[32 := mkObject 1 (PyLong Samples.big_neg)]> ∅)) b lim e).
Proof.
  intros Hb Hev Hlim. unfold wf_runtime, valid_address. cbn [heap brk limit].
  split; [lia |]. split; [assumption |]. split; [assumption |].
  intros p o Hp.
  assert (Hcases : (p = 16 /\ o = mkObject 1 (PyLong Samples.big)) \/
                   (p = 32 /\ o = mkObject 1 (PyLong Samples.big_neg))).
  { destruct (decide (p = 16)) as [-> | Hne16].
    - rewrite lookup_insert_eq in Hp. injection Hp as <-. now left.
    - rewrite lookup_insert_ne in Hp by congruence.
      destruct (decide (p = 32)) as [-> | Hne32].
      + rewrite lookup_insert_eq in Hp. injection Hp as <-. now right.
      + rewrite lookup_insert_ne, lookup_empty in Hp by congruence. discriminate Hp. }
  destruct Hcases as [[-> ->] | [-> ->]]; cbn [ob_refcnt ob_body valid_body];
    (split; [split; [lia | reflexivity] |]); (split; [lia |]);
    (split; [apply digits_ok_check; reflexivity | cbn; lia]).
Qed.

Lemma rt_big_wf : wf_runtime Samples.rt_big.
Proof. apply sample_heap_wf; [lia | reflexivity | discriminate]. Qed.

Lemma rt_full_wf : wf_runtime Samples.rt_full.
Proof. apply sample_heap_wf; [lia | reflexivity | discriminate]. Qed.

Lemma rt_empty_wf : wf_runtime Samples.rt_empty.
Proof.
  unfold wf_runtime, Samples.rt_empty. cbn [heap brk limit].
  split; [lia |]. split; [reflexivity |]. split; [discriminate |].
  intros p o Hp. rewrite lookup_empty in Hp. discriminate Hp.
Qed.

(** ** Equality on the slow path *)

(** C10: the equality slow path looks only at the tag of its right
    operand: whenever the right operand is inline it returns false,
    whatever the left operand is, and so also for two equal inline
    operands. *)
Theorem IsEq_decides_on_right_tag (left right : Z) (s : Runtime) :
  CPyTagged_CheckShort right = true ->
  CPyTagged_IsEq_ left right s = Ret false s /\
  CPyTagged_IsEq_ right right s = Ret false s.
Proof.
  intros Hr. unfold CPyTagged_IsEq_. rewrite Hr. split; reflexivity.
Qed.

Lemma IsEq_decides_on_right_tag_witness :
  CPyTagged_CheckShort 4 = true /\
  CPyTagged_IsEq_ 4 4 Samples.rt_empty = Ret false Samples.rt_empty /\
  tagged_value Samples.rt_empty 4 = Some 2.
Proof.
  split; [reflexivity |].
  pose proof (IsEq_decides_on_right_tag 4 4 Samples.rt_empty eq_refl) as (H & _).
  split; [exact H | reflexivity].
Defined.

Lemma RichCompareBool_run (a b ca cb : Z) (va vb : PyLongObject) (op : CompareOp)
    (s : Runtime) :
  heap s !! a = Some (mkObject ca (PyLong va)) ->
  heap s !! b = Some (mkObject cb (PyLong vb)) ->
  PyObject_RichCompareBool a b op s =
  Ret (match op with
       | Py_EQ => Z.b2z (PyLong_value va =? PyLong_value vb)
       | Py_LT => Z.b2z (PyLong_value va <? PyLong_value vb)
       end) s.
Proof.
  intros Ha Hb. unfold PyObject_RichCompareBool.
  erewrite bind_run by (eapply get_long_run, Ha).
  erewrite bind_run by (eapply get_long_run, Hb).
  reflexivity.
Qed.

(** The claim as stated fails when the inline operand is the left one: the
    operands are materialized, which for the left operand 1000 takes an
    object, and with no memory left the call does not return at all. *)
Lemma IsEq_left_short_materializes :
  CPyTagged_CheckShort 2000 = true /\
  CPyTagged_CheckLong 17 = true /\
  tagged_value Samples.rt_big 17 = Some (CPY_TAGGED_MAX + 1) /\
  tagged_value Samples.rt_full 17 = Some (CPY_TAGGED_MAX + 1) /\
  CPyTagged_IsEq_ 2000 17 Samples.rt_full = Fatal /\
  (exists s', CPyTagged_IsEq_ 2000 17 Samples.rt_big = Ret false s' /\
              brk s' = brk Samples.rt_big + OBJECT_SLOT /\
              s' <> Samples.rt_big).
Proof.
  split; [reflexivity |]. split; [reflexivity |].
  split; [reflexivity |]. split; [reflexivity |].
  split; [vm_compute; reflexivity |].
  eexists. split; [vm_compute; reflexivity |].
  split; [reflexivity |]. intros H. apply (f_equal brk) in H. discriminate H.
Qed.

(** ** Host failures *)

Ltac inv_bind H :=
  let a := fresh "a" in
  let s := fresh "s" in
  let H1 := fresh H in
  apply bind_inv in H as (a & s & H1 & H).

Lemma PyLong_FromZ_inv (z p : Z) (s s' : Runtime) :
  PyLong_FromZ z s = Ret p s' ->
  (p = NULL /\ heap s' = heap s /\ brk s' = brk s /\ limit s' = limit s) \/
  (p = brk s /\ brk s + OBJECT_SLOT <= limit s /\
   heap s' = <[brk s := mkObject 1 (PyLong (PyLong_of_Z z))]> (heap s) /\
   brk s' = brk s + OBJECT_SLOT /\ limit s' = limit s /\ err s' = err s).
Proof.
  unfold PyLong_FromZ, PyObject_New.
  destruct (Z.leb_spec (brk s + OBJECT_SLOT) (limit s)); intros [= <- <-];
    [right | left]; cbn; split_and!; (reflexivity || assumption).
Qed.

Lemma set_error_null_inv (exc : PyExc) (msg : string) (p : Z) (s s' : Runtime) :
  (PyErr_SetString exc msg;; mret NULL) s = Ret p s' ->
  p = NULL /\ heap s' = heap s /\ brk s' = brk s /\ limit s' = limit s.
Proof.
  cbv [mbind M_bind PyErr_SetString mret M_ret]. intros [= <- <-].
  split_and!; reflexivity.
Qed.

Lemma PyLong_FromZ_result (z p : Z) (s s' : Runtime) :
  PyLong_FromZ z s = Ret p s' -> host_result s p s'.
Proof.
  intros H. apply PyLong_FromZ_inv in H as [H | (-> & _ & Hh & Hb & Hl & _)].
  - now left.
  - right. split_and!; try assumption; try reflexivity. eauto.
Qed.

Lemma long_unop_result (f : Z -> Z) (a p : Z) (s s' : Runtime) :
  long_unop f a s = Ret p s' -> host_result s p s'.
Proof.
  unfold long_unop. intros H. inv_bind H.
  apply get_long_inv in H0 as [-> _]. now apply PyLong_FromZ_result in H.
Qed.

Lemma long_binop_result (f : Z -> Z -> Z) (a b p : Z) (s s' : Runtime) :
  long_binop f a b s = Ret p s' -> host_result s p s'.
Proof.
  unfold long_binop. intros H. inv_bind H. inv_bind H.
  apply get_long_inv in H0 as [-> _]. apply get_long_inv in H1 as [-> _].
  now apply PyLong_FromZ_result in H.
Qed.

Lemma guarded_binop_result (g : Z -> bool) (f : Z -> Z -> Z) (exc : PyExc)
    (msg : string) (a b p : Z) (s s' : Runtime) :
  (va ← get_long a; vb ← get_long b;
   if g (PyLong_value vb) then PyErr_SetString exc msg;; mret NULL
   else PyLong_FromZ (f (PyLong_value va) (PyLong_value vb))) s = Ret p s' ->
  host_result s p s'.
Proof.
  intros H. inv_bind H. inv_bind H.
  apply get_long_inv in H0 as [-> _]. apply get_long_inv in H1 as [-> _].
  destruct (g _).
  - left. now apply set_error_null_inv in H.
  - now apply PyLong_FromZ_result in H.
Qed.

Lemma FloorDivide_result a b p s s' :
  PyNumber_FloorDivide a b s = Ret p s' -> host_result s p s'.
Proof. apply (guarded_binop_result (fun v => v =? 0) Z.div). Qed.

Lemma Remainder_result a b p s s' :
  PyNumber_Remainder a b s = Ret p s' -> host_result s p s'.
Proof. apply (guarded_binop_result (fun v => v =? 0) Z.modulo). Qed.

Lemma Rshift_result a b p s s' :
  PyNumber_Rshift a b s = Ret p s' -> host_result s p s'.
Proof. apply (guarded_binop_result (fun v => v <? 0) Z.shiftr). Qed.

Lemma Lshift_result a b p s s' :
  PyNumber_Lshift a b s = Ret p s' -> host_result s p s'.
Proof. apply (guarded_binop_result (fun v => v <? 0) Z.shiftl). Qed.

Lemma held_heap (s s' : Runtime) (lo ro : Z) :
  heap s' = heap s -> held s lo ro -> held s' lo ro.
Proof. unfold held. now intros ->. Qed.

Lemma StealFromObject_inv (p x : Z) (s s' : Runtime) :
  CPyTagged_StealFromObject p s = Ret x s' ->
  x = Z.lor p CPY_INT_TAG \/ CPyTagged_CheckShort x = true.
Proof.
  unfold CPyTagged_StealFromObject. intros H. inv_bind H.
  destruct (CPyLong_AsSsize_tAndOverflow_ a) as [value overflow].
  destruct (negb (overflow =? 0)).
  - injection H as <- <-. now left.
  - inv_bind H. injection H as <- <-. right. apply shiftl1_short.
Qed.

(** A result re-encoded from a fresh host object is never the sentinel. *)
Lemma steal_fresh_not_sentinel (p x : Z) (s0 s1 s s' : Runtime) :
  wf_runtime s0 -> host_result s0 p s1 -> p <> NULL ->
  CPyTagged_StealFromObject p s = Ret x s' -> x <> CPY_INT_TAG.
Proof.
  intros (Hb & Hev & _) [(-> & _) | (-> & _)] Hnn Hsteal; [contradiction |].
  apply StealFromObject_inv in Hsteal as [-> | Hs].
  - now apply tagged_not_sentinel.
  - now apply short_not_sentinel.
Qed.

Lemma abort_if_null_inv (p : Z) (s s' : Runtime) (u : unit) :
  (if p =? NULL then CPyError_OutOfMemory else mret tt) s = Ret u s' ->
  p <> NULL /\ s' = s.
Proof.
  destruct (Z.eqb_spec p NULL); [discriminate |]. intros [= <-]. now split.
Qed.

Lemma AsObject_wf (x p : Z) (s s' : Runtime) :
  wf_runtime s -> CPyTagged_AsObject x s = Ret p s' -> wf_runtime s'.
Proof. intros Hwf Hrun. now destruct (AsObject_frame _ _ _ _ Hwf Hrun). Qed.

Lemma binary_sentinel_propagates (host : Z -> Z -> M Z) :
  (forall a b p s s', host a b s = Ret p s' -> host_result s p s') ->
  propagates_sentinel (binary_sentinel host) host.
Proof.
  intros Hhost s l r lo s1 ro s2 s3 Hwf Hl Hr Hfail.
  destruct (acquire_pair _ _ _ _ _ _ _ Hwf Hl Hr) as (Hwf2 & Hheld & _).
  apply Hhost in Hfail as Hres.
  destruct Hres as [(_ & Hheap & _) | (Hp & _)];
    [| destruct Hwf2 as (Hb & _); unfold NULL in Hp; lia].
  apply (held_heap _ _ _ _ Hheap) in Hheld.
  destruct (release_pair _ _ _ Hheld) as (s4 & s5 & Hd1 & Hd2 & _ & _ & He & _).
  exists s5. unfold binary_sentinel.
  rewrite (bind_run _ _ _ _ _ Hl), (bind_run _ _ _ _ _ Hr), (bind_run _ _ _ _ _ Hfail).
  rewrite (bind_run _ _ _ _ _ Hd1), (bind_run _ _ _ _ _ Hd2).
  split; [reflexivity | assumption].
Qed.

Lemma binary_fatal_aborts (host : Z -> Z -> M Z) :
  (forall a b p s s', host a b s = Ret p s' -> host_result s p s') ->
  aborts_on_failure2 (binary_fatal host) host.
Proof.
  intros Hhost. split.
  - intros s l r lo s1 ro s2 s3 Hl Hr Hfail. unfold binary_fatal.
    rewrite (bind_run _ _ _ _ _ Hl), (bind_run _ _ _ _ _ Hr), (bind_run _ _ _ _ _ Hfail).
    reflexivity.
  - intros s l r x s' Hwf Hrun. unfold binary_fatal in Hrun.
    inv_bind Hrun. inv_bind Hrun. inv_bind Hrun. inv_bind Hrun.
    inv_bind Hrun. inv_bind Hrun.
    apply abort_if_null_inv in Hrun3 as [Hnn ->].
    pose proof (AsObject_wf _ _ _ _ (AsObject_wf _ _ _ _ Hwf Hrun0) Hrun1) as Hwf2.
    eapply steal_fresh_not_sentinel; eauto.
Qed.

Lemma unary_fatal_aborts (host : Z -> M Z) :
  (forall a p s s', host a s = Ret p s' -> host_result s p s') ->
  aborts_on_failure1 (unary_fatal host) host.
Proof.
  intros Hhost. split.
  - intros s n o s1 s2 Hn Hfail. unfold unary_fatal.
    rewrite (bind_run _ _ _ _ _ Hn), (bind_run _ _ _ _ _ Hfail). reflexivity.
  - intros s n x s' Hwf Hrun. unfold unary_fatal in Hrun.
    inv_bind Hrun. inv_bind Hrun. inv_bind Hrun. inv_bind Hrun.
    apply abort_if_null_inv in Hrun2 as [Hnn ->].
    pose proof (AsObject_wf _ _ _ _ Hwf Hrun0) as Hwf1.
    eapply steal_fresh_not_sentinel; eauto.
Qed.

(** ** Sentinels and aborts of the slow paths *)

Lemma bitwise_host_result (op : ascii) a b p s s' :
  bitwise_host op a b s = Ret p s' -> host_result s p s'.
Proof.
  unfold bitwise_host. destruct (Ascii.eqb op "&"); [| destruct (Ascii.eqb op "|")];
    apply long_binop_result.
Qed.

Lemma GetIntDigits_state (n : Z) (buf : list Z) (r : list Z * Z) (s s' : Runtime) :
  GetIntDigits n buf s = Ret r s' -> s' = s.
Proof.
  unfold GetIntDigits. destruct (CPyTagged_CheckShort n).
  - repeat match goal with
           | |- context [if ?c then _ else _] => destruct c
           end; now intros [= _ <-].
  - intros H. inv_bind H. apply get_long_inv in H0 as [-> _].
    now injection H as _ <-.
Qed.

Lemma PyLong_New_result (n p : Z) (s s' : Runtime) :
  _PyLong_New n s = Ret p s' -> host_result s p s'.
Proof.
  unfold _PyLong_New, PyObject_New.
  destruct (Z.leb_spec (brk s + OBJECT_SLOT) (limit s)); intros [= <- <-].
  - right. cbn. split_and!; try reflexivity. eauto.
  - left. cbn. split_and!; reflexivity.
Qed.

(** The digit-level engine never returns the sentinel either. *)
Lemma BitwiseLongOp_not_sentinel (a b x : Z) (op : ascii) (s s' : Runtime) :
  wf_runtime s -> CPyTagged_BitwiseLongOp_ a b op s = Ret x s' -> x <> CPY_INT_TAG.
Proof.
  intros Hwf Hrun. unfold CPyTagged_BitwiseLongOp_ in Hrun.
  inv_bind Hrun. destruct a0 as [ad asz].
  apply GetIntDigits_state in Hrun0 as ->.
  inv_bind Hrun. destruct a0 as [bd bsz].
  apply GetIntDigits_state in Hrun0 as ->.
  destruct ((asz <? 0) || (bsz <? 0)).
  - eapply (proj2 (binary_fatal_aborts (bitwise_host op) (bitwise_host_result op)));
      eassumption.
  - destruct (asz >? bsz);
      inv_bind Hrun; inv_bind Hrun; inv_bind Hrun; inv_bind Hrun;
      apply abort_if_null_inv in Hrun1 as [Hnn ->];
      apply PyLong_New_result in Hrun0;
      eapply steal_fresh_not_sentinel; eauto.
Qed.

(** C9: when the host delegate reports failure, floor division, remainder
    and the two shifts return the sentinel [CPY_INT_TAG] with the host's
    error left in place; negation, addition, subtraction, multiplication,
    inversion and the generic bitwise delegate abort the process, and no
    run of theirs returns the sentinel; nor does any run of the digit-level
    bitwise engine. *)
Theorem sentinel_or_abort_on_host_failure :
  propagates_sentinel CPyTagged_FloorDivide_ PyNumber_FloorDivide /\
  propagates_sentinel CPyTagged_Remainder_ PyNumber_Remainder /\
  propagates_sentinel CPyTagged_Rshift_ PyNumber_Rshift /\
  propagates_sentinel CPyTagged_Lshift_ PyNumber_Lshift /\
  aborts_on_failure1 CPyTagged_Negate_ PyNumber_Negative /\
  aborts_on_failure2 CPyTagged_Add_ PyNumber_Add /\
  aborts_on_failure2 CPyTagged_Subtract_ PyNumber_Subtract /\
  aborts_on_failure2 CPyTagged_Multiply_ PyNumber_Multiply /\
  aborts_on_failure1 CPyTagged_Invert_ PyNumber_Invert /\
  (forall op, aborts_on_failure2 (fun a b => GenericBitwiseOp a b op) (bitwise_host op)) /\
  (forall op a b x s s',
      wf_runtime s -> CPyTagged_BitwiseLongOp_ a b op s = Ret x s' -> x <> CPY_INT_TAG).
Proof.
  split_and!.
  - apply (binary_sentinel_propagates PyNumber_FloorDivide). apply FloorDivide_result.
  - apply (binary_sentinel_propagates PyNumber_Remainder). apply Remainder_result.
  - apply (binary_sentinel_propagates PyNumber_Rshift). apply Rshift_result.
  - apply (binary_sentinel_propagates PyNumber_Lshift). apply Lshift_result.
  - apply (unary_fatal_aborts PyNumber_Negative). apply long_unop_result.
  - apply (binary_fatal_aborts PyNumber_Add). apply long_binop_result.
  - apply (binary_fatal_aborts PyNumber_Subtract). apply long_binop_result.
  - apply (binary_fatal_aborts PyNumber_Multiply). apply long_binop_result.
  - apply (unary_fatal_aborts PyNumber_Invert). apply long_unop_result.
  - intros op. apply (binary_fatal_aborts (bitwise_host op)). apply bitwise_host_result.
  - intros op a b x s s'. apply BitwiseLongOp_not_sentinel.
Qed.

Lemma sentinel_or_abort_on_host_failure_witness :
  (exists s', CPyTagged_Rshift_ 17 (to_size_t (Z.shiftl (-1) 1)) Samples.rt_big
              = Ret CPY_INT_TAG s' /\
              err s' = Some (PyExc_ValueError, "negative shift count"%string)) /\
  CPyTagged_Add_ 17 17 Samples.rt_full = Fatal /\
  CPyTagged_Invert_ 17 Samples.rt_full = Fatal.
Proof.
  destruct sentinel_or_abort_on_host_failure
    as (_ & _ & Hrshift & _ & _ & (Hadd & _) & _ & _ & (Hinvert & _) & _).
  split; [| split].
  - edestruct (Hrshift Samples.rt_big 17 (to_size_t (Z.shiftl (-1) 1)))
      as (s' & Hrun & Herr).
    + apply rt_big_wf.
    + vm_compute. reflexivity.
    + vm_compute. reflexivity.
    + vm_compute. reflexivity.
    + exists s'. split; [exact Hrun | exact Herr].
  - eapply (Hadd Samples.rt_full 17 17).
    + vm_compute. reflexivity.
    + vm_compute. reflexivity.
    + vm_compute. reflexivity.
  - eapply (Hinvert Samples.rt_full 17).
    + vm_compute. reflexivity.
    + vm_compute. reflexivity.
Defined.

(** ** Division by zero *)

Lemma bind_fatal {A B} (m : M A) (f : A -> M B) (s : Runtime) :
  m s = Fatal -> (m ≫= f) s = Fatal.
Proof. intros H. unfold mbind, M_bind. now rewrite H. Qed.

Lemma AsObject_short_fatal (x : Z) (s : Runtime) :
  CPyTagged_CheckLong x = false -> limit s < brk s + OBJECT_SLOT ->
  CPyTagged_AsObject x s = Fatal.
Proof.
  intros Hx Hmem. unfold CPyTagged_AsObject. rewrite Hx.
  unfold CPyLong_FromSsize_t, PyLong_FromLong, PyLong_FromZ.
  erewrite bind_run by (now apply PyObject_New_fail). reflexivity.
Qed.

Lemma FloorDivide_by_zero (a b ca cb : Z) (va vb : PyLongObject) (s : Runtime) :
  heap s !! a = Some (mkObject ca (PyLong va)) ->
  heap s !! b = Some (mkObject cb (PyLong vb)) -> PyLong_value vb = 0 ->
  PyNumber_FloorDivide a b s =
  Ret NULL (set_err (Some (PyExc_ZeroDivisionError, zero_division_msg)) s).
Proof.
  intros Ha Hb Hz. unfold PyNumber_FloorDivide.
  erewrite bind_run by (eapply get_long_run, Ha).
  erewrite bind_run by (eapply get_long_run, Hb).
  rewrite Hz. reflexivity.
Qed.

(** C6: dividing by zero signals [ZeroDivisionError] and yields a sentinel,
    never a number: whatever the tagged floor division by the inline zero
    returns is [CPY_INT_TAG], with [ZeroDivisionError] set; it returns it
    whenever its two operands are materialized, for which memory for the
    objects of the inline ones is enough; the fixed-width division and
    remainder return [CPY_LL_INT_ERROR]; the true division sees the inline
    zero before anything else and returns [CPY_FLOAT_ERROR]. *)
Theorem zero_division_sentinels (x vx n : Z) (s : Runtime) :
  wf_runtime s -> tagged_value s x = Some vx ->
  (forall r s', CPyTagged_FloorDivide_ x 0 s = Ret r s' ->
     r = CPY_INT_TAG /\
     err s' = Some (PyExc_ZeroDivisionError, zero_division_msg)) /\
  (forall lo s1 ro s2,
     CPyTagged_AsObject x s = Ret lo s1 -> CPyTagged_AsObject 0 s1 = Ret ro s2 ->
     exists s', CPyTagged_FloorDivide_ x 0 s = Ret CPY_INT_TAG s' /\
                err s' = Some (PyExc_ZeroDivisionError, zero_division_msg)) /\
  (brk s + OBJECT_SLOT * (Z.b2z (CPyTagged_CheckShort x) + 1) <= limit s ->
   exists s', CPyTagged_FloorDivide_ x 0 s = Ret CPY_INT_TAG s' /\
              err s' = Some (PyExc_ZeroDivisionError, zero_division_msg)) /\
  (forall w,
      intW_divide w n 0 s =
        Ret CPY_LL_INT_ERROR
            (set_err (Some (PyExc_ZeroDivisionError, zero_division_msg)) s) /\
      intW_remainder w n 0 s =
        Ret CPY_LL_INT_ERROR
            (set_err (Some (PyExc_ZeroDivisionError, zero_division_msg)) s)) /\
  CPyTagged_TrueDivide x 0 s =
    Ret CPY_FLOAT_ERROR
        (set_err (Some (PyExc_ZeroDivisionError, "division by zero"%string)) s).
Proof.
  intros Hwf Hx.
  assert (Hsent :
    brk s + OBJECT_SLOT * (Z.b2z (CPyTagged_CheckShort x) + 1) <= limit s ->
    exists s', CPyTagged_FloorDivide_ x 0 s = Ret CPY_INT_TAG s' /\
               err s' = Some (PyExc_ZeroDivisionError, zero_division_msg)).
  { intros Hmem.
    destruct (materialize_pair x 0 vx 0 s Hwf Hx eq_refl Hmem)
      as (lo & s1 & ro & s2 & cl & wl & cr & wr & Hrun1 & Hrun2 & Hlo & _ & Hro & Hwr & _).
    pose proof (FloorDivide_by_zero _ _ _ _ _ _ _ Hlo Hro Hwr) as Hhost.
    destruct (binary_sentinel_propagates PyNumber_FloorDivide FloorDivide_result
                _ _ _ _ _ _ _ _ Hwf Hrun1 Hrun2 Hhost) as (s' & Hrun & Herr).
    exists s'. split; [exact Hrun | exact Herr]. }
  split_and!.
  - intros r s' Hret.
    destruct (Z.le_gt_cases (brk s + OBJECT_SLOT * (Z.b2z (CPyTagged_CheckShort x) + 1))
                (limit s)) as [Hmem | Hmem].
    { destruct (Hsent Hmem) as (s'' & Hrun & Herr). rewrite Hrun in Hret.
      injection Hret as <- <-. split; [reflexivity | exact Herr]. }
    enough (Hf : CPyTagged_FloorDivide_ x 0 s = Fatal)
      by (rewrite Hf in Hret; discriminate).
    unfold CPyTagged_FloorDivide_.
    destruct (CPyTagged_CheckLong x) eqn:Hl; unfold CPyTagged_CheckShort in Hmem;
      rewrite Hl in Hmem; cbn [negb Z.b2z] in Hmem.
    + destruct (AsObject_ok x vx s Hwf Hx) as (lo & s1 & c & w & Hrun1 & _);
        [congruence |].
      destruct (AsObject_frame _ _ _ _ Hwf Hrun1) as (_ & _ & Hlim & _ & _ & _ & _ & Hlong).
      destruct (Hlong Hl) as (_ & Hbrk & _).
      rewrite (bind_run _ _ _ _ _ Hrun1). apply bind_fatal.
      apply AsObject_short_fatal; [reflexivity | lia].
    + destruct (Z.le_gt_cases (brk s + OBJECT_SLOT) (limit s)) as [Hone | Hnone].
      * destruct (AsObject_ok x vx s Hwf Hx) as (lo & s1 & c & w & Hrun1 & _);
          [intros _; exact Hone |].
        destruct (AsObject_frame _ _ _ _ Hwf Hrun1) as (_ & _ & Hlim & _ & _ & _ & Hshort & _).
        destruct (Hshort Hl) as (_ & Hbrk & _).
        rewrite (bind_run _ _ _ _ _ Hrun1). apply bind_fatal.
        apply AsObject_short_fatal; [reflexivity | lia].
      * apply bind_fatal. now apply AsObject_short_fatal.
  - intros lo s1 ro s2 Hrun1 Hrun2. apply Hsent.
    apply (materialized_memory x 0 lo ro s s1 s2 Hwf Hrun1 Hrun2). now right.
  - exact Hsent.
  - intros w. destruct w; split; reflexivity.
  - reflexivity.
Qed.

Lemma zero_division_sentinels_witness :
  (exists s', CPyTagged_FloorDivide_ 17 0 Samples.rt_big = Ret CPY_INT_TAG s' /\
              err s' = Some (PyExc_ZeroDivisionError, zero_division_msg)) /\
  (exists s', CPyTagged_FloorDivide_ 2000 0 Samples.rt_big = Ret CPY_INT_TAG s' /\
              err s' = Some (PyExc_ZeroDivisionError, zero_division_msg)) /\
  intW_divide W16 7 0 Samples.rt_big =
    Ret CPY_LL_INT_ERROR
        (set_err (Some (PyExc_ZeroDivisionError, zero_division_msg)) Samples.rt_big) /\
  CPyTagged_TrueDivide 17 0 Samples.rt_big =
    Ret CPY_FLOAT_ERROR
        (set_err (Some (PyExc_ZeroDivisionError, "division by zero"%string))
                 Samples.rt_big).
Proof.
  split_and!.
  - apply (zero_division_sentinels 17 (CPY_TAGGED_MAX + 1) 7 Samples.rt_big rt_big_wf eq_refl).
    vm_compute. discriminate.
  - apply (zero_division_sentinels 2000 1000 7 Samples.rt_big rt_big_wf eq_refl).
    vm_compute. discriminate.
  - apply (zero_division_sentinels 17 (CPY_TAGGED_MAX + 1) 7 Samples.rt_big rt_big_wf eq_refl).
  - apply (zero_division_sentinels 17 (CPY_TAGGED_MAX + 1) 7 Samples.rt_big rt_big_wf eq_refl).
Defined.

(** ** Bitwise operations digit by digit *)

Lemma digit_cons_testbit (d X i : Z) :
  digit_ok d -> 0 <= i ->
  Z.testbit (d + PyLong_BASE * X) i =
  if i <? PyLong_SHIFT then Z.testbit d i else Z.testbit X (i - PyLong_SHIFT).
Proof.
  unfold digit_ok, PyLong_BASE. intros Hd Hi.
  assert (Hs : 0 <= PyLong_SHIFT) by (unfold PyLong_SHIFT; lia).
  destruct (Z.ltb_spec i PyLong_SHIFT) as [Hlt | Hge].
  - rewrite <- (Z.mod_pow2_bits_low (d + 2 ^ PyLong_SHIFT * X) PyLong_SHIFT i) by lia.
    replace (d + 2 ^ PyLong_SHIFT * X) with (d + X * 2 ^ PyLong_SHIFT) by ring.
    rewrite Z.mod_add by lia. now rewrite Z.mod_small by lia.
  - replace i with ((i - PyLong_SHIFT) + PyLong_SHIFT) at 1 by lia.
    rewrite <- Z.div_pow2_bits by lia.
    replace (d + 2 ^ PyLong_SHIFT * X) with (d + X * 2 ^ PyLong_SHIFT) by ring.
    rewrite Z.div_add by lia. now rewrite (Z.div_small d) by lia.
Qed.

Lemma digit_ok_high_bits (d i : Z) :
  digit_ok d -> PyLong_SHIFT <= i -> Z.testbit d i = false.
Proof.
  unfold digit_ok, PyLong_BASE, PyLong_SHIFT. intros Hd Hi.
  rewrite <- (Z.mod_small d (2 ^ 30)) by lia.
  apply Z.mod_pow2_bits_high. lia.
Qed.

Lemma digit_ok_of_bits (d : Z) :
  0 <= d -> (forall i, PyLong_SHIFT <= i -> Z.testbit d i = false) -> digit_ok d.
Proof.
  unfold digit_ok, PyLong_BASE, PyLong_SHIFT. intros Hd Hbits.
  replace d with (d mod 2 ^ 30).
  - apply Z.mod_pos_bound. lia.
  - apply Z.bits_inj'. intros i Hi.
    destruct (Z.lt_ge_cases i 30).
    + apply Z.mod_pow2_bits_low. lia.
    + rewrite Z.mod_pow2_bits_high by lia. symmetry. apply Hbits. lia.
Qed.

Lemma bitop_cases (op : ascii) :
  bitop op = Z.land \/ bitop op = Z.lor \/ bitop op = Z.lxor.
Proof.
  unfold bitop. destruct (Ascii.eqb op "&"); [| destruct (Ascii.eqb op "|")]; auto.
Qed.

Lemma bitop_testbit (op : ascii) :
  exists f : bool -> bool -> bool,
    f false false = false /\
    forall x y i, Z.testbit (bitop op x y) i = f (Z.testbit x i) (Z.testbit y i).
Proof.
  destruct (bitop_cases op) as [-> | [-> | ->]].
  - exists andb. split; [reflexivity | apply Z.land_spec].
  - exists orb. split; [reflexivity | apply Z.lor_spec].
  - exists xorb. split; [reflexivity | apply Z.lxor_spec].
Qed.

Lemma bitop_nonneg (op : ascii) (x y : Z) : 0 <= x -> 0 <= y -> 0 <= bitop op x y.
Proof.
  intros Hx Hy. destruct (bitop_cases op) as [-> | [-> | ->]].
  - now apply Z.land_nonneg; left.
  - now apply Z.lor_nonneg.
  - now apply Z.lxor_nonneg.
Qed.

Lemma bitop_digit_ok (op : ascii) (x y : Z) :
  digit_ok x -> digit_ok y -> digit_ok (bitop op x y).
Proof.
  intros Hx Hy. apply digit_ok_of_bits.
  - apply bitop_nonneg; [apply Hx | apply Hy].
  - intros i Hi. destruct (bitop_testbit op) as (f & Hf & Hbit).
    rewrite Hbit, !digit_ok_high_bits by assumption. exact Hf.
Qed.

Lemma bitop_cons (op : ascii) (x y X Y : Z) :
  digit_ok x -> digit_ok y ->
  bitop op (x + PyLong_BASE * X) (y + PyLong_BASE * Y) =
  bitop op x y + PyLong_BASE * bitop op X Y.
Proof.
  intros Hx Hy. apply Z.bits_inj'. intros i Hi.
  destruct (bitop_testbit op) as (f & Hf & Hbit).
  rewrite Hbit, !digit_cons_testbit by (assumption || now apply bitop_digit_ok).
  destruct (i <? PyLong_SHIFT); now rewrite Hbit.
Qed.

(** AND stops at the shorter operand. *)
Lemma land_digits_value (xs ys : list Z) :
  Forall digit_ok xs -> Forall digit_ok ys ->
  digits_value (zip_with Z.land xs ys) = Z.land (digits_value xs) (digits_value ys).
Proof.
  intros Hxs. revert ys. induction Hxs as [| x xs Hx Hxs IH]; intros ys Hys.
  - cbn. now rewrite Z.land_0_l.
  - destruct Hys as [| y ys Hy Hys].
    + cbn [zip_with digits_value]. now rewrite Z.land_0_r.
    + cbn [zip_with digits_value]. rewrite IH by assumption.
      symmetry. apply (bitop_cons "&"); assumption.
Qed.

(** OR and XOR go on with the digits of the longer operand. *)
Lemma lor_lxor_digits_value (op : ascii) (xs ys : list Z) :
  bitop op = Z.lor \/ bitop op = Z.lxor ->
  Forall digit_ok xs -> Forall digit_ok ys -> (length xs <= length ys)%nat ->
  digits_value (zip_with (bitop op) xs ys ++ drop (length xs) ys) =
  bitop op (digits_value xs) (digits_value ys).
Proof.
  intros Hop Hxs. revert ys. induction Hxs as [| x xs Hx Hxs IH]; intros ys Hys Hlen.
  - cbn [zip_with length drop app digits_value].
    destruct Hop as [-> | ->]; [now rewrite Z.lor_0_l | now rewrite Z.lxor_0_l].
  - destruct Hys as [| y ys Hy Hys]; [cbn in Hlen; lia |].
    cbn [zip_with length drop app digits_value].
    rewrite IH by (assumption || (cbn in Hlen; lia)).
    symmetry. now apply bitop_cons.
Qed.

Lemma zip_digits_ok (op : ascii) (xs ys : list Z) :
  Forall digit_ok xs -> Forall digit_ok ys -> Forall digit_ok (zip_with (bitop op) xs ys).
Proof.
  intros Hxs. revert ys. induction Hxs as [| x xs Hx Hxs IH]; intros ys Hys.
  - constructor.
  - destruct Hys as [| y ys Hy Hys]; cbn [zip_with]; constructor.
    + now apply bitop_digit_ok.
    + now apply IH.
Qed.

Lemma fill_length ds f i count : length (fill ds f i count) = length ds.
Proof.
  revert ds i. induction count as [| c IH]; intros ds i; cbn [fill]; [reflexivity |].
  now rewrite IH, length_insert.
Qed.

Lemma fill_spec (ds : list Z) (f : nat -> Z) (i count : nat) :
  (i + count <= length ds)%nat ->
  fill ds f i count = take i ds ++ map f (seq i count) ++ drop (i + count) ds.
Proof.
  revert ds i. induction count as [| c IH]; intros ds i Hlen.
  - cbn [fill seq map app]. rewrite Nat.add_0_r. symmetry. apply take_drop.
  - cbn [fill seq map]. rewrite IH by (rewrite length_insert; lia).
    rewrite (take_S_r _ i (f i)) by (apply list_lookup_insert_eq; lia).
    rewrite take_insert_ge by lia. rewrite drop_insert_lt by lia.
    rewrite <- app_assoc. cbn [app].
    replace (i + S c)%nat with (S i + c)%nat by lia. reflexivity.
Qed.

Lemma put_long_run (p c : Z) (b : PyBody) (v : PyLongObject) (s : Runtime) :
  heap s !! p = Some (mkObject c b) ->
  put_long p v s = Ret tt (set_heap (<[p := mkObject c (PyLong v)]> (heap s)) s).
Proof.
  intros Hp. unfold put_long. erewrite bind_run by (apply get_object_run, Hp).
  reflexivity.
Qed.

Lemma set_heap_twice (h h' : gmap Z PyObject) (s : Runtime) :
  set_heap h (set_heap h' s) = set_heap h s.
Proof. reflexivity. Qed.

Lemma digit_loop_run (r c n : Z) (ds : list Z) (f : nat -> Z) (i count : nat)
    (s : Runtime) :
  heap s !! r = Some (mkObject c (PyLong (mkLong n ds))) ->
  digit_loop r f i count s =
  Ret tt (set_heap (<[r := mkObject c (PyLong (mkLong n (fill ds f i count)))]> (heap s)) s).
Proof.
  revert ds i s. induction count as [| k IH]; intros ds i s Hr.
  - cbn [digit_loop fill]. rewrite insert_id by assumption.
    destruct s; reflexivity.
  - cbn [digit_loop fill]. unfold CPY_LONG_DIGIT_set.
    erewrite bind_run.
    2:{ erewrite bind_run by (eapply get_long_run, Hr).
        cbn [ob_size ob_digit]. eapply put_long_run, Hr. }
    rewrite (IH (<[i := f i]> ds) (S i)).
    + cbn [heap set_heap]. rewrite insert_insert_eq. reflexivity.
    + cbn [heap set_heap]. apply lookup_insert_eq.
Qed.

Lemma map_seq_zip (g : Z -> Z -> Z) (n : nat) (xs ys : list Z) :
  (n <= length xs)%nat -> (n <= length ys)%nat ->
  map (fun i => g (digit_at xs i) (digit_at ys i)) (seq 0 n) =
  zip_with g (take n xs) (take n ys).
Proof.
  revert xs ys. induction n as [| n IH]; intros xs ys Hx Hy; [reflexivity |].
  destruct xs as [| x xs]; [cbn in Hx; lia |].
  destruct ys as [| y ys]; [cbn in Hy; lia |].
  cbn [seq map take zip_with]. f_equal.
  rewrite <- seq_shift, map_map. cbn in Hx, Hy.
  rewrite <- IH by lia. reflexivity.
Qed.

Lemma map_seq_drop (n k : nat) (ys : list Z) :
  (n + k <= length ys)%nat ->
  map (digit_at ys) (seq n k) = take k (drop n ys).
Proof.
  revert n ys. induction k as [| k IH]; intros n ys Hlen; [reflexivity |].
  cbn [seq map]. rewrite IH by lia.
  destruct (drop n ys) as [| d rest] eqn:Hd.
  - apply (f_equal length) in Hd. rewrite length_drop in Hd. cbn in Hd. lia.
  - cbn [take]. f_equal.
    + unfold digit_at. rewrite nth_lookup.
      replace (ys !! n) with (drop n ys !! 0%nat)
        by (rewrite lookup_drop; f_equal; lia).
      now rewrite Hd.
    + replace (drop (S n) ys) with (drop 1 (drop n ys))
        by (rewrite drop_drop; f_equal; lia).
      now rewrite Hd.
Qed.

(** ** Decomposing the operands *)

Lemma mask_ones : PyLong_MASK = Z.ones PyLong_SHIFT.
Proof. reflexivity. Qed.

(** The three branches of the decomposition of a magnitude. *)
Lemma decompose_magnitude (val : Z) :
  0 <= val <= 2 ^ 62 ->
  let d0 := to_digit (Z.land val PyLong_MASK) in
  let val1 := Z.shiftr val PyLong_SHIFT in
  let d1 := to_digit (Z.land val1 PyLong_MASK) in
  let d2 := to_digit (Z.shiftr val1 PyLong_SHIFT) in
  digit_ok d0 /\ digit_ok d1 /\ digit_ok d2 /\
  (val <= PyLong_MASK -> d0 = val) /\
  (val1 <= PyLong_MASK -> d0 + PyLong_BASE * d1 = val) /\
  d0 + PyLong_BASE * (d1 + PyLong_BASE * d2) = val.
Proof.
  intros Hval. cbv zeta.
  rewrite mask_ones, !Z.land_ones, !Z.shiftr_div_pow2 by (unfold PyLong_SHIFT; lia).
  unfold to_digit, to_unsigned, digit_ok, PyLong_MASK, PyLong_BASE, PyLong_SHIFT.
  change (2 ^ 62) with 4611686018427387904 in Hval.
  change (2 ^ 30) with 1073741824. change (2 ^ 32) with 4294967296.
  change (Z.ones 30) with 1073741823.
  pose proof (Z.div_mod val 1073741824 ltac:(lia)) as Hdm.
  pose proof (Z.mod_pos_bound val 1073741824 ltac:(lia)) as Hm.
  set (v1 := val / 1073741824) in *.
  pose proof (Z.div_mod v1 1073741824 ltac:(lia)) as Hdm1.
  pose proof (Z.mod_pos_bound v1 1073741824 ltac:(lia)) as Hm1.
  assert (Hv1 : 0 <= v1 <= 4294967296).
  { subst v1. split; [apply Z.div_pos; lia |].
    apply Z.div_le_upper_bound; lia. }
  assert (Hv2 : 0 <= v1 / 1073741824 <= 4).
  { split; [apply Z.div_pos; lia |]. apply Z.div_le_upper_bound; lia. }
  rewrite !(Z.mod_small _ 4294967296) by lia.
  split_and!; try lia.
Qed.

Lemma negate_short (v : Z) :
  CPY_TAGGED_MIN <= v <= CPY_TAGGED_MAX -> to_ssize_t (- v) = - v.
Proof.
  destruct tagged_range as (-> & -> & _). intros Hv.
  apply to_ssize_t_id. unfold PY_SSIZE_T_MIN, PY_SSIZE_T_MAX, CPY_INT_BITS.
  change (2 ^ (64 - 1)) with (2 * 2 ^ 62). lia.
Qed.

Lemma GetIntDigits_short (n : Z) (s : Runtime) :
  CPyTagged_CheckShort n = true ->
  exists ds size,
    GetIntDigits n [0; 0; 0] s = Ret (ds, size) s /\
    1 <= Z.abs size <= 3 /\
    valid_long (mkLong size ds) /\
    PyLong_value (mkLong size ds) = CPyTagged_ShortAsSsize_t n.
Proof.
  intros Hs. unfold GetIntDigits. rewrite Hs.
  pose proof (short_value_range n) as Hr.
  set (v := CPyTagged_ShortAsSsize_t n) in *.
  set (val := if v <? 0 then to_ssize_t (- v) else v).
  assert (Hval : val = Z.abs v).
  { subst val. destruct (Z.ltb_spec v 0); [rewrite negate_short by assumption |]; lia. }
  assert (Habs : 0 <= val <= 2 ^ 62).
  { destruct tagged_range as (Hmax & Hmin & _). rewrite Hmax, Hmin in Hr. lia. }
  destruct (decompose_magnitude val Habs) as (H0 & H1 & H2 & Hone & Htwo & Hthree).
  cbv zeta in *.
  set (d0 := to_digit (Z.land val PyLong_MASK)) in *.
  set (val1 := Z.shiftr val PyLong_SHIFT) in *.
  set (d1 := to_digit (Z.land val1 PyLong_MASK)) in *.
  set (d2 := to_digit (Z.shiftr val1 PyLong_SHIFT)) in *.
  assert (Hz : digit_ok 0) by (unfold digit_ok; pose proof base_pos; lia).
  cbn [insert list_insert].
  destruct (Z.gtb_spec val PyLong_MASK) as [Hg0 | Hg0];
    [destruct (Z.gtb_spec val1 PyLong_MASK) as [Hg1 | Hg1] |];
    eexists _, _; (split; [reflexivity |]);
    unfold valid_long, PyLong_value, long_digits; cbn [ob_size ob_digit length];
    destruct (Z.ltb_spec v 0) as [Hneg | Hnn];
    (split; [lia |]); (split; [split; [repeat (apply Forall_cons_2; [assumption |]); apply Forall_nil_2 | lia] |]);
    cbn [Z.sgn];
    repeat match goal with
           | |- context [Z.to_nat (Z.abs ?k)] =>
               let r := eval vm_compute in (Z.to_nat (Z.abs k)) in
               change (Z.to_nat (Z.abs k)) with r
           end;
    cbn [take digits_value]; lia.
Qed.

Lemma GetIntDigits_long (n c : Z) (w : PyLongObject) (buf : list Z) (s : Runtime) :
  CPyTagged_CheckLong n = true ->
  heap s !! CPyTagged_LongAsObject n = Some (mkObject c (PyLong w)) ->
  GetIntDigits n buf s = Ret (ob_digit w, ob_size w) s.
Proof.
  intros Hl Hw. unfold GetIntDigits, CPyTagged_CheckShort. rewrite Hl. cbn [negb].
  erewrite bind_run by (eapply get_long_run, Hw). reflexivity.
Qed.

Lemma GetIntDigits_spec (n v : Z) (s : Runtime) :
  wf_runtime s -> tagged_value s n = Some v ->
  exists ds size,
    GetIntDigits n [0; 0; 0] s = Ret (ds, size) s /\
    valid_long (mkLong size ds) /\ PyLong_value (mkLong size ds) = v /\
    (CPyTagged_CheckShort n = true -> 1 <= Z.abs size <= 3).
Proof.
  intros Hwf Hv. destruct (CPyTagged_CheckLong n) eqn:Hl.
  - destruct (tagged_value_long_inv _ _ _ Hl Hv) as (c & w & Hw & <-).
    exists (ob_digit w), (ob_size w).
    split; [now apply (GetIntDigits_long n c) |].
    destruct Hwf as (_ & _ & _ & Hobj). destruct (Hobj _ _ Hw) as (_ & _ & Hvalid).
    cbn in Hvalid. destruct w as [sz ds]. split_and!; try assumption; try reflexivity.
    unfold CPyTagged_CheckShort. rewrite Hl. discriminate.
  - rewrite tagged_value_short in Hv by assumption. injection Hv as <-.
    destruct (GetIntDigits_short n s) as (ds & size & Hrun & Hsz & Hvalid & Hval).
    { unfold CPyTagged_CheckShort. now rewrite Hl. }
    exists ds, size. split_and!; try assumption. auto.
Qed.

(** ** Normalization *)

Lemma normalize_size_spec (v : PyLongObject) (i : nat) :
  (i <= length (ob_digit v))%nat ->
  (normalize_size v i <= i)%nat /\
  digits_value (take (normalize_size v i) (ob_digit v)) =
    digits_value (take i (ob_digit v)) /\
  canonical_digits (take (normalize_size v i) (ob_digit v)).
Proof.
  induction i as [| i IH]; intros Hlen.
  - cbn. split_and!; [lia | reflexivity | now left].
  - cbn [normalize_size]. unfold CPY_LONG_DIGIT.
    destruct (Z.eqb_spec (nth i (ob_digit v) 0) 0) as [Hz | Hnz].
    + destruct IH as (Hle & Hval & Hcan); [lia |].
      split_and!; [lia | | assumption].
      rewrite take_succ_value, Hz. lia.
    + split_and!; [lia | reflexivity |]. right.
      destruct (nth_lookup_or_length (ob_digit v) i 0) as [Hi | Hi]; [| lia].
      rewrite (take_S_r _ _ _ Hi), last_snoc. congruence.
Qed.

Lemma NormalizeUnsigned_run (p c n : Z) (ds : list Z) (s : Runtime) :
  heap s !! p = Some (mkObject c (PyLong (mkLong n ds))) ->
  CPyLong_NormalizeUnsigned p s =
  Ret tt (set_heap
            (<[p := mkObject c (PyLong (mkLong (Z.of_nat (normalize_size (mkLong n ds) (Z.to_nat n))) ds))]>
               (heap s)) s).
Proof.
  intros Hp. unfold CPyLong_NormalizeUnsigned, CPyLong_SetUnsignedSize.
  erewrite bind_run by (eapply get_long_run, Hp).
  erewrite bind_run by (eapply get_long_run, Hp).
  cbn [ob_digit]. erewrite put_long_run by exact Hp. reflexivity.
Qed.

Lemma mret_run {A} (a : A) (s : Runtime) : (mret a : M A) s = Ret a s.
Proof. reflexivity. Qed.

Lemma BitwiseLongOp_unfold (a b : Z) (op : ascii) (s : Runtime)
    (ad bd : list Z) (asz bsz : Z) :
  GetIntDigits a [0; 0; 0] s = Ret (ad, asz) s ->
  GetIntDigits b [0; 0; 0] s = Ret (bd, bsz) s ->
  CPyTagged_BitwiseLongOp_ a b op s =
  if (asz <? 0) || (bsz <? 0) then GenericBitwiseOp a b op s
  else if asz >? bsz then engine_body op bd bsz ad asz s
       else engine_body op ad asz bd bsz s.
Proof.
  intros Ha Hb. unfold CPyTagged_BitwiseLongOp_.
  rewrite (bind_run _ _ _ _ _ Ha). rewrite (bind_run _ _ _ _ _ Hb).
  destruct ((asz <? 0) || (bsz <? 0)); [reflexivity |].
  destruct (asz >? bsz); reflexivity.
Qed.

Lemma loops_fill (op : ascii) (xs ys : list Z) (nx ny : nat) :
  (nx <= ny)%nat -> (nx <= length xs)%nat -> (ny <= length ys)%nat ->
  (if Ascii.eqb op "&" then
     fill (replicate nx 0) (fun i => Z.land (digit_at xs i) (digit_at ys i)) 0 nx
   else
     fill (fill (replicate ny 0)
                (fun i => bitop op (digit_at xs i) (digit_at ys i)) 0 nx)
          (digit_at ys) nx (ny - nx))
  = digitwise op xs nx ys ny.
Proof.
  intros Hle Hx Hy. unfold digitwise.
  destruct (Ascii.eqb op "&").
  - rewrite fill_spec by (rewrite length_replicate; lia).
    rewrite take_0, drop_ge by (rewrite length_replicate; lia).
    cbn [app]. rewrite app_nil_r, map_seq_zip by lia.
    now rewrite !zip_with_take_r' by (rewrite length_take; lia).
  - rewrite (fill_spec (fill _ _ _ _)) by (rewrite fill_length, length_replicate; lia).
    rewrite fill_spec by (rewrite length_replicate; lia).
    rewrite take_0. cbn [app]. rewrite map_seq_zip by lia.
    assert (Hlen : length (zip_with (bitop op) (take nx xs) (take nx ys)) = nx).
    { rewrite length_zip_with, !length_take. lia. }
    rewrite take_app_length' by (symmetry; exact Hlen).
    rewrite drop_ge, app_nil_r.
    2:{ rewrite length_app, Hlen, length_drop, length_replicate. lia. }
    rewrite map_seq_drop by lia.
    rewrite take_drop_commute.
    replace (nx + (ny - nx))%nat with ny by lia.
    f_equal.
    now rewrite !zip_with_take_r' by (rewrite length_take; lia).
Qed.

Lemma engine_body_run (op : ascii) (xs ys : list Z) (nx ny : Z) (s : Runtime) :
  wf_runtime s -> 0 <= nx <= ny ->
  nx <= Z.of_nat (length xs) -> ny <= Z.of_nat (length ys) ->
  brk s + OBJECT_SLOT <= limit s ->
  let E := digitwise op xs (Z.to_nat nx) ys (Z.to_nat ny) in
  let n := if Ascii.eqb op "&" then nx else ny in
  engine_body op xs nx ys ny s =
  CPyTagged_StealFromObject (brk s)
    (mkRuntime
       (<[brk s := mkObject 1 (PyLong (mkLong (Z.of_nat (normalize_size (mkLong n E) (Z.to_nat n))) E))]>
          (heap s))
       (brk s + OBJECT_SLOT) (limit s) (err s)).
Proof.
  intros Hwf Hn Hx Hy Hmem E n. unfold engine_body.
  unfold _PyLong_New. fold n.
  erewrite bind_run by (now apply PyObject_New_ok).
  destruct Hwf as (Hbrk & _).
  destruct (Z.eqb_spec (brk s) NULL) as [H0 | _]; [unfold NULL in H0; lia |].
  rewrite (bind_run _ _ _ _ _ (mret_run tt _)).
  set (s1 := mkRuntime _ _ _ _).
  assert (Hr : heap s1 !! brk s =
               Some (mkObject 1 (PyLong (mkLong n (replicate (Z.to_nat n) 0))))).
  { subst s1. cbn [heap]. apply lookup_insert_eq. }
  pose proof (loops_fill op xs ys (Z.to_nat nx) (Z.to_nat ny)) as Hfill.
  fold E in Hfill. subst n. unfold bitop in Hfill.
  destruct (Ascii.eqb op "&") eqn:Hand.
  - erewrite bind_run by (apply (digit_loop_run _ _ _ _ _ _ _ _ Hr)).
    rewrite Hfill by lia.
    erewrite bind_run
      by (apply NormalizeUnsigned_run; cbn [heap set_heap]; apply lookup_insert_eq).
    subst s1. unfold set_heap. cbn [heap brk limit err].
    rewrite !insert_insert_eq. reflexivity.
  - specialize (Hfill ltac:(lia) ltac:(lia) ltac:(lia)).
    destruct (Ascii.eqb op "|");
      (erewrite bind_run;
       [| erewrite bind_run by (apply (digit_loop_run _ _ _ _ _ _ _ _ Hr));
          apply digit_loop_run; cbn [heap set_heap]; apply lookup_insert_eq ]);
      rewrite Hfill;
      (erewrite bind_run
         by (apply NormalizeUnsigned_run; cbn [heap set_heap]; apply lookup_insert_eq));
      subst s1; unfold set_heap; cbn [heap brk limit err];
      rewrite !insert_insert_eq; reflexivity.
Qed.

Lemma encodes_value (s : Runtime) (x : Z) (v : PyLongObject) :
  encodes s x v -> tagged_value s x = Some (PyLong_value v).
Proof.
  intros [(_ & Hs & Hv) | (_ & Hl & c & Hp)]; unfold tagged_value.
  - now rewrite Hs, Hv.
  - unfold CPyTagged_CheckShort. rewrite Hl. cbn [negb]. now rewrite Hp.
Qed.

Lemma StealFromObject_encodes (p c : Z) (v : PyLongObject) (s : Runtime) :
  heap s !! p = Some (mkObject c (PyLong v)) -> Forall digit_ok (ob_digit v) ->
  p mod 2 = 0 ->
  exists x s', CPyTagged_StealFromObject p s = Ret x s' /\ encodes s' x v /\
               err s' = err s.
Proof.
  intros Hp Hds Hev.
  destruct (StealFromObject_run p c v s Hp Hds)
    as (x & s' & Hrun & Herr & _ & _ & [(Hin & Hs & Hv & _) | (Hout & Hx & Hs')]);
    exists x, s'; (split; [assumption |]); (split; [| assumption]).
  - left. auto.
  - right. subst x s'. split; [assumption |]. split; [apply tag_bit_set |].
    exists c. now rewrite untag_tagged.
Qed.

(** *** Canonical digits *)

Lemma digits_of_zero (fuel : nat) : digits_of fuel 0 = [].
Proof. destruct fuel; reflexivity. Qed.

Lemma digits_of_canonical (fuel : nat) (n : Z) :
  0 <= n < 2 ^ Z.of_nat fuel -> canonical_digits (digits_of fuel n).
Proof.
  revert n. induction fuel as [| fuel IH]; intros n Hn; [now left |].
  cbn [digits_of]. destruct (Z.eqb_spec n 0) as [-> | Hnz]; [now left |].
  right.
  assert (Hq : 0 <= n / PyLong_BASE < 2 ^ Z.of_nat fuel).
  { rewrite Nat2Z.inj_succ, Z.pow_succ_r in Hn by lia.
    split; [apply Z.div_pos; [lia | apply base_pos] |].
    apply Z.div_lt_upper_bound; [apply base_pos |].
    unfold PyLong_BASE, PyLong_SHIFT. change (2 ^ 30) with 1073741824. lia. }
  destruct (Z.eq_dec (n / PyLong_BASE) 0) as [Hz | Hz].
  - rewrite Hz, digits_of_zero. cbn [last].
    pose proof (Z.div_mod n PyLong_BASE) as Hdm. pose proof base_pos.
    intros [= Hm]. rewrite Hz, Hm in Hdm. lia.
  - assert (Hne : digits_of fuel (n / PyLong_BASE) <> []).
    { destruct fuel as [| fuel']; [cbn in Hq; lia |]. now apply digits_of_nonempty. }
    destruct (IH _ Hq) as [Hnil | Hlast]; [contradiction |].
    destruct (digits_of fuel (n / PyLong_BASE)) as [| d ds]; [contradiction |].
    exact Hlast.
Qed.

Lemma PyLong_of_Z_canonical (z : Z) : canonical_long (PyLong_of_Z z).
Proof.
  unfold canonical_long, long_digits, PyLong_of_Z. cbn [ob_size ob_digit].
  set (ds := digits_of _ _).
  replace (Z.to_nat (Z.abs (Z.sgn z * Z.of_nat (length ds))))
    with (if Z.eq_dec z 0 then 0%nat else length ds)
    by (destruct (Z.eq_dec z 0); lia).
  destruct (Z.eq_dec z 0); [now left |].
  rewrite firstn_all. subst ds. apply digits_of_canonical.
  pose proof (Z.log2_spec (Z.abs z)). pose proof (Z.log2_nonneg (Z.abs z)).
  rewrite Z2Nat.id by lia.
  replace (Z.log2 (Z.abs z) + 1) with (Z.succ (Z.log2 (Z.abs z))) by lia. lia.
Qed.

(** ** The digits of the engine *)

Lemma bitop_and (op : ascii) : Ascii.eqb op "&" = true -> bitop op = Z.land.
Proof. unfold bitop. now intros ->. Qed.

Lemma bitop_not_and (op : ascii) :
  Ascii.eqb op "&" = false -> bitop op = Z.lor \/ bitop op = Z.lxor.
Proof. unfold bitop. intros ->. destruct (Ascii.eqb op "|"); auto. Qed.

Lemma bitop_comm (op : ascii) (x y : Z) : bitop op x y = bitop op y x.
Proof.
  destruct (bitop_cases op) as [-> | [-> | ->]];
    [apply Z.land_comm | apply Z.lor_comm | apply Z.lxor_comm].
Qed.

Lemma digitwise_length (op : ascii) (xs ys : list Z) (nx ny : nat) :
  (nx <= ny)%nat -> (nx <= length xs)%nat -> (ny <= length ys)%nat ->
  length (digitwise op xs nx ys ny) = if Ascii.eqb op "&" then nx else ny.
Proof.
  intros Hle Hx Hy. unfold digitwise. destruct (Ascii.eqb op "&").
  - rewrite length_zip_with, !length_take. lia.
  - rewrite length_app, length_zip_with, length_drop, !length_take. lia.
Qed.

Lemma digitwise_ok (op : ascii) (xs ys : list Z) (nx ny : nat) :
  Forall digit_ok xs -> Forall digit_ok ys ->
  Forall digit_ok (digitwise op xs nx ys ny).
Proof.
  intros Hxs Hys. unfold digitwise.
  pose proof (zip_digits_ok op (take nx xs) (take ny ys)
                (Forall_take _ _ _ Hxs) (Forall_take _ _ _ Hys)) as Hzip.
  destruct (Ascii.eqb op "&") eqn:Hand.
  - now rewrite (bitop_and op Hand) in Hzip.
  - apply Forall_app. split; [assumption |]. now apply Forall_drop, Forall_take.
Qed.

Lemma digitwise_value (op : ascii) (xs ys : list Z) (nx ny : nat) :
  Forall digit_ok xs -> Forall digit_ok ys ->
  (nx <= ny)%nat -> (nx <= length xs)%nat -> (ny <= length ys)%nat ->
  digits_value (digitwise op xs nx ys ny) =
  bitop op (digits_value (take nx xs)) (digits_value (take ny ys)).
Proof.
  intros Hxs Hys Hle Hx Hy. unfold digitwise.
  destruct (Ascii.eqb op "&") eqn:Hand.
  - rewrite (bitop_and op Hand). apply land_digits_value; now apply Forall_take.
  - replace (drop nx (take ny ys)) with (drop (length (take nx xs)) (take ny ys))
      by (rewrite length_take; f_equal; lia).
    apply lor_lxor_digits_value; try now apply Forall_take.
    + now apply bitop_not_and.
    + rewrite !length_take. lia.
Qed.

(** The digits beyond the shorter operand are those of the longer one, and
    the digits up to it combine both operands. *)
Lemma digitwise_nth (op : ascii) (xs ys : list Z) (nx ny i : nat) :
  (nx <= ny)%nat -> (nx <= length xs)%nat -> (ny <= length ys)%nat ->
  ((i < nx)%nat ->
   nth i (digitwise op xs nx ys ny) 0 = bitop op (nth i xs 0) (nth i ys 0)) /\
  (Ascii.eqb op "&" = false -> (nx <= i < ny)%nat ->
   nth i (digitwise op xs nx ys ny) 0 = nth i ys 0).
Proof.
  intros Hle Hx Hy.
  assert (Hzip : forall g : Z -> Z -> Z, length (zip_with g (take nx xs) (take ny ys)) = nx)
    by (intros g; rewrite length_zip_with, !length_take; lia).
  assert (Hlow : forall g : Z -> Z -> Z, (i < nx)%nat ->
            nth i (zip_with g (take nx xs) (take ny ys)) 0 = g (nth i xs 0) (nth i ys 0)).
  { intros g Hi. rewrite !nth_lookup, lookup_zip_with, !lookup_take_lt by lia.
    destruct (lookup_lt_is_Some_2 xs i ltac:(lia)) as [x ->].
    destruct (lookup_lt_is_Some_2 ys i ltac:(lia)) as [y ->]. reflexivity. }
  unfold digitwise. split.
  - intros Hi. destruct (Ascii.eqb op "&") eqn:Hand.
    + rewrite (bitop_and op Hand). now apply Hlow.
    + rewrite app_nth1 by (rewrite Hzip; lia). now apply Hlow.
  - intros -> Hi. rewrite app_nth2 by (rewrite Hzip; lia). rewrite Hzip.
    rewrite !nth_lookup, lookup_drop, lookup_take_lt by lia.
    do 2 f_equal. lia.
Qed.

(** ** The result of the engine *)

Lemma engine_body_result (op : ascii) (xs ys : list Z) (nx ny : Z) (s : Runtime) :
  wf_runtime s -> 0 <= nx <= ny ->
  nx <= Z.of_nat (length xs) -> ny <= Z.of_nat (length ys) ->
  Forall digit_ok xs -> Forall digit_ok ys ->
  brk s + OBJECT_SLOT <= limit s ->
  exists x s' v,
    engine_body op xs nx ys ny s = Ret x s' /\ encodes s' x v /\
    canonical_long v /\ 0 <= ob_size v /\ Forall digit_ok (ob_digit v) /\
    ob_digit v = digitwise op xs (Z.to_nat nx) ys (Z.to_nat ny) /\
    PyLong_value v =
      bitop op (digits_value (take (Z.to_nat nx) xs)) (digits_value (take (Z.to_nat ny) ys)).
Proof.
  intros Hwf Hn Hx Hy Hxs Hys Hmem.
  rewrite engine_body_run by assumption. cbv zeta.
  set (E := digitwise op xs (Z.to_nat nx) ys (Z.to_nat ny)).
  set (n := if Ascii.eqb op "&" then nx else ny).
  assert (Hlen : length E = Z.to_nat n).
  { subst E n. rewrite digitwise_length by lia. now destruct (Ascii.eqb op "&"). }
  assert (HE : Forall digit_ok E) by now apply digitwise_ok.
  destruct (normalize_size_spec (mkLong n E) (Z.to_nat n)) as (Hj & Hval & Hcan);
    [cbn [ob_digit]; lia |].
  cbn [ob_digit] in Hval, Hcan.
  set (j := normalize_size (mkLong n E) (Z.to_nat n)) in *.
  set (v := mkLong (Z.of_nat j) E).
  destruct Hwf as (_ & Hev & _).
  destruct (StealFromObject_encodes (brk s) 1 v
              (mkRuntime (<[brk s := mkObject 1 (PyLong v)]> (heap s))
                         (brk s + OBJECT_SLOT) (limit s) (err s)))
    as (x & s' & Hrun & Henc & _);
    [cbn [heap]; apply lookup_insert_eq | exact HE | exact Hev |].
  exists x, s', v. split; [exact Hrun |]. split; [exact Henc |].
  assert (Hdigits : long_digits v = take j E).
  { unfold long_digits, v. cbn [ob_size ob_digit]. f_equal. lia. }
  split_and!.
  - unfold canonical_long. now rewrite Hdigits.
  - cbn [ob_size v]. lia.
  - exact HE.
  - reflexivity.
  - unfold PyLong_value. rewrite Hdigits. cbn [ob_size v].
    rewrite <- Hlen, firstn_all in Hval.
    assert (HvE : digits_value E =
                  bitop op (digits_value (take (Z.to_nat nx) xs))
                           (digits_value (take (Z.to_nat ny) ys)))
      by (apply digitwise_value; assumption || lia).
    rewrite <- HvE, <- Hval.
    destruct (Nat.eq_dec j 0%nat) as [H0 | H0].
    + rewrite H0. reflexivity.
    + rewrite Z.sgn_pos by lia. lia.
Qed.

(** ** The result of the generic slow paths *)

Lemma long_binop_run (f : Z -> Z -> Z) (a b ca cb : Z) (va vb : PyLongObject)
    (s : Runtime) :
  heap s !! a = Some (mkObject ca (PyLong va)) ->
  heap s !! b = Some (mkObject cb (PyLong vb)) ->
  brk s + OBJECT_SLOT <= limit s ->
  long_binop f a b s =
  Ret (brk s)
      (mkRuntime
         (<[brk s := mkObject 1 (PyLong (PyLong_of_Z (f (PyLong_value va) (PyLong_value vb))))]>
            (heap s))
         (brk s + OBJECT_SLOT) (limit s) (err s)).
Proof.
  intros Ha Hb Hmem. unfold long_binop.
  erewrite bind_run by (eapply get_long_run, Ha).
  erewrite bind_run by (eapply get_long_run, Hb).
  now apply PyObject_New_ok.
Qed.

Lemma binary_fatal_result (f : Z -> Z -> Z) (l r vl vr : Z) (s : Runtime) :
  wf_runtime s -> tagged_value s l = Some vl -> tagged_value s r = Some vr ->
  brk s + OBJECT_SLOT *
            (Z.b2z (CPyTagged_CheckShort l) + Z.b2z (CPyTagged_CheckShort r) + 1)
    <= limit s ->
  exists x s',
    binary_fatal (long_binop f) l r s = Ret x s' /\
    encodes s' x (PyLong_of_Z (f vl vr)) /\ err s' = err s.
Proof.
  intros Hwf Hl Hr Hmem.
  assert (Hslot : OBJECT_SLOT = 16) by reflexivity.
  destruct (materialize_pair l r vl vr s Hwf Hl Hr)
    as (lo & s1 & ro & s2 & cl & wl & cr & wr & Hrun1 & Hrun2 & Hlo & Hwl & Hro & Hwr & Hbrk);
    [lia |].
  destruct (acquire_pair _ _ _ _ _ _ _ Hwf Hrun1 Hrun2)
    as (Hwf2 & Hheld & _ & Hlim & Herr).
  pose proof (long_binop_run f _ _ _ _ _ _ _ Hlo Hro) as Hhost.
  rewrite Hwl, Hwr in Hhost. specialize (Hhost ltac:(lia)).
  set (s3 := mkRuntime _ _ _ _) in Hhost.
  destruct Hwf2 as (Hb2 & Hev2 & _ & Hobj2).
  assert (Hlo_ne : lo <> brk s2).
  { destruct (Hobj2 _ _ Hlo) as (Ha & _). unfold valid_address in Ha. lia. }
  assert (Hro_ne : ro <> brk s2).
  { destruct (Hobj2 _ _ Hro) as (Ha & _). unfold valid_address in Ha. lia. }
  assert (Hheld3 : held s3 lo ro).
  { destruct Hheld as (ol & or & H1 & H2 & H3).
    exists ol, or. subst s3. cbn [heap].
    rewrite !lookup_insert_ne by congruence. auto. }
  destruct (release_pair _ _ _ Hheld3) as (s4 & s5 & Hd1 & Hd2 & _ & _ & Herr5 & Hfr).
  assert (Hres : heap s5 !! brk s2 =
                 Some (mkObject 1 (PyLong (PyLong_of_Z (f vl vr))))).
  { rewrite Hfr by congruence. subst s3. cbn [heap]. apply lookup_insert_eq. }
  destruct (StealFromObject_encodes _ _ _ _ Hres) as (x & s' & Hsteal & Henc & Herr');
    [apply PyLong_of_Z_valid | exact Hev2 |].
  exists x, s'. unfold binary_fatal.
  rewrite (bind_run _ _ _ _ _ Hrun1), (bind_run _ _ _ _ _ Hrun2), (bind_run _ _ _ _ _ Hhost).
  destruct (Z.eqb_spec (brk s2) NULL) as [H0 | _]; [unfold NULL in H0; lia |].
  rewrite (bind_run _ _ _ _ _ (mret_run tt _)).
  rewrite (bind_run _ _ _ _ _ Hd1), (bind_run _ _ _ _ _ Hd2).
  split; [exact Hsteal |]. split; [exact Henc |].
  rewrite Herr', Herr5. subst s3. cbn [err]. exact Herr.
Qed.

Lemma GenericBitwiseOp_result (a b va vb : Z) (op : ascii) (s : Runtime) :
  wf_runtime s -> tagged_value s a = Some va -> tagged_value s b = Some vb ->
  brk s + OBJECT_SLOT *
            (Z.b2z (CPyTagged_CheckShort a) + Z.b2z (CPyTagged_CheckShort b) + 1)
    <= limit s ->
  exists x s',
    GenericBitwiseOp a b op s = Ret x s' /\
    encodes s' x (PyLong_of_Z (bitop op va vb)) /\ err s' = err s.
Proof.
  intros Hwf Ha Hb Hmem.
  destruct (binary_fatal_result (bitop op) a b va vb s Hwf Ha Hb Hmem)
    as (x & s' & Hrun & Henc).
  exists x, s'. split; [| exact Henc]. rewrite <- Hrun.
  unfold GenericBitwiseOp, binary_fatal, bitop.
  destruct (Ascii.eqb op "&"); [reflexivity |].
  destruct (Ascii.eqb op "|"); reflexivity.
Qed.

Lemma nonneg_size_value (size : Z) (ds : list Z) :
  0 <= size ->
  PyLong_value (mkLong size ds) = digits_value (take (Z.to_nat size) ds).
Proof.
  intros Hs. unfold PyLong_value, long_digits. cbn [ob_size ob_digit].
  destruct (Z.eq_dec size 0) as [-> | Hnz]; [reflexivity |].
  rewrite Z.sgn_pos, Z.abs_eq by lia. lia.
Qed.

(** The digit loop on two operands of non-negative size. *)
Lemma engine_result (a b va vb : Z) (op : ascii) (s : Runtime)
    (ad bd : list Z) (asz bsz : Z) :
  wf_runtime s ->
  GetIntDigits a [0; 0; 0] s = Ret (ad, asz) s ->
  GetIntDigits b [0; 0; 0] s = Ret (bd, bsz) s ->
  valid_long (mkLong asz ad) -> valid_long (mkLong bsz bd) ->
  PyLong_value (mkLong asz ad) = va -> PyLong_value (mkLong bsz bd) = vb ->
  0 <= asz -> 0 <= bsz -> brk s + OBJECT_SLOT <= limit s ->
  exists x s' v,
    CPyTagged_BitwiseLongOp_ a b op s = Ret x s' /\ encodes s' x v /\
    canonical_long v /\ 0 <= ob_size v /\ Forall digit_ok (ob_digit v) /\
    ob_digit v = engine_digits op ad asz bd bsz /\
    PyLong_value v = bitop op va vb.
Proof.
  intros Hwf Ha Hb (Hda & Hla) (Hdb & Hlb) Hva Hvb Hna Hnb Hmem.
  cbn [ob_size ob_digit] in *.
  rewrite (BitwiseLongOp_unfold a b op s ad bd asz bsz Ha Hb).
  destruct (Z.ltb_spec asz 0); [lia |]. destruct (Z.ltb_spec bsz 0); [lia |].
  cbn [orb]. rewrite nonneg_size_value in Hva, Hvb by assumption.
  unfold engine_digits. destruct (Z.gtb_spec asz bsz) as [Hgt | Hle].
  - destruct (engine_body_result op bd ad bsz asz s)
      as (x & s' & v & Hrun & Henc & Hcan & Hsz & Hok & Hdig & Hval);
      try (assumption || lia).
    exists x, s', v. split_and!; try assumption.
    rewrite Hval, Hva, Hvb. apply bitop_comm.
  - destruct (engine_body_result op ad bd asz bsz s)
      as (x & s' & v & Hrun & Henc & Hcan & Hsz & Hok & Hdig & Hval);
      try (assumption || lia).
    exists x, s', v. split_and!; try assumption.
    now rewrite Hval, Hva, Hvb.
Qed.

(** Whatever the signs, the result is canonical and stands for the value
    of the operation. *)
Lemma BitwiseLongOp_result (a b va vb : Z) (op : ascii) (s : Runtime) :
  wf_runtime s -> tagged_value s a = Some va -> tagged_value s b = Some vb ->
  brk s + 3 * OBJECT_SLOT <= limit s ->
  exists x s' v,
    CPyTagged_BitwiseLongOp_ a b op s = Ret x s' /\ encodes s' x v /\
    canonical_long v /\ Forall digit_ok (ob_digit v) /\
    PyLong_value v = bitop op va vb.
Proof.
  intros Hwf Ha Hb Hmem.
  assert (Hslot : OBJECT_SLOT = 16) by reflexivity.
  destruct (GetIntDigits_spec a va s Hwf Ha) as (ad & asz & Hga & Hvla & Hvala & _).
  destruct (GetIntDigits_spec b vb s Hwf Hb) as (bd & bsz & Hgb & Hvlb & Hvalb & _).
  destruct (Z.lt_ge_cases asz 0) as [Hna | Hna];
    [| destruct (Z.lt_ge_cases bsz 0) as [Hnb | Hnb]].
  3:{ destruct (engine_result a b va vb op s ad bd asz bsz)
        as (x & s' & v & Hrun & Henc & Hcan & _ & Hok & _ & Hval);
        try (assumption || lia).
      now exists x, s', v. }
  all: rewrite (BitwiseLongOp_unfold a b op s ad bd asz bsz Hga Hgb);
    replace ((asz <? 0) || (bsz <? 0)) with true
      by (symmetry; apply orb_true_iff;
          destruct (Z.ltb_spec asz 0), (Z.ltb_spec bsz 0); auto; lia);
    destruct (GenericBitwiseOp_result a b va vb op s Hwf Ha Hb)
      as (x & s' & Hrun & Henc & _);
    [ destruct (CPyTagged_CheckShort a), (CPyTagged_CheckShort b); cbn [Z.b2z]; lia | ];
    exists x, s', (PyLong_of_Z (bitop op va vb));
    (split_and!; [assumption | assumption | apply PyLong_of_Z_canonical
                  | apply PyLong_of_Z_valid | apply PyLong_of_Z_value]).
Qed.

(** ** The bitwise engine against the generic delegate *)

(** C4: for non-negative operands, at least one of them boxed, the digit
    level AND, OR and XOR and the generic delegate both return, and both
    results stand for the integer operation on the operands' values.  An
    inline operand is decomposed into at most three digits; the shorter
    digit sequence is taken first; up to its length the digits of both
    operands are combined, AND yields no more digits than that, OR and XOR
    copy the remaining digits of the longer operand. *)
Theorem bitwise_engine_refines_generic (a b va vb : Z) (op : ascii) (s : Runtime) :
  wf_runtime s -> tagged_value s a = Some va -> tagged_value s b = Some vb ->
  0 <= va -> 0 <= vb ->
  CPyTagged_CheckLong a = true \/ CPyTagged_CheckLong b = true ->
  brk s + 3 * OBJECT_SLOT <= limit s ->
  (exists x1 s1 x2 s2,
      CPyTagged_BitwiseLongOp_ a b op s = Ret x1 s1 /\
      GenericBitwiseOp a b op s = Ret x2 s2 /\
      tagged_value s1 x1 = Some (bitop op va vb) /\
      tagged_value s2 x2 = Some (bitop op va vb)) /\
  (exists ad asz bd bsz,
      GetIntDigits a [0; 0; 0] s = Ret (ad, asz) s /\
      GetIntDigits b [0; 0; 0] s = Ret (bd, bsz) s /\
      (CPyTagged_CheckShort a = true -> 1 <= Z.abs asz <= 3) /\
      (CPyTagged_CheckShort b = true -> 1 <= Z.abs bsz <= 3) /\
      (0 <= asz -> 0 <= bsz ->
       (exists x s' v,
           CPyTagged_BitwiseLongOp_ a b op s = Ret x s' /\ encodes s' x v /\
           ob_digit v = engine_digits op ad asz bd bsz) /\
       Z.of_nat (length (engine_digits op ad asz bd bsz)) =
         (if Ascii.eqb op "&" then Z.min asz bsz else Z.max asz bsz) /\
       (forall i : nat,
           Z.of_nat i < Z.min asz bsz ->
           nth i (engine_digits op ad asz bd bsz) 0 =
           bitop op (nth i ad 0) (nth i bd 0)) /\
       (Ascii.eqb op "&" = false ->
        forall i : nat,
          Z.min asz bsz <= Z.of_nat i < Z.max asz bsz ->
          nth i (engine_digits op ad asz bd bsz) 0 =
          nth i (if asz >? bsz then ad else bd) 0))).
Proof.
  intros Hwf Ha Hb _ _ _ Hmem.
  assert (Hslot : OBJECT_SLOT = 16) by reflexivity.
  split.
  - destruct (BitwiseLongOp_result a b va vb op s Hwf Ha Hb Hmem)
      as (x1 & s1 & v1 & Hrun1 & Henc1 & _ & _ & Hval1).
    destruct (GenericBitwiseOp_result a b va vb op s Hwf Ha Hb)
      as (x2 & s2 & Hrun2 & Henc2 & _).
    { destruct (CPyTagged_CheckShort a), (CPyTagged_CheckShort b); cbn [Z.b2z]; lia. }
    exists x1, s1, x2, s2. split_and!; try assumption.
    + rewrite (encodes_value _ _ _ Henc1). now rewrite Hval1.
    + rewrite (encodes_value _ _ _ Henc2). now rewrite PyLong_of_Z_value.
  - destruct (GetIntDigits_spec a va s Hwf Ha) as (ad & asz & Hga & Hvla & Hvala & Hsa).
    destruct (GetIntDigits_spec b vb s Hwf Hb) as (bd & bsz & Hgb & Hvlb & Hvalb & Hsb).
    exists ad, asz, bd, bsz. split_and!; try assumption.
    intros Hna Hnb.
    destruct Hvla as (Hda & Hla). destruct Hvlb as (Hdb & Hlb).
    cbn [ob_size ob_digit] in Hla, Hlb.
    split_and!.
    + destruct (engine_result a b va vb op s ad bd asz bsz)
        as (x & s' & v & Hrun & Henc & _ & _ & _ & Hdig & _);
        try (assumption || lia || (split; assumption)).
      now exists x, s', v.
    + unfold engine_digits. destruct (Z.gtb_spec asz bsz);
        rewrite digitwise_length by lia; destruct (Ascii.eqb op "&"); lia.
    + intros i Hi. unfold engine_digits. destruct (Z.gtb_spec asz bsz).
      * rewrite (proj1 (digitwise_nth op bd ad (Z.to_nat bsz) (Z.to_nat asz) i
                          ltac:(lia) ltac:(lia) ltac:(lia))) by lia.
        apply bitop_comm.
      * now rewrite (proj1 (digitwise_nth op ad bd (Z.to_nat asz) (Z.to_nat bsz) i
                              ltac:(lia) ltac:(lia) ltac:(lia))) by lia.
    + intros Hop i Hi. unfold engine_digits. destruct (Z.gtb_spec asz bsz).
      * apply (digitwise_nth op bd ad (Z.to_nat bsz) (Z.to_nat asz) i); (assumption || lia).
      * apply (digitwise_nth op ad bd (Z.to_nat asz) (Z.to_nat bsz) i); (assumption || lia).
Qed.

Lemma bitwise_engine_refines_generic_witness :
  exists x1 s1 x2 s2,
    CPyTagged_BitwiseLongOp_ 17 10 "|" Samples.rt_big = Ret x1 s1 /\
    GenericBitwiseOp 17 10 "|" Samples.rt_big = Ret x2 s2 /\
    tagged_value s1 x1 = Some (2 ^ 62 + 5) /\
    tagged_value s2 x2 = Some (2 ^ 62 + 5).
Proof.
  destruct (bitwise_engine_refines_generic 17 10 (2 ^ 62) 5 "|" Samples.rt_big)
    as [H _].
  - apply rt_big_wf.
  - reflexivity.
  - reflexivity.
  - discriminate.
  - discriminate.
  - left. reflexivity.
  - discriminate.
  - exact H.
Defined.

(** ** Canonical results *)

Lemma zero_digits_value (ds : list Z) :
  Forall digit_ok ds -> digits_value ds = 0 -> canonical_digits ds -> ds = [].
Proof.
  intros Hds. induction Hds as [| d ds Hd Hds IH]; [reflexivity |].
  cbn [digits_value]. intros Hval Hcan. exfalso.
  pose proof (digits_value_bound ds Hds) as Hb. pose proof base_pos.
  unfold digit_ok in Hd.
  assert (Hd0 : d = 0) by nia. assert (Hv0 : digits_value ds = 0) by nia.
  destruct Hcan as [Hnil | Hlast]; [discriminate |].
  destruct ds as [| d' ds'].
  - apply Hlast. cbn. now rewrite Hd0.
  - assert (Hd's : d' :: ds' = []); [| discriminate].
    apply IH; [assumption |]. right. exact Hlast.
Qed.

Lemma canonical_zero (v : PyLongObject) :
  Forall digit_ok (ob_digit v) -> canonical_long v -> PyLong_value v = 0 ->
  long_digits v = [].
Proof.
  intros Hds Hcan Hval. unfold PyLong_value in Hval.
  destruct (Z.eq_dec (ob_size v) 0) as [H0 | H0].
  - unfold long_digits. now rewrite H0.
  - apply zero_digits_value; [now apply Forall_take | | exact Hcan].
    destruct (Z.sgn_spec (ob_size v)) as [(_ & Hs) | [(Hz & _) | (_ & Hs)]];
      [| lia |]; rewrite Hs in Hval; lia.
Qed.

(** C8: normalization after the digit loop trims the zero digits at the
    top, so that the object is canonical and the value 0 has no digit;
    every result of the engine is the re-encoding of a canonical object:
    inline if the value fits, else that boxed object itself. *)
Theorem bitwise_result_canonical (a b va vb : Z) (op : ascii) (s : Runtime) :
  wf_runtime s -> tagged_value s a = Some va -> tagged_value s b = Some vb ->
  brk s + 3 * OBJECT_SLOT <= limit s ->
  (forall (p c n : Z) (ds : list Z) (s0 : Runtime),
      heap s0 !! p = Some (mkObject c (PyLong (mkLong n ds))) ->
      Forall digit_ok ds -> 0 <= n <= Z.of_nat (length ds) ->
      exists s1 v,
        CPyLong_NormalizeUnsigned p s0 = Ret tt s1 /\
        heap s1 !! p = Some (mkObject c (PyLong v)) /\
        ob_digit v = ds /\ 0 <= ob_size v <= n /\
        canonical_long v /\
        PyLong_value v = digits_value (take (Z.to_nat n) ds) /\
        (PyLong_value v = 0 -> long_digits v = [])) /\
  (exists x s' v,
      CPyTagged_BitwiseLongOp_ a b op s = Ret x s' /\
      PyLong_value v = bitop op va vb /\
      canonical_long v /\
      (PyLong_value v = 0 -> long_digits v = []) /\
      ((CPY_TAGGED_MIN <= PyLong_value v <= CPY_TAGGED_MAX /\
        CPyTagged_CheckShort x = true /\
        CPyTagged_ShortAsSsize_t x = PyLong_value v) \/
       (~ (CPY_TAGGED_MIN <= PyLong_value v <= CPY_TAGGED_MAX) /\
        CPyTagged_CheckLong x = true /\
        exists c, heap s' !! CPyTagged_LongAsObject x = Some (mkObject c (PyLong v))))).
Proof.
  intros Hwf Ha Hb Hmem. split.
  - intros p c n ds s0 Hp Hds Hn.
    rewrite (NormalizeUnsigned_run _ _ _ _ _ Hp).
    destruct (normalize_size_spec (mkLong n ds) (Z.to_nat n)) as (Hj & Hval & Hcan);
      [cbn [ob_digit]; lia |].
    cbn [ob_digit] in Hval, Hcan.
    set (j := normalize_size (mkLong n ds) (Z.to_nat n)) in *.
    set (v := mkLong (Z.of_nat j) ds).
    assert (Hdigits : long_digits v = take j ds).
    { unfold long_digits, v. cbn [ob_size ob_digit]. f_equal. lia. }
    assert (Hcanv : canonical_long v) by (unfold canonical_long; now rewrite Hdigits).
    assert (Hvalv : PyLong_value v = digits_value (take (Z.to_nat n) ds)).
    { unfold PyLong_value. rewrite Hdigits, Hval. cbn [ob_size v].
      destruct (Nat.eq_dec j 0%nat) as [H0 | H0].
      - rewrite H0 in Hval. cbn [take digits_value] in Hval. rewrite <- Hval.
        rewrite H0. reflexivity.
      - rewrite Z.sgn_pos by lia. lia. }
    eexists _, v. split; [reflexivity |].
    cbn [heap set_heap]. rewrite lookup_insert_eq.
    split_and!; try (reflexivity || assumption); cbn [ob_size v]; try lia.
    now apply canonical_zero.
  - destruct (BitwiseLongOp_result a b va vb op s Hwf Ha Hb Hmem)
      as (x & s' & v & Hrun & Henc & Hcan & Hok & Hval).
    exists x, s', v. split_and!; try assumption.
    now apply canonical_zero.
Qed.

Lemma bitwise_result_canonical_witness :
  exists x s' v,
    CPyTagged_BitwiseLongOp_ 17 10 "|" Samples.rt_big = Ret x s' /\
    PyLong_value v = bitop "|" (2 ^ 62) 5 /\
    canonical_long v /\
    (PyLong_value v = 0 -> long_digits v = []) /\
    ((CPY_TAGGED_MIN <= PyLong_value v <= CPY_TAGGED_MAX /\
      CPyTagged_CheckShort x = true /\
      CPyTagged_ShortAsSsize_t x = PyLong_value v) \/
     (~ (CPY_TAGGED_MIN <= PyLong_value v <= CPY_TAGGED_MAX) /\
      CPyTagged_CheckLong x = true /\
      exists c, heap s' !! CPyTagged_LongAsObject x = Some (mkObject c (PyLong v)))).
Proof.
  destruct (bitwise_result_canonical 17 10 (2 ^ 62) 5 "|" Samples.rt_big)
    as [_ H].
  - apply rt_big_wf.
  - reflexivity.
  - reflexivity.
  - discriminate.
  - exact H.
Defined.

(** ** Reference counts on the heap *)

Lemma released_retained (fresh : PyObject) (o : option PyObject) :
  ob_refcnt fresh = 1 -> (forall o', o = Some o' -> 1 <= ob_refcnt o') ->
  released (retained fresh o) = o.
Proof.
  intros Hf Ho. destruct o as [[c b] |]; cbn.
  - specialize (Ho _ eq_refl). cbn in Ho.
    destruct (Z.eqb_spec (c + 1) 1); [lia |]. do 2 f_equal. lia.
  - now rewrite Hf.
Qed.

Lemma AsObject_heap (x p : Z) (s s' : Runtime) :
  wf_runtime s -> CPyTagged_AsObject x s = Ret p s' ->
  heap s' = partial_alter (retained (short_object x)) p (heap s) /\
  limit s' = limit s /\ err s' = err s /\
  brk s' = brk s + OBJECT_SLOT * Z.b2z (CPyTagged_CheckShort x) /\
  (if CPyTagged_CheckShort x then p = brk s
   else p = CPyTagged_LongAsObject x /\ p < brk s).
Proof.
  intros Hwf Hrun. unfold CPyTagged_CheckShort.
  assert (Hfresh : heap s !! brk s = None).
  { destruct Hwf as (_ & _ & _ & Hobj).
    destruct (heap s !! brk s) as [o |] eqn:Ho; [| reflexivity].
    destruct (Hobj _ _ Ho) as (((_ & Hlt) & _) & _). lia. }
  apply AsObject_inv in Hrun as [(Hx & -> & o & Ho & ->) | (Hx & -> & Hnn & Hmem & ->)];
    rewrite Hx; cbn [negb Z.b2z heap set_heap brk limit err].
  - split_and!; try reflexivity; try lia.
    + apply map_eq. intros q. rewrite lookup_insert, lookup_partial_alter.
      destruct (decide (CPyTagged_LongAsObject x = q)); [| reflexivity].
      now rewrite Ho.
    + destruct Hwf as (_ & _ & _ & Hobj).
      destruct (Hobj _ _ Ho) as (((_ & Hlt) & _) & _). exact Hlt.
  - split_and!; try reflexivity; try lia.
    apply map_eq. intros q. rewrite lookup_insert, lookup_partial_alter.
    destruct (decide (brk s = q)); [| reflexivity].
    now rewrite Hfresh.
Qed.

Lemma Py_DECREF_heap (p : Z) (s : Runtime) :
  is_Some (heap s !! p) ->
  Py_DECREF p s = Ret tt (set_heap (partial_alter released p (heap s)) s).
Proof.
  intros (o & Ho). rewrite (Py_DECREF_run _ _ _ Ho). do 2 f_equal.
  apply map_eq. intros q. rewrite lookup_partial_alter, Ho. cbn [released].
  destruct (ob_refcnt o =? 1).
  - rewrite lookup_delete. reflexivity.
  - rewrite lookup_insert. reflexivity.
Qed.

(** Two references taken and given back around a host call that stored its
    result at a fresh address [n]. *)
Lemma pair_restored (h : gmap Z PyObject) (lo ro n : Z) (fl fr res : PyObject) :
  n <> lo -> n <> ro -> ob_refcnt fl = 1 -> ob_refcnt fr = 1 ->
  (forall q o, h !! q = Some o -> 1 <= ob_refcnt o) ->
  partial_alter released ro
    (partial_alter released lo
       (<[n := res]> (partial_alter (retained fr) ro (partial_alter (retained fl) lo h))))
  = <[n := res]> h.
Proof.
  intros Hnl Hnr Hfl Hfr Hrc. apply map_eq. intros q.
  rewrite !lookup_partial_alter, !lookup_insert, !lookup_partial_alter.
  repeat (case_decide; subst; try congruence; cbn).
  all: rewrite ?lookup_insert, ?lookup_partial_alter;
    repeat (case_decide; subst; try congruence; cbn).
  all: try (destruct (h !! q) as [[c b] |] eqn:Hq; cbn;
            [ specialize (Hrc _ _ Hq); cbn in Hrc | ];
            rewrite ?Hfl, ?Hfr; cbn;
            repeat match goal with
                   | |- context [?a =? 1] => destruct (Z.eqb_spec a 1); try lia; cbn
                   end;
            try reflexivity; try (do 2 f_equal; lia)).
Qed.

(** ** The common course of the slow paths *)

Lemma pair_released (h : gmap Z PyObject) (lo ro : Z) (fl fr : PyObject) :
  ob_refcnt fl = 1 -> ob_refcnt fr = 1 ->
  (forall q o, h !! q = Some o -> 1 <= ob_refcnt o) ->
  partial_alter released ro
    (partial_alter released lo
       (partial_alter (retained fr) ro (partial_alter (retained fl) lo h)))
  = h.
Proof.
  intros Hfl Hfr Hrc. apply map_eq. intros q.
  rewrite !lookup_partial_alter.
  repeat (case_decide; subst; try congruence; cbn).
  all: rewrite ?lookup_partial_alter;
    repeat (case_decide; subst; try congruence; cbn).
  all: try (destruct (h !! q) as [[c b] |] eqn:Hq; cbn;
            [ specialize (Hrc _ _ Hq); cbn in Hrc | ];
            rewrite ?Hfl, ?Hfr; cbn;
            repeat match goal with
                   | |- context [?a =? 1] => destruct (Z.eqb_spec a 1); try lia; cbn
                   end;
            try reflexivity; try (do 2 f_equal; lia)).
Qed.

Lemma wf_referenced (s : Runtime) :
  wf_runtime s -> forall q o, heap s !! q = Some o -> 1 <= ob_refcnt o.
Proof. intros (_ & _ & _ & Hobj) q o Hq. now destruct (Hobj _ _ Hq) as (_ & H & _). Qed.

Lemma wf_below_brk (s : Runtime) (q : Z) :
  wf_runtime s -> is_Some (heap s !! q) -> 0 < q < brk s /\ q mod 2 = 0.
Proof. intros (_ & _ & _ & Hobj) (o & Hq). now destruct (Hobj _ _ Hq) as (H & _). Qed.

Lemma wf_fresh (s : Runtime) (q : Z) :
  wf_runtime s -> brk s <= q -> heap s !! q = None.
Proof.
  intros Hwf Hq. destruct (heap s !! q) as [o |] eqn:Ho; [| reflexivity].
  destruct (wf_below_brk s q Hwf) as ((_ & Hlt) & _); [eauto | lia].
Qed.

(** A state with the objects of a well-formed one, and possibly one new
    integer object above them, is well formed. *)
Lemma wf_same_heap (s s' : Runtime) :
  wf_runtime s -> heap s' = heap s -> brk s <= brk s' -> brk s' mod 2 = 0 ->
  limit s' = limit s -> wf_runtime s'.
Proof.
  intros (Hb & Hev & Hlim & Hobj) Hh Hbrk Hev' Hl.
  unfold wf_runtime. rewrite Hh, Hl. split_and!; try (assumption || lia).
  intros p o Hp. destruct (Hobj _ _ Hp) as ((Hr & Hm) & Hrest).
  split; [| exact Hrest]. split; [lia | exact Hm].
Qed.

Lemma wf_one_more (s s' : Runtime) (n : Z) (v : PyLongObject) :
  wf_runtime s -> heap s' = <[n := mkObject 1 (PyLong v)]> (heap s) ->
  brk s <= n < brk s' -> n mod 2 = 0 -> brk s' mod 2 = 0 -> valid_long v ->
  limit s' = limit s -> wf_runtime s'.
Proof.
  intros (Hb & Hev & Hlim & Hobj) Hh Hn Hnev Hev' Hv Hl.
  unfold wf_runtime. rewrite Hh, Hl. split_and!; try (assumption || lia).
  intros p o Hp. rewrite lookup_insert in Hp. case_decide.
  - subst p. injection Hp as <-. cbn. split; [| split; [lia | exact Hv]].
    split; [lia | exact Hnev].
  - destruct (Hobj _ _ Hp) as ((Hr & Hm) & Hrest).
    split; [| exact Hrest]. split; [lia | exact Hm].
Qed.

Lemma Py_DECREF_inv (p : Z) (s s' : Runtime) :
  Py_DECREF p s = Ret tt s' ->
  s' = set_heap (partial_alter released p (heap s)) s.
Proof.
  intros Hrun.
  assert (Hsome : is_Some (heap s !! p)).
  { unfold Py_DECREF, get_object, mbind, M_bind in Hrun.
    destruct (heap s !! p); [eauto | discriminate]. }
  rewrite (Py_DECREF_heap _ _ Hsome) in Hrun. now injection Hrun as <-.
Qed.

(** Re-encoding a fresh object [n]: the only object above those of [s]. *)
Lemma steal_object (s s5 : Runtime) (n : Z) (v : PyLongObject) :
  wf_runtime s -> brk s <= n -> n mod 2 = 0 -> n < brk s5 -> brk s5 mod 2 = 0 ->
  heap s5 = <[n := mkObject 1 (PyLong v)]> (heap s) -> valid_long v ->
  err s5 = err s -> limit s5 = limit s ->
  exists x s', CPyTagged_StealFromObject n s5 = Ret x s' /\
    tagged_value s' x = Some (PyLong_value v) /\
    (CPyTagged_CheckShort x = true <->
     CPY_TAGGED_MIN <= PyLong_value v <= CPY_TAGGED_MAX) /\
    heap s' = (if CPyTagged_CheckShort x then heap s
               else <[CPyTagged_LongAsObject x := mkObject 1 (PyLong v)]> (heap s)) /\
    (CPyTagged_CheckLong x = true -> CPyTagged_LongAsObject x = n) /\
    err s' = err s /\ limit s' = limit s /\ brk s' = brk s5 /\ wf_runtime s'.
Proof.
  intros Hwf Hn Hev Hlt Hev5 Hh Hvalid Herr Hlim.
  assert (Hres : heap s5 !! n = Some (mkObject 1 (PyLong v)))
    by (rewrite Hh; apply lookup_insert_eq).
  pose proof (wf_fresh s n Hwf Hn) as Hfresh.
  destruct (StealFromObject_run n 1 _ s5 Hres)
    as (x & s' & Hrun & Herr' & Hbrk' & Hlim' & Hcase); [apply Hvalid |].
  exists x, s'. split; [exact Hrun |].
  destruct Hcase as [(Hin & Hs & Hv & Hdec) | (Hout & -> & ->)].
  - assert (Hheap : heap s' = heap s).
    { apply Py_DECREF_inv in Hdec. subst s'. cbn [heap set_heap].
      rewrite Hh. apply map_eq. intros q.
      destruct (decide (n = q)) as [<- | Hne].
      - rewrite lookup_partial_alter_eq, lookup_insert_eq. cbn. now rewrite Hfresh.
      - rewrite lookup_partial_alter_ne, lookup_insert_ne by assumption. reflexivity. }
    rewrite Hs. split_and!.
    + unfold tagged_value. rewrite Hs. now rewrite Hv.
    + tauto.
    + exact Hheap.
    + unfold CPyTagged_CheckShort in Hs. apply negb_true_iff in Hs. congruence.
    + congruence.
    + congruence.
    + exact Hbrk'.
    + apply (wf_same_heap s); try (assumption || lia || congruence).
  - assert (Hl : CPyTagged_CheckLong (Z.lor n CPY_INT_TAG) = true) by apply tag_bit_set.
    assert (Hs : CPyTagged_CheckShort (Z.lor n CPY_INT_TAG) = false)
      by (unfold CPyTagged_CheckShort; now rewrite Hl).
    rewrite Hs, untag_tagged by assumption. split_and!.
    + erewrite tagged_value_boxed by eassumption. reflexivity.
    + split; [discriminate | intros; contradiction].
    + exact Hh.
    + reflexivity.
    + exact Herr.
    + exact Hlim.
    + reflexivity.
    + eapply (wf_one_more s); try eassumption; try lia.
Qed.

(** Re-encoding the fresh result [n] of a host operation. *)
Lemma steal_result (s s5 : Runtime) (n z : Z) :
  wf_runtime s -> brk s <= n -> n mod 2 = 0 -> n < brk s5 -> brk s5 mod 2 = 0 ->
  heap s5 = <[n := mkObject 1 (PyLong (PyLong_of_Z z))]> (heap s) ->
  err s5 = err s -> limit s5 = limit s ->
  exists x s', CPyTagged_StealFromObject n s5 = Ret x s' /\ returns_integer s z x s'.
Proof.
  intros Hwf Hn Hev Hlt Hev5 Hh Herr Hlim.
  destruct (steal_object s s5 n (PyLong_of_Z z) Hwf Hn Hev Hlt Hev5 Hh
              (PyLong_of_Z_valid z) Herr Hlim)
    as (x & s' & Hrun & Hv & Hs & Hheap & Hobj & He & Hl & Hb & Hwf').
  rewrite PyLong_of_Z_value in Hv, Hs.
  exists x, s'. split; [exact Hrun |]. unfold returns_integer.
  split_and!; try assumption.
  intros Hx. rewrite (Hobj Hx), Hb. lia.
Qed.

Lemma PyLong_FromZ_run (z : Z) (s : Runtime) :
  brk s + OBJECT_SLOT <= limit s ->
  PyLong_FromZ z s =
  Ret (brk s) (mkRuntime (<[brk s := mkObject 1 (PyLong (PyLong_of_Z z))]> (heap s))
                         (brk s + OBJECT_SLOT) (limit s) (err s)).
Proof. intros H. unfold PyLong_FromZ. now apply PyObject_New_ok. Qed.

(** What both operands being materialized gives. *)
Lemma operands_materialized (l r vl vr : Z) (s : Runtime) :
  wf_runtime s -> tagged_value s l = Some vl -> tagged_value s r = Some vr ->
  brk s + OBJECT_SLOT * (Z.b2z (CPyTagged_CheckShort l) + Z.b2z (CPyTagged_CheckShort r))
    <= limit s ->
  exists lo s1 ro s2 cl wl cr wr,
    CPyTagged_AsObject l s = Ret lo s1 /\ CPyTagged_AsObject r s1 = Ret ro s2 /\
    heap s2 !! lo = Some (mkObject cl (PyLong wl)) /\ PyLong_value wl = vl /\
    heap s2 !! ro = Some (mkObject cr (PyLong wr)) /\ PyLong_value wr = vr /\
    heap s2 = partial_alter (retained (short_object r)) ro
                (partial_alter (retained (short_object l)) lo (heap s)) /\
    brk s2 = brk s + OBJECT_SLOT *
                       (Z.b2z (CPyTagged_CheckShort l) + Z.b2z (CPyTagged_CheckShort r)) /\
    limit s2 = limit s /\ err s2 = err s /\ wf_runtime s2 /\ held s2 lo ro.
Proof.
  intros Hwf Hl Hr Hmem.
  destruct (materialize_pair l r vl vr s Hwf Hl Hr Hmem)
    as (lo & s1 & ro & s2 & cl & wl & cr & wr & Hrun1 & Hrun2 & Hlo & Hwl & Hro & Hwr & Hbrk).
  destruct (acquire_pair _ _ _ _ _ _ _ Hwf Hrun1 Hrun2)
    as (Hwf2 & Hheld & _ & Hlim & Herr).
  destruct (AsObject_frame _ _ _ _ Hwf Hrun1) as (Hwf1 & _).
  destruct (AsObject_heap _ _ _ _ Hwf Hrun1) as (Hh1 & _).
  destruct (AsObject_heap _ _ _ _ Hwf1 Hrun2) as (Hh2 & _).
  exists lo, s1, ro, s2, cl, wl, cr, wr.
  split_and!; try assumption. now rewrite Hh2, Hh1.
Qed.

Lemma slow_path_returns (host : Z -> Z -> M Z) (l r vl vr z : Z) (s : Runtime) :
  wf_runtime s -> tagged_value s l = Some vl -> tagged_value s r = Some vr ->
  brk s + slots2 l r <= limit s ->
  (forall lo ro cl wl cr wr s2,
      heap s2 !! lo = Some (mkObject cl (PyLong wl)) -> PyLong_value wl = vl ->
      heap s2 !! ro = Some (mkObject cr (PyLong wr)) -> PyLong_value wr = vr ->
      host lo ro s2 = PyLong_FromZ z s2) ->
  exists x s',
    binary_fatal host l r s = Ret x s' /\ binary_sentinel host l r s = Ret x s' /\
    returns_integer s z x s'.
Proof.
  intros Hwf Hl Hr Hmem Hhost. unfold slots2 in Hmem.
  assert (Hslot : OBJECT_SLOT = 16) by reflexivity.
  destruct (operands_materialized l r vl vr s Hwf Hl Hr)
    as (lo & s1 & ro & s2 & cl & wl & cr & wr & Hrun1 & Hrun2 & Hlo & Hwl & Hro & Hwr
        & Hh2 & Hbrk & Hlim & Herr & Hwf2 & Hheld); [lia |].
  specialize (Hhost _ _ _ _ _ _ s2 Hlo Hwl Hro Hwr).
  rewrite PyLong_FromZ_run in Hhost by lia.
  set (res := mkObject 1 (PyLong (PyLong_of_Z z))) in *.
  set (s3 := mkRuntime _ _ _ _) in Hhost.
  destruct (wf_below_brk s2 lo Hwf2) as ((_ & Hlo_lt) & _); [eauto |].
  destruct (wf_below_brk s2 ro Hwf2) as ((_ & Hro_lt) & _); [eauto |].
  assert (Hheld3 : held s3 lo ro).
  { destruct Hheld as (ol & or & H1 & H2 & H3).
    exists ol, or. subst s3. cbn [heap].
    rewrite !lookup_insert_ne by lia. auto. }
  destruct (release_pair _ _ _ Hheld3) as (s4 & s5 & Hd1 & Hd2 & Hb5 & Hl5 & He5 & _).
  pose proof (Py_DECREF_inv _ _ _ Hd1) as Hs4.
  pose proof (Py_DECREF_inv _ _ _ Hd2) as Hs5.
  assert (Hh5 : heap s5 = <[brk s2 := res]> (heap s)).
  { rewrite Hs5, Hs4. subst s3. cbn [heap set_heap]. rewrite Hh2.
    apply pair_restored; try (lia || reflexivity). now apply wf_referenced. }
  assert (Hev2 : brk s2 mod 2 = 0) by (destruct Hwf2 as (_ & H & _); exact H).
  assert (Hge : 0 <= Z.b2z (CPyTagged_CheckShort l) + Z.b2z (CPyTagged_CheckShort r))
    by (destruct (CPyTagged_CheckShort l), (CPyTagged_CheckShort r); cbn; lia).
  destruct (steal_result s s5 (brk s2) z Hwf) as (x & s' & Hsteal & Hret).
  { lia. } { exact Hev2. } { rewrite Hb5. subst s3. cbn [brk]. lia. }
  { rewrite Hb5. subst s3. cbn [brk]. now apply even_add_slot. }
  { exact Hh5. } { rewrite He5. subst s3. cbn [err]. exact Herr. }
  { rewrite Hl5. subst s3. cbn [limit]. exact Hlim. }
  assert (Hnn : (brk s2 =? NULL) = false).
  { apply Z.eqb_neq. destruct Hwf2 as (H0 & _). unfold NULL. lia. }
  exists x, s'. split_and!; [| | exact Hret].
  - unfold binary_fatal.
    rewrite (bind_run _ _ _ _ _ Hrun1), (bind_run _ _ _ _ _ Hrun2), (bind_run _ _ _ _ _ Hhost).
    rewrite Hnn. rewrite (bind_run _ _ _ _ _ (mret_run tt _)).
    rewrite (bind_run _ _ _ _ _ Hd1), (bind_run _ _ _ _ _ Hd2). exact Hsteal.
  - unfold binary_sentinel.
    rewrite (bind_run _ _ _ _ _ Hrun1), (bind_run _ _ _ _ _ Hrun2), (bind_run _ _ _ _ _ Hhost).
    rewrite (bind_run _ _ _ _ _ Hd1), (bind_run _ _ _ _ _ Hd2). rewrite Hnn. exact Hsteal.
Qed.

Lemma slow_path_fails (host : Z -> Z -> M Z) (l r vl vr : Z) (e : PyExc * string)
    (s : Runtime) :
  wf_runtime s -> tagged_value s l = Some vl -> tagged_value s r = Some vr ->
  brk s + OBJECT_SLOT * (Z.b2z (CPyTagged_CheckShort l) + Z.b2z (CPyTagged_CheckShort r))
    <= limit s ->
  (forall lo ro cl wl cr wr s2,
      heap s2 !! lo = Some (mkObject cl (PyLong wl)) -> PyLong_value wl = vl ->
      heap s2 !! ro = Some (mkObject cr (PyLong wr)) -> PyLong_value wr = vr ->
      brk s2 = brk s + OBJECT_SLOT * (Z.b2z (CPyTagged_CheckShort l)
                                      + Z.b2z (CPyTagged_CheckShort r)) ->
      limit s2 = limit s ->
      host lo ro s2 = Ret NULL (set_err (Some e) s2)) ->
  exists s', binary_sentinel host l r s = Ret CPY_INT_TAG s' /\ fails_with s e s'.
Proof.
  intros Hwf Hl Hr Hmem Hhost.
  assert (Hslot : OBJECT_SLOT = 16) by reflexivity.
  destruct (operands_materialized l r vl vr s Hwf Hl Hr Hmem)
    as (lo & s1 & ro & s2 & cl & wl & cr & wr & Hrun1 & Hrun2 & Hlo & Hwl & Hro & Hwr
        & Hh2 & Hbrk & Hlim & Herr & Hwf2 & Hheld).
  specialize (Hhost _ _ _ _ _ _ s2 Hlo Hwl Hro Hwr Hbrk Hlim).
  set (s3 := set_err (Some e) s2) in Hhost.
  assert (Hheld3 : held s3 lo ro) by exact Hheld.
  destruct (release_pair _ _ _ Hheld3) as (s4 & s5 & Hd1 & Hd2 & Hb5 & Hl5 & He5 & _).
  pose proof (Py_DECREF_inv _ _ _ Hd1) as Hs4.
  pose proof (Py_DECREF_inv _ _ _ Hd2) as Hs5.
  assert (Hh5 : heap s5 = heap s).
  { rewrite Hs5, Hs4. subst s3. cbn [heap set_heap set_err]. rewrite Hh2.
    apply pair_released; try reflexivity. now apply wf_referenced. }
  exists s5. split.
  - unfold binary_sentinel.
    rewrite (bind_run _ _ _ _ _ Hrun1), (bind_run _ _ _ _ _ Hrun2), (bind_run _ _ _ _ _ Hhost).
    rewrite (bind_run _ _ _ _ _ Hd1), (bind_run _ _ _ _ _ Hd2). reflexivity.
  - unfold fails_with. split_and!.
    + exact Hh5.
    + rewrite He5. reflexivity.
    + rewrite Hl5. exact Hlim.
    + apply (wf_same_heap s); try assumption.
      * rewrite Hb5. subst s3. cbn [brk set_err]. rewrite Hbrk.
        destruct (CPyTagged_CheckShort l), (CPyTagged_CheckShort r); cbn; lia.
      * rewrite Hb5. destruct Hwf2 as (_ & H & _). exact H.
      * rewrite Hl5. exact Hlim.
Qed.

(** ** Exact arithmetic on the slow paths *)

Lemma single_restored (h : gmap Z PyObject) (lo n : Z) (fl res : PyObject) :
  n <> lo -> ob_refcnt fl = 1 ->
  (forall q o, h !! q = Some o -> 1 <= ob_refcnt o) ->
  partial_alter released lo (<[n := res]> (partial_alter (retained fl) lo h))
  = <[n := res]> h.
Proof.
  intros Hnl Hfl Hrc. apply map_eq. intros q.
  destruct (decide (lo = q)) as [<- | Hq].
  - rewrite lookup_partial_alter_eq, !lookup_insert_ne, lookup_partial_alter_eq
      by assumption.
    apply released_retained; [assumption | intros o' Ho'; eapply Hrc, Ho'].
  - rewrite lookup_partial_alter_ne by assumption.
    rewrite !lookup_insert. case_decide; [reflexivity |].
    now rewrite lookup_partial_alter_ne.
Qed.

Lemma unary_returns (host : Z -> M Z) (n vn z : Z) (s : Runtime) :
  wf_runtime s -> tagged_value s n = Some vn -> brk s + slots1 n <= limit s ->
  (forall o c w s1,
      heap s1 !! o = Some (mkObject c (PyLong w)) -> PyLong_value w = vn ->
      host o s1 = PyLong_FromZ z s1) ->
  exists x s', unary_fatal host n s = Ret x s' /\ returns_integer s z x s'.
Proof.
  intros Hwf Hn Hmem Hhost. unfold slots1 in Hmem.
  assert (Hslot : OBJECT_SLOT = 16) by reflexivity.
  assert (Hge : 0 <= Z.b2z (CPyTagged_CheckShort n) <= 1)
    by (destruct (CPyTagged_CheckShort n); cbn; lia).
  destruct (AsObject_ok n vn s Hwf Hn) as (o & s1 & c & w & Hrun1 & Ho & Hw).
  { intros Hs. unfold CPyTagged_CheckShort in Hmem. rewrite Hs in Hmem.
    cbn in Hmem. lia. }
  destruct (AsObject_frame _ _ _ _ Hwf Hrun1) as (Hwf1 & _).
  destruct (AsObject_heap _ _ _ _ Hwf Hrun1) as (Hh1 & Hlim & Herr & Hbrk & _).
  specialize (Hhost _ _ _ s1 Ho Hw).
  rewrite PyLong_FromZ_run in Hhost by lia.
  set (res := mkObject 1 (PyLong (PyLong_of_Z z))) in *.
  set (s2 := mkRuntime _ _ _ _) in Hhost.
  destruct (wf_below_brk s1 o Hwf1) as ((_ & Ho_lt) & _); [eauto |].
  assert (Hd : Py_DECREF o s2 = Ret tt (set_heap (partial_alter released o (heap s2)) s2)).
  { apply Py_DECREF_heap. subst s2. cbn [heap]. rewrite lookup_insert_ne by lia. eauto. }
  set (s3 := set_heap _ s2) in Hd.
  assert (Hh3 : heap s3 = <[brk s1 := res]> (heap s)).
  { subst s3 s2. cbn [heap set_heap]. rewrite Hh1.
    apply single_restored; try (lia || reflexivity). now apply wf_referenced. }
  assert (Hev1 : brk s1 mod 2 = 0) by (destruct Hwf1 as (_ & H & _); exact H).
  destruct (steal_result s s3 (brk s1) z Hwf) as (x & s' & Hsteal & Hret).
  { lia. } { exact Hev1. } { subst s3 s2. cbn [brk set_heap]. lia. }
  { subst s3 s2. cbn [brk set_heap]. now apply even_add_slot. }
  { exact Hh3. } { exact Herr. } { exact Hlim. }
  assert (Hnn : (brk s1 =? NULL) = false).
  { apply Z.eqb_neq. destruct Hwf1 as (H0 & _). unfold NULL. lia. }
  exists x, s'. split; [| exact Hret]. unfold unary_fatal.
  rewrite (bind_run _ _ _ _ _ Hrun1), (bind_run _ _ _ _ _ Hhost), Hnn.
  rewrite (bind_run _ _ _ _ _ (mret_run tt _)), (bind_run _ _ _ _ _ Hd).
  exact Hsteal.
Qed.

Lemma long_binop_FromZ (f : Z -> Z -> Z) (lo ro cl cr : Z) (wl wr : PyLongObject)
    (s : Runtime) :
  heap s !! lo = Some (mkObject cl (PyLong wl)) ->
  heap s !! ro = Some (mkObject cr (PyLong wr)) ->
  long_binop f lo ro s = PyLong_FromZ (f (PyLong_value wl) (PyLong_value wr)) s.
Proof.
  intros Hl Hr. unfold long_binop.
  erewrite bind_run by (eapply get_long_run, Hl).
  erewrite bind_run by (eapply get_long_run, Hr). reflexivity.
Qed.

Lemma long_unop_FromZ (f : Z -> Z) (o c : Z) (w : PyLongObject) (s : Runtime) :
  heap s !! o = Some (mkObject c (PyLong w)) ->
  long_unop f o s = PyLong_FromZ (f (PyLong_value w)) s.
Proof.
  intros Ho. unfold long_unop.
  erewrite bind_run by (eapply get_long_run, Ho). reflexivity.
Qed.

(** X7: the slow paths of [+], [-] and [*] return the exact sum,
    difference and product, without wrap-around: the result is inline
    exactly when it fits, the objects that were there are as before with
    their reference counts, the temporaries are gone, and the error
    indicator is untouched. *)
Theorem add_sub_mul_exact (l r vl vr : Z) (s : Runtime) :
  wf_runtime s -> tagged_value s l = Some vl -> tagged_value s r = Some vr ->
  brk s + slots2 l r <= limit s ->
  (exists x s', CPyTagged_Add_ l r s = Ret x s' /\ returns_integer s (vl + vr) x s') /\
  (exists x s', CPyTagged_Subtract_ l r s = Ret x s' /\ returns_integer s (vl - vr) x s') /\
  (exists x s', CPyTagged_Multiply_ l r s = Ret x s' /\ returns_integer s (vl * vr) x s').
Proof.
  intros Hwf Hl Hr Hmem.
  split_and!.
  - destruct (slow_path_returns PyNumber_Add l r vl vr (vl + vr) s Hwf Hl Hr Hmem)
      as (x & s' & Hrun & _ & Hret); [| now exists x, s'].
    intros lo ro cl wl cr wr s2 Hlo <- Hro <-. now apply (long_binop_FromZ Z.add _ _ cl cr).
  - destruct (slow_path_returns PyNumber_Subtract l r vl vr (vl - vr) s Hwf Hl Hr Hmem)
      as (x & s' & Hrun & _ & Hret); [| now exists x, s'].
    intros lo ro cl wl cr wr s2 Hlo <- Hro <-. now apply (long_binop_FromZ Z.sub _ _ cl cr).
  - destruct (slow_path_returns PyNumber_Multiply l r vl vr (vl * vr) s Hwf Hl Hr Hmem)
      as (x & s' & Hrun & _ & Hret); [| now exists x, s'].
    intros lo ro cl wl cr wr s2 Hlo <- Hro <-. now apply (long_binop_FromZ Z.mul _ _ cl cr).
Qed.

Lemma add_sub_mul_exact_witness :
  exists x s', CPyTagged_Add_ 17 2 Samples.rt_big = Ret x s' /\
               returns_integer Samples.rt_big (2 ^ 62 + 1) x s'.
Proof.
  apply (add_sub_mul_exact 17 2 (2 ^ 62) 1 Samples.rt_big rt_big_wf eq_refl eq_refl).
  vm_compute. discriminate.
Defined.

(** X8: the slow paths of unary [-] and [~] return [- n] and
    [- n - 1] exactly ([Z.lnot]), in the same sense; negating the inline
    [CPY_TAGGED_MIN] gives a boxed [CPY_TAGGED_MAX + 1]. *)
Theorem negate_invert_exact (n vn : Z) (s : Runtime) :
  wf_runtime s -> tagged_value s n = Some vn -> brk s + slots1 n <= limit s ->
  (exists x s', CPyTagged_Negate_ n s = Ret x s' /\ returns_integer s (- vn) x s') /\
  (exists x s', CPyTagged_Invert_ n s = Ret x s' /\ returns_integer s (Z.lnot vn) x s').
Proof.
  intros Hwf Hn Hmem. split.
  - destruct (unary_returns PyNumber_Negative n vn (- vn) s Hwf Hn Hmem)
      as (x & s' & Hrun & Hret); [| now exists x, s'].
    intros o c w s1 Ho <-. now apply (long_unop_FromZ Z.opp _ c).
  - destruct (unary_returns PyNumber_Invert n vn (Z.lnot vn) s Hwf Hn Hmem)
      as (x & s' & Hrun & Hret); [| now exists x, s'].
    intros o c w s1 Ho <-. now apply (long_unop_FromZ Z.lnot _ c).
Qed.

Lemma negate_invert_exact_witness :
  tagged_value Samples.rt_big (to_size_t (Z.shiftl CPY_TAGGED_MIN 1)) = Some CPY_TAGGED_MIN /\
  exists x s', CPyTagged_Negate_ (to_size_t (Z.shiftl CPY_TAGGED_MIN 1)) Samples.rt_big = Ret x s' /\
               returns_integer Samples.rt_big (CPY_TAGGED_MAX + 1) x s'.
Proof.
  split; [reflexivity |].
  destruct (negate_invert_exact (to_size_t (Z.shiftl CPY_TAGGED_MIN 1)) CPY_TAGGED_MIN
              Samples.rt_big rt_big_wf eq_refl) as [H _].
  - vm_compute. discriminate.
  - exact H.
Defined.

(** ** Division on the slow path *)

Lemma FloorDivide_FromZ (lo ro cl cr : Z) (wl wr : PyLongObject) (s : Runtime) :
  heap s !! lo = Some (mkObject cl (PyLong wl)) ->
  heap s !! ro = Some (mkObject cr (PyLong wr)) ->
  PyNumber_FloorDivide lo ro s =
  (if PyLong_value wr =? 0
   then Ret NULL (set_err (Some (PyExc_ZeroDivisionError, zero_division_msg)) s)
   else PyLong_FromZ (PyLong_value wl / PyLong_value wr) s) /\
  PyNumber_Remainder lo ro s =
  (if PyLong_value wr =? 0
   then Ret NULL (set_err (Some (PyExc_ZeroDivisionError, modulo_by_zero_msg)) s)
   else PyLong_FromZ (PyLong_value wl mod PyLong_value wr) s).
Proof.
  intros Hl Hr. unfold PyNumber_FloorDivide, PyNumber_Remainder.
  rewrite !(bind_run _ _ _ _ _ (get_long_run _ _ _ _ Hl)).
  rewrite !(bind_run _ _ _ _ _ (get_long_run _ _ _ _ Hr)).
  destruct (PyLong_value wr =? 0); split; reflexivity.
Qed.

Lemma shift_FromZ (lo ro cl cr : Z) (wl wr : PyLongObject) (s : Runtime) :
  heap s !! lo = Some (mkObject cl (PyLong wl)) ->
  heap s !! ro = Some (mkObject cr (PyLong wr)) ->
  PyNumber_Rshift lo ro s =
  (if PyLong_value wr <? 0
   then Ret NULL (set_err (Some (PyExc_ValueError, "negative shift count"%string)) s)
   else PyLong_FromZ (Z.shiftr (PyLong_value wl) (PyLong_value wr)) s) /\
  PyNumber_Lshift lo ro s =
  (if PyLong_value wr <? 0
   then Ret NULL (set_err (Some (PyExc_ValueError, "negative shift count"%string)) s)
   else PyLong_FromZ (Z.shiftl (PyLong_value wl) (PyLong_value wr)) s).
Proof.
  intros Hl Hr. unfold PyNumber_Rshift, PyNumber_Lshift.
  rewrite !(bind_run _ _ _ _ _ (get_long_run _ _ _ _ Hl)).
  rewrite !(bind_run _ _ _ _ _ (get_long_run _ _ _ _ Hr)).
  destruct (PyLong_value wr <? 0); split; reflexivity.
Qed.

(** X10: for a divisor other than zero the slow path of [//] returns the
    quotient rounded toward negative infinity ([Z.div]). *)
Theorem floor_divide_exact (l r vl vr : Z) (s : Runtime) :
  wf_runtime s -> tagged_value s l = Some vl -> tagged_value s r = Some vr ->
  vr <> 0 -> brk s + slots2 l r <= limit s ->
  exists x s', CPyTagged_FloorDivide_ l r s = Ret x s' /\
               returns_integer s (vl / vr) x s'.
Proof.
  intros Hwf Hl Hr Hnz Hmem. apply Z.eqb_neq in Hnz.
  destruct (slow_path_returns PyNumber_FloorDivide l r vl vr (vl / vr) s Hwf Hl Hr Hmem)
    as (x & s' & _ & Hrun & Hret); [| now exists x, s'].
  intros lo ro cl wl cr wr s2 Hlo <- Hro <-.
  destruct (FloorDivide_FromZ _ _ _ _ _ _ s2 Hlo Hro) as [-> _]. now rewrite Hnz.
Qed.

Lemma floor_divide_exact_witness :
  exists x s', CPyTagged_FloorDivide_ 33 (to_size_t (-6)) Samples.rt_big = Ret x s' /\
               returns_integer Samples.rt_big (- (2 ^ 62 + 1) / -3) x s'.
Proof.
  apply (floor_divide_exact 33 (to_size_t (-6)) (- (2 ^ 62 + 1)) (-3)
           Samples.rt_big rt_big_wf eq_refl eq_refl).
  - discriminate.
  - vm_compute. discriminate.
Defined.

(** X11: a zero divisor, inline or boxed, makes [//] and [%] return
    [CPY_INT_TAG] with the host's [ZeroDivisionError] set (its message
    names the operation), after the references to the operands were given
    back: the heap is as before the call. *)
Theorem division_by_zero_restores (l r vl : Z) (s : Runtime) :
  wf_runtime s -> tagged_value s l = Some vl -> tagged_value s r = Some 0 ->
  brk s + OBJECT_SLOT * (Z.b2z (CPyTagged_CheckShort l) + Z.b2z (CPyTagged_CheckShort r))
    <= limit s ->
  (exists s', CPyTagged_FloorDivide_ l r s = Ret CPY_INT_TAG s' /\
              fails_with s (PyExc_ZeroDivisionError, zero_division_msg) s') /\
  (exists s', CPyTagged_Remainder_ l r s = Ret CPY_INT_TAG s' /\
              fails_with s (PyExc_ZeroDivisionError, modulo_by_zero_msg) s').
Proof.
  intros Hwf Hl Hr Hmem. split.
  - apply (slow_path_fails PyNumber_FloorDivide l r vl 0 _ s Hwf Hl Hr Hmem).
    intros lo ro cl wl cr wr s2 Hlo _ Hro Hz _ _.
    destruct (FloorDivide_FromZ _ _ _ _ _ _ s2 Hlo Hro) as [-> _]. now rewrite Hz.
  - apply (slow_path_fails PyNumber_Remainder l r vl 0 _ s Hwf Hl Hr Hmem).
    intros lo ro cl wl cr wr s2 Hlo _ Hro Hz _ _.
    destruct (FloorDivide_FromZ _ _ _ _ _ _ s2 Hlo Hro) as [_ ->]. now rewrite Hz.
Qed.

Lemma division_by_zero_restores_witness :
  exists s', CPyTagged_Remainder_ 17 0 Samples.rt_big = Ret CPY_INT_TAG s' /\
             fails_with Samples.rt_big (PyExc_ZeroDivisionError, modulo_by_zero_msg) s'.
Proof.
  apply (division_by_zero_restores 17 0 (2 ^ 62) Samples.rt_big rt_big_wf eq_refl eq_refl).
  vm_compute. discriminate.
Defined.

(** ** Shifts on the slow path *)

(** X14: a negative shift count makes [>>] and [<<] return [CPY_INT_TAG]
    with the host's [ValueError], the heap being as before the call. *)
Theorem shift_by_negative_count (l r vl vr : Z) (s : Runtime) :
  wf_runtime s -> tagged_value s l = Some vl -> tagged_value s r = Some vr ->
  vr < 0 ->
  brk s + OBJECT_SLOT * (Z.b2z (CPyTagged_CheckShort l) + Z.b2z (CPyTagged_CheckShort r))
    <= limit s ->
  (exists s', CPyTagged_Rshift_ l r s = Ret CPY_INT_TAG s' /\
              fails_with s (PyExc_ValueError, "negative shift count"%string) s') /\
  (exists s', CPyTagged_Lshift_ l r s = Ret CPY_INT_TAG s' /\
              fails_with s (PyExc_ValueError, "negative shift count"%string) s').
Proof.
  intros Hwf Hl Hr Hneg Hmem. apply Z.ltb_lt in Hneg. split.
  - apply (slow_path_fails PyNumber_Rshift l r vl vr _ s Hwf Hl Hr Hmem).
    intros lo ro cl wl cr wr s2 Hlo _ Hro Hz _ _.
    destruct (shift_FromZ _ _ _ _ _ _ s2 Hlo Hro) as [-> _]. now rewrite Hz, Hneg.
  - apply (slow_path_fails PyNumber_Lshift l r vl vr _ s Hwf Hl Hr Hmem).
    intros lo ro cl wl cr wr s2 Hlo _ Hro Hz _ _.
    destruct (shift_FromZ _ _ _ _ _ _ s2 Hlo Hro) as [_ ->]. now rewrite Hz, Hneg.
Qed.

Lemma shift_by_negative_count_witness :
  exists s', CPyTagged_Lshift_ 17 (to_size_t (-2)) Samples.rt_big = Ret CPY_INT_TAG s' /\
             fails_with Samples.rt_big (PyExc_ValueError, "negative shift count"%string) s'.
Proof.
  apply (shift_by_negative_count 17 (to_size_t (-2)) (2 ^ 62) (-1)
           Samples.rt_big rt_big_wf eq_refl eq_refl).
  - lia.
  - vm_compute. discriminate.
Defined.

(** X13: for a shift count that is not negative the slow path of [>>]
    returns [n / 2 ^ k] rounded toward negative infinity. *)
Theorem right_shift_exact (l r vl vr : Z) (s : Runtime) :
  wf_runtime s -> tagged_value s l = Some vl -> tagged_value s r = Some vr ->
  0 <= vr -> brk s + slots2 l r <= limit s ->
  exists x s', CPyTagged_Rshift_ l r s = Ret x s' /\
               returns_integer s (vl / 2 ^ vr) x s'.
Proof.
  intros Hwf Hl Hr Hnn Hmem.
  assert (Hge : (vr <? 0) = false) by (apply Z.ltb_ge; exact Hnn).
  rewrite <- Z.shiftr_div_pow2 by assumption.
  destruct (slow_path_returns PyNumber_Rshift l r vl vr (Z.shiftr vl vr) s Hwf Hl Hr Hmem)
    as (x & s' & _ & Hrun & Hret); [| now exists x, s'].
  intros lo ro cl wl cr wr s2 Hlo <- Hro <-.
  destruct (shift_FromZ _ _ _ _ _ _ s2 Hlo Hro) as [-> _]. now rewrite Hge.
Qed.

Lemma right_shift_exact_witness :
  exists x s', CPyTagged_Rshift_ 17 4 Samples.rt_big = Ret x s' /\
               returns_integer Samples.rt_big (2 ^ 62 / 2 ^ 2) x s'.
Proof.
  apply (right_shift_exact 17 4 (2 ^ 62) 2 Samples.rt_big rt_big_wf eq_refl eq_refl).
  - lia.
  - vm_compute. discriminate.
Defined.

(** ** Comparisons on the slow path *)

Lemma compare_run (l r vl vr : Z) (op : CompareOp) (s : Runtime) :
  wf_runtime s -> tagged_value s l = Some vl -> tagged_value s r = Some vr ->
  brk s + OBJECT_SLOT * (Z.b2z (CPyTagged_CheckShort l) + Z.b2z (CPyTagged_CheckShort r))
    <= limit s ->
  exists s',
    (left_obj ← CPyTagged_AsObject l;
     right_obj ← CPyTagged_AsObject r;
     result ← PyObject_RichCompareBool left_obj right_obj op;
     Py_DECREF left_obj;;
     Py_DECREF right_obj;;
     (if result =? -1 then CPyError_OutOfMemory else mret tt);;
     mret (negb (result =? 0))) s =
    Ret (match op with Py_EQ => vl =? vr | Py_LT => vl <? vr end) s' /\
    state_kept s s'.
Proof.
  intros Hwf Hl Hr Hmem.
  assert (Hslot : OBJECT_SLOT = 16) by reflexivity.
  destruct (operands_materialized l r vl vr s Hwf Hl Hr Hmem)
    as (lo & s1 & ro & s2 & cl & wl & cr & wr & Hrun1 & Hrun2 & Hlo & Hwl & Hro & Hwr
        & Hh2 & Hbrk & Hlim & Herr & Hwf2 & Hheld).
  destruct (release_pair _ _ _ Hheld) as (s4 & s5 & Hd1 & Hd2 & Hb5 & Hl5 & He5 & _).
  pose proof (Py_DECREF_inv _ _ _ Hd1) as Hs4.
  pose proof (Py_DECREF_inv _ _ _ Hd2) as Hs5.
  assert (Hh5 : heap s5 = heap s).
  { rewrite Hs5, Hs4. cbn [heap set_heap]. rewrite Hh2.
    apply pair_released; try reflexivity. now apply wf_referenced. }
  exists s5. split.
  - rewrite (bind_run _ _ _ _ _ Hrun1), (bind_run _ _ _ _ _ Hrun2).
    rewrite (bind_run _ _ _ _ _ (RichCompareBool_run _ _ _ _ _ _ op _ Hlo Hro)).
    rewrite (bind_run _ _ _ _ _ Hd1), (bind_run _ _ _ _ _ Hd2).
    rewrite Hwl, Hwr.
    destruct op; [destruct (vl <? vr) | destruct (vl =? vr)]; reflexivity.
  - unfold state_kept. split_and!.
    + exact Hh5.
    + congruence.
    + congruence.
    + apply (wf_same_heap s); try assumption.
      * rewrite Hb5, Hbrk.
        destruct (CPyTagged_CheckShort l), (CPyTagged_CheckShort r); cbn; lia.
      * rewrite Hb5. destruct Hwf2 as (_ & H & _). exact H.
      * congruence.
Qed.

(** C7, amended: when the right operand is inline, in particular when the
    left one is a boxed value outside the inline range, the equality slow
    path returns false and leaves the state as it was: no operand is
    materialized.  When the left operand is inline and the right one is a
    boxed value outside the inline range, the operands are materialized
    and compared: whenever they are materialized, for which memory for the
    object of the left operand is enough, the call returns false as well,
    with every object and the error indicator as before. *)
Theorem IsEq_short_against_long (left right vr : Z) (s : Runtime) :
  wf_runtime s ->
  ~ (CPY_TAGGED_MIN <= vr <= CPY_TAGGED_MAX) ->
  (CPyTagged_CheckShort right = true -> tagged_value s left = Some vr ->
   CPyTagged_IsEq_ left right s = Ret false s) /\
  (CPyTagged_CheckShort left = true -> tagged_value s right = Some vr ->
   (forall lo s1 ro s2,
      CPyTagged_AsObject left s = Ret lo s1 ->
      CPyTagged_AsObject right s1 = Ret ro s2 ->
      exists s', CPyTagged_IsEq_ left right s = Ret false s' /\ state_kept s s') /\
   (brk s + OBJECT_SLOT <= limit s ->
    exists s', CPyTagged_IsEq_ left right s = Ret false s' /\ state_kept s s')).
Proof.
  intros Hwf Hout. split.
  - intros Hr _. unfold CPyTagged_IsEq_. now rewrite Hr.
  - intros Hl Hr.
    enough (Hmain : brk s + OBJECT_SLOT <= limit s ->
              exists s', CPyTagged_IsEq_ left right s = Ret false s' /\ state_kept s s').
    { split; [| exact Hmain]. intros lo s1 ro s2 Hrun1 Hrun2. apply Hmain.
      pose proof (materialized_memory left right lo ro s s1 s2 Hwf Hrun1 Hrun2
                    (or_introl Hl)) as Hmem.
      rewrite Hl in Hmem. cbn [Z.b2z] in Hmem.
      assert (0 <= Z.b2z (CPyTagged_CheckShort right))
        by (destruct (CPyTagged_CheckShort right); cbn; lia).
      assert (OBJECT_SLOT = 16) by reflexivity. lia. }
    intros Hmem.
    assert (Hrl : CPyTagged_CheckShort right = false).
    { destruct (CPyTagged_CheckShort right) eqn:Hs; [| reflexivity].
      unfold tagged_value in Hr. rewrite Hs in Hr. injection Hr as <-.
      exfalso. apply Hout, short_value_range. }
    assert (Hvl : tagged_value s left = Some (CPyTagged_ShortAsSsize_t left)).
    { apply tagged_value_short. unfold CPyTagged_CheckShort in Hl.
      now apply negb_true_iff in Hl. }
    destruct (compare_run left right _ vr Py_EQ s Hwf Hvl Hr) as (s' & Hrun & Hkept).
    { rewrite Hl, Hrl. cbn [Z.b2z]. lia. }
    exists s'. split; [| exact Hkept].
    unfold CPyTagged_IsEq_. rewrite Hrl. rewrite Hrun.
    destruct (Z.eqb_spec (CPyTagged_ShortAsSsize_t left) vr) as [Heq | Hne];
      [| reflexivity].
    exfalso. apply Hout. rewrite <- Heq. apply short_value_range.
Qed.

Lemma IsEq_short_against_long_witness :
  CPyTagged_IsEq_ 17 2000 Samples.rt_big = Ret false Samples.rt_big /\
  (exists s', CPyTagged_IsEq_ 2000 17 Samples.rt_big = Ret false s' /\
              state_kept Samples.rt_big s').
Proof.
  pose proof rt_big_wf as Hwf.
  assert (Hout : ~ (CPY_TAGGED_MIN <= CPY_TAGGED_MAX + 1 <= CPY_TAGGED_MAX)).
  { intros [_ H]. apply H. reflexivity. }
  split.
  - apply (IsEq_short_against_long 17 2000 _ Samples.rt_big Hwf Hout); reflexivity.
  - destruct (IsEq_short_against_long 2000 17 _ Samples.rt_big Hwf Hout) as [_ H].
    apply (H eq_refl eq_refl). discriminate.
Defined.

(** X15: [CPyTagged_IsLt_] decides [<] on the values of its operands, and
    [CPyTagged_IsEq_], when its right operand is boxed, decides [=]; both
    give back every reference they took, so the heap and the error
    indicator are as before. *)
Theorem comparisons_exact (l r vl vr : Z) (s : Runtime) :
  wf_runtime s -> tagged_value s l = Some vl -> tagged_value s r = Some vr ->
  brk s + OBJECT_SLOT * (Z.b2z (CPyTagged_CheckShort l) + Z.b2z (CPyTagged_CheckShort r))
    <= limit s ->
  (exists s', CPyTagged_IsLt_ l r s = Ret (vl <? vr) s' /\ state_kept s s') /\
  (CPyTagged_CheckLong r = true ->
   exists s', CPyTagged_IsEq_ l r s = Ret (vl =? vr) s' /\ state_kept s s').
Proof.
  intros Hwf Hl Hr Hmem. split.
  - apply (compare_run l r vl vr Py_LT s Hwf Hl Hr Hmem).
  - intros Hlong. unfold CPyTagged_IsEq_, CPyTagged_CheckShort. rewrite Hlong.
    cbn [negb]. apply (compare_run l r vl vr Py_EQ s Hwf Hl Hr Hmem).
Qed.

Lemma comparisons_exact_witness :
  exists s', CPyTagged_IsLt_ 33 17 Samples.rt_big = Ret true s' /\
             state_kept Samples.rt_big s'.
Proof.
  apply (comparisons_exact 33 17 (- (2 ^ 62 + 1)) (2 ^ 62)
           Samples.rt_big rt_big_wf eq_refl eq_refl).
  vm_compute. discriminate.
Defined.

(** ** True division *)

Lemma retained_twice (h : gmap Z PyObject) (lo ro p : Z) (fl fr o : PyObject) :
  h !! p = Some o ->
  exists o',
    partial_alter (retained fr) ro (partial_alter (retained fl) lo h) !! p = Some o' /\
    ob_body o' = ob_body o /\ ob_refcnt o <= ob_refcnt o' /\
    (p = lo \/ p = ro -> ob_refcnt o < ob_refcnt o').
Proof.
  intros Hp. rewrite !lookup_partial_alter.
  destruct (decide (ro = p)) as [-> | Hr], (decide (lo = p)) as [-> | Hl];
    rewrite ?lookup_partial_alter_eq, ?lookup_partial_alter_ne, Hp by assumption;
    cbn; eexists; (split; [reflexivity |]); cbn; (split; [reflexivity |]);
    (split; [lia |]); intros [? | ?]; (lia || congruence).
Qed.

(** X16: the slow path of true division returns the correctly rounded
    quotient (or [CPY_FLOAT_ERROR] with [OverflowError] when it is too
    large for a double) but releases nothing: every boxed operand ends
    with more references than it had, every object of the heap keeps its
    body and loses no reference, and the float object of the result stays
    with its one reference. *)
Theorem true_divide_keeps_references (x y vx vy : Z) (s : Runtime) :
  wf_runtime s -> tagged_value s x = Some vx -> tagged_value s y = Some vy ->
  y <> 0 -> vy <> 0 ->
  CPyTagged_CheckLong x = true \/ CPyTagged_CheckLong y = true ->
  brk s + slots2 x y <= limit s ->
  exists f s',
    CPyTagged_TrueDivide x y s = Ret f s' /\
    match long_true_divide vx vy with
    | S754_finite _ _ _ | S754_zero _ =>
        f = long_true_divide vx vy /\ err s' = err s /\
        exists p, brk s <= p /\ heap s' !! p = Some (mkObject 1 (PyFloat f))
    | _ =>
        f = CPY_FLOAT_ERROR /\
        err s' = Some (PyExc_OverflowError,
                       "integer division result too large for a float"%string)
    end /\
    (forall p o, heap s !! p = Some o ->
       exists o', heap s' !! p = Some o' /\ ob_body o' = ob_body o /\
                  ob_refcnt o <= ob_refcnt o' /\
                  ((CPyTagged_CheckLong x = true /\ p = CPyTagged_LongAsObject x) \/
                   (CPyTagged_CheckLong y = true /\ p = CPyTagged_LongAsObject y) ->
                   ob_refcnt o < ob_refcnt o')).
Proof.
  intros Hwf Hx Hy Hy0 Hvy Hlong Hmem. unfold slots2 in Hmem.
  assert (Hslot : OBJECT_SLOT = 16) by reflexivity.
  assert (Hge : 0 <= Z.b2z (CPyTagged_CheckShort x) + Z.b2z (CPyTagged_CheckShort y))
    by (destruct (CPyTagged_CheckShort x), (CPyTagged_CheckShort y); cbn; lia).
  destruct (operands_materialized x y vx vy s Hwf Hx Hy)
    as (xo & s1 & yo & s2 & cx & wx & cy & wy & Hrun1 & Hrun2 & Hxo0 & Hwx & Hyo0 & Hwy
        & Hh2 & Hbrk & Hlim & Herr & Hwf2 & Hheld); [lia |].
  destruct (AsObject_frame _ _ _ _ Hwf Hrun1) as (Hwf1 & _).
  destruct (AsObject_heap _ _ _ _ Hwf Hrun1) as (_ & _ & _ & Hb1 & Hp1).
  destruct (AsObject_heap _ _ _ _ Hwf1 Hrun2) as (_ & _ & _ & _ & Hp2).
  pose proof (wf_fresh s (brk s) Hwf ltac:(lia)) as Hfresh.
  assert (Hfast : negb (CPyTagged_CheckLong x) && negb (CPyTagged_CheckLong y) = false).
  { destruct Hlong as [-> | ->]; [reflexivity | apply andb_false_r]. }
  assert (Hbelow : forall w v, tagged_value s w = Some v -> CPyTagged_CheckLong w = true ->
                               CPyTagged_LongAsObject w < brk s).
  { intros w v Hw Hl. destruct (tagged_value_long_inv _ _ _ Hl Hw) as (c & u & Hu & _).
    destruct (wf_below_brk s (CPyTagged_LongAsObject w) Hwf) as ((_ & Hlt) & _);
      [eauto | exact Hlt]. }
  (* the objects of [s] gained references *)
  assert (Hold : forall p o, heap s !! p = Some o ->
            exists o', heap s2 !! p = Some o' /\ ob_body o' = ob_body o /\
                       ob_refcnt o <= ob_refcnt o' /\
                       (p = xo \/ p = yo -> ob_refcnt o < ob_refcnt o')).
  { intros p o Hp. rewrite Hh2. now apply retained_twice. }
  assert (Hxo : CPyTagged_CheckLong x = true -> xo = CPyTagged_LongAsObject x).
  { intros Hl. unfold CPyTagged_CheckShort in Hp1. rewrite Hl in Hp1. apply Hp1. }
  assert (Hyo : CPyTagged_CheckLong y = true -> yo = CPyTagged_LongAsObject y).
  { intros Hl. unfold CPyTagged_CheckShort in Hp2. rewrite Hl in Hp2. apply Hp2. }
  assert (Hleak : forall s', 
            (forall p, p < brk s2 -> heap s' !! p = heap s2 !! p) ->
            (forall p o, heap s !! p = Some o ->
               exists o', heap s' !! p = Some o' /\ ob_body o' = ob_body o /\
                  ob_refcnt o <= ob_refcnt o' /\
                  ((CPyTagged_CheckLong x = true /\ p = CPyTagged_LongAsObject x) \/
                   (CPyTagged_CheckLong y = true /\ p = CPyTagged_LongAsObject y) ->
                   ob_refcnt o < ob_refcnt o'))).
  { intros s' Hsame p o Hp.
    destruct (wf_below_brk s p Hwf) as ((_ & Hlt) & _); [eauto |].
    rewrite Hsame by lia. destruct (Hold p o Hp) as (o' & H1 & H2 & H3 & H4).
    exists o'. split_and!; try assumption.
    intros [[Hl ->] | [Hl ->]]; apply H4; [left | right]; symmetry; auto. }
  unfold CPyTagged_TrueDivide.
  destruct (Z.eqb_spec y 0) as [? | _]; [contradiction |]. rewrite Hfast.
  rewrite (bind_run _ _ _ _ _ Hrun1), (bind_run _ _ _ _ _ Hrun2).
  assert (Hnn : (brk s2 =? NULL) = false).
  { apply Z.eqb_neq. destruct Hwf2 as (H0 & _). unfold NULL. lia. }
  assert (Hhost : PyNumber_TrueDivide xo yo s2 =
            match long_true_divide vx vy with
            | S754_finite _ _ _ | S754_zero _ =>
                PyObject_New (PyFloat (long_true_divide vx vy)) s2
            | _ => Ret NULL (set_err (Some (PyExc_OverflowError,
                      "integer division result too large for a float"%string)) s2)
            end).
  { unfold PyNumber_TrueDivide.
    rewrite (bind_run _ _ _ _ _ (get_long_run _ _ _ _ Hxo0)).
    rewrite (bind_run _ _ _ _ _ (get_long_run _ _ _ _ Hyo0)).
    rewrite Hwx, Hwy. destruct (Z.eqb_spec vy 0) as [? | _]; [contradiction |].
    destruct (long_true_divide vx vy); reflexivity. }
  rewrite PyObject_New_ok in Hhost by lia.
  destruct (long_true_divide vx vy) as [sg | sg | | sg m e] eqn:Hf;
    rewrite (bind_run _ _ _ _ _ Hhost); rewrite ?Hnn; cbn [Z.eqb NULL];
    unfold PyFloat_AsDouble, get_object, mbind, M_bind; cbn [heap];
    rewrite ?lookup_insert_eq; cbn [ob_body];
    (eexists _, _; split; [reflexivity |]);
    (split; [| apply Hleak; cbn [heap set_err];
               first [ reflexivity | intros p Hp; apply lookup_insert_ne; lia ]]).
  - split; [reflexivity |]. split; [exact Herr |].
    exists (brk s2). split; [lia |]. cbn [heap]. apply lookup_insert_eq.
  - split; reflexivity.
  - split; reflexivity.
  - split; [reflexivity |]. split; [exact Herr |].
    exists (brk s2). split; [lia |]. cbn [heap]. apply lookup_insert_eq.
Qed.

Lemma true_divide_keeps_references_witness :
  exists f s',
    CPyTagged_TrueDivide 17 4 Samples.rt_big = Ret f s' /\
    (f = long_true_divide (2 ^ 62) 2 /\ err s' = err Samples.rt_big /\
        exists p, brk Samples.rt_big <= p /\ heap s' !! p = Some (mkObject 1 (PyFloat f))) /\
    (forall p o, heap Samples.rt_big !! p = Some o ->
       exists o', heap s' !! p = Some o' /\ ob_body o' = ob_body o /\
                  ob_refcnt o <= ob_refcnt o' /\
                  ((CPyTagged_CheckLong 17 = true /\ p = CPyTagged_LongAsObject 17) \/
                   (CPyTagged_CheckLong 4 = true /\ p = CPyTagged_LongAsObject 4) ->
                   ob_refcnt o < ob_refcnt o')).
Proof.
  apply (true_divide_keeps_references 17 4 (2 ^ 62) 2 Samples.rt_big rt_big_wf
           eq_refl eq_refl).
  - discriminate.
  - discriminate.
  - left. reflexivity.
  - vm_compute. discriminate.
Defined.

(** ** Boxing and unboxing native words *)

Lemma set_heap_same (s : Runtime) : set_heap (heap s) s = s.
Proof. now destruct s. Qed.

(** X1: when a native integer (or an address) has to be boxed and the
    allocation fails, the result of the allocation is not checked: the
    call returns, what it returns is the sentinel [CPY_INT_TAG], and the
    host's [MemoryError] is left in place. *)
Theorem boxing_without_memory (n : Z) (s : Runtime) :
  CPyTagged_TooBig n = true -> limit s < brk s + OBJECT_SLOT ->
  CPyTagged_FromSsize_t n s =
    Ret CPY_INT_TAG (set_err (Some (PyExc_MemoryError, EmptyString)) s) /\
  CPyTagged_FromInt64 n s =
    Ret CPY_INT_TAG (set_err (Some (PyExc_MemoryError, EmptyString)) s) /\
  (PY_SSIZE_T_MAX < n < 2 ^ 64 ->
   CPyTagged_FromVoidPtr n s =
     Ret CPY_INT_TAG (set_err (Some (PyExc_MemoryError, EmptyString)) s)).
Proof.
  intros Hbig Hmem. unfold CPyTagged_FromSsize_t, CPyTagged_FromInt64. rewrite Hbig.
  unfold PyLong_FromSsize_t, PyLong_FromLongLong, PyLong_FromZ.
  rewrite !(bind_run _ _ _ _ _ (PyObject_New_fail _ _ Hmem)).
  split_and!; try reflexivity.
  intros Hn. unfold CPyTagged_FromVoidPtr, PyLong_FromVoidPtr, PyLong_FromZ.
  assert (Hssize : PY_SSIZE_T_MAX = 2 ^ 63 - 1) by reflexivity.
  rewrite to_size_t_id by lia.
  destruct (Z.gtb_spec n PY_SSIZE_T_MAX); [| lia].
  rewrite (bind_run _ _ _ _ _ (PyObject_New_fail _ _ Hmem)). reflexivity.
Qed.

Lemma boxing_without_memory_witness :
  CPyTagged_FromSsize_t (2 ^ 62) Samples.rt_full =
    Ret CPY_INT_TAG
        (set_err (Some (PyExc_MemoryError, EmptyString)) Samples.rt_full).
Proof.
  exact (proj1 (boxing_without_memory (2 ^ 62) Samples.rt_full eq_refl eq_refl)).
Defined.

Lemma boxed_fresh (z : Z) (s : Runtime) :
  wf_runtime s -> brk s + OBJECT_SLOT <= limit s ->
  exists s', PyLong_FromZ z s = Ret (brk s) s' /\
    heap s' !! brk s = Some (mkObject 1 (PyLong (PyLong_of_Z z))) /\
    CPyTagged_LongAsObject (Z.lor (brk s) CPY_INT_TAG) = brk s /\
    CPyTagged_CheckShort (Z.lor (brk s) CPY_INT_TAG) = false /\
    tagged_value s' (Z.lor (brk s) CPY_INT_TAG) = Some z.
Proof.
  intros Hwf Hmem. rewrite PyLong_FromZ_run by assumption.
  destruct Hwf as (_ & Hev & _).
  eexists. split; [reflexivity |]. cbn [heap]. rewrite lookup_insert_eq.
  split; [reflexivity |]. split; [now apply untag_tagged |].
  split; [unfold CPyTagged_CheckShort; now rewrite tag_bit_set |].
  erewrite tagged_value_boxed; [| assumption | cbn [heap]; apply lookup_insert_eq].
  now rewrite PyLong_of_Z_value.
Qed.

(** X2: every [Py_ssize_t] value, inline or not, comes back from
    [CPyTagged_AsSsize_t] after [CPyTagged_FromSsize_t], provided there is
    memory for the object of a value that does not fit inline. *)
Theorem native_round_trip (n : Z) (s : Runtime) :
  wf_runtime s -> PY_SSIZE_T_MIN <= n <= PY_SSIZE_T_MAX ->
  (CPyTagged_TooBig n = true -> brk s + OBJECT_SLOT <= limit s) ->
  exists x s', CPyTagged_FromSsize_t n s = Ret x s' /\
               CPyTagged_AsSsize_t x s' = Ret n s' /\
               tagged_value s' x = Some n.
Proof.
  intros Hwf Hn Hmem. unfold CPyTagged_FromSsize_t, CPyTagged_AsSsize_t.
  destruct (CPyTagged_TooBig n) eqn:Hbig.
  - destruct (boxed_fresh n s Hwf (Hmem eq_refl)) as (s' & Hnew & Hobj & Hun & Hs & Hv).
    unfold PyLong_FromSsize_t. rewrite (bind_run _ _ _ _ _ Hnew).
    eexists _, _. split; [reflexivity |]. rewrite Hs, Hun. split; [| exact Hv].
    unfold PyLong_AsSsize_t.
    rewrite (bind_run _ _ _ _ _ (get_long_run _ _ _ _ Hobj)), PyLong_of_Z_value.
    destruct (Z.leb_spec PY_SSIZE_T_MIN n); [| lia].
    destruct (Z.leb_spec n PY_SSIZE_T_MAX); [| lia]. reflexivity.
  - apply TooBig_spec in Hbig. eexists _, _. split; [reflexivity |].
    rewrite shiftl1_short, shiftl1_decode by assumption. split; [reflexivity |].
    unfold tagged_value. now rewrite shiftl1_short, shiftl1_decode.
Qed.

Lemma native_round_trip_witness :
  exists x s', CPyTagged_FromSsize_t (- 2 ^ 63) Samples.rt_big = Ret x s' /\
               CPyTagged_AsSsize_t x s' = Ret (- 2 ^ 63) s' /\
               tagged_value s' x = Some (- 2 ^ 63).
Proof.
  apply (native_round_trip (- 2 ^ 63) Samples.rt_big rt_big_wf).
  - vm_compute. split; discriminate.
  - intros _. vm_compute. discriminate.
Defined.

(** X3: [CPyTagged_FromVoidPtr] reads the address as an unsigned integer:
    the result stands for the address itself, never for a negative number,
    and is inline exactly for the addresses up to [CPY_TAGGED_MAX], in
    which case the state is untouched. *)
Theorem from_pointer_unsigned (ptr : Z) (s : Runtime) :
  wf_runtime s -> 0 <= ptr < 2 ^ 64 ->
  (CPY_TAGGED_MAX < ptr -> brk s + OBJECT_SLOT <= limit s) ->
  exists x s', CPyTagged_FromVoidPtr ptr s = Ret x s' /\
               tagged_value s' x = Some ptr /\
               (CPyTagged_CheckShort x = true <-> ptr <= CPY_TAGGED_MAX) /\
               (CPyTagged_CheckShort x = true -> s' = s).
Proof.
  intros Hwf Hp Hmem. unfold CPyTagged_FromVoidPtr.
  destruct tagged_range as (Hmax & Hmin & _).
  rewrite to_size_t_id by assumption.
  assert (Hssize : PY_SSIZE_T_MAX = 2 ^ 63 - 1) by reflexivity.
  destruct (Z.gtb_spec ptr PY_SSIZE_T_MAX) as [Hgt | Hle].
  - destruct (boxed_fresh ptr s Hwf) as (s' & Hnew & Hobj & Hun & Hs & Hv); [apply Hmem; lia |].
    unfold PyLong_FromVoidPtr. rewrite to_size_t_id by assumption.
    rewrite (bind_run _ _ _ _ _ Hnew). eexists _, _. split; [reflexivity |].
    rewrite Hs. split; [exact Hv |]. split; [split; [discriminate | lia] | discriminate].
  - rewrite to_ssize_t_id by (unfold PY_SSIZE_T_MIN; cbn; lia).
    unfold CPyTagged_FromSsize_t. destruct (CPyTagged_TooBig ptr) eqn:Hbig.
    + assert (Hout : ~ (CPY_TAGGED_MIN <= ptr <= CPY_TAGGED_MAX)).
      { intros H. apply TooBig_spec in H. congruence. }
      destruct (boxed_fresh ptr s Hwf) as (s' & Hnew & Hobj & Hun & Hs & Hv); [apply Hmem; lia |].
      unfold PyLong_FromSsize_t. rewrite (bind_run _ _ _ _ _ Hnew).
      eexists _, _. split; [reflexivity |]. rewrite Hs.
      split; [exact Hv |]. split; [split; [discriminate | lia] | discriminate].
    + apply TooBig_spec in Hbig. eexists _, _. split; [reflexivity |].
      rewrite shiftl1_short. split; [| split; [split; [lia | reflexivity] | reflexivity]].
      unfold tagged_value. now rewrite shiftl1_short, shiftl1_decode.
Qed.

Lemma from_pointer_unsigned_witness :
  exists x s', CPyTagged_FromVoidPtr (2 ^ 64 - 8) Samples.rt_big = Ret x s' /\
               tagged_value s' x = Some (2 ^ 64 - 8) /\
               (CPyTagged_CheckShort x = true <-> 2 ^ 64 - 8 <= CPY_TAGGED_MAX) /\
               (CPyTagged_CheckShort x = true -> s' = Samples.rt_big).
Proof.
  apply (from_pointer_unsigned (2 ^ 64 - 8) Samples.rt_big rt_big_wf).
  - lia.
  - intros _. vm_compute. discriminate.
Defined.

(** ** Reference counts of tagged values *)

(** X5: [CPyTagged_IncRef] followed by [CPyTagged_DecRef] gives the state
    back exactly; on an inline value both do nothing, on a boxed one the
    count of the object goes up by one in between. *)
Theorem incref_decref_round_trip (x v : Z) (s : Runtime) :
  wf_runtime s -> tagged_value s x = Some v ->
  exists s1, CPyTagged_IncRef x s = Ret tt s1 /\ CPyTagged_DecRef x s1 = Ret tt s /\
             tagged_value s1 x = Some v /\
             (CPyTagged_CheckShort x = true -> s1 = s) /\
             (CPyTagged_CheckLong x = true ->
              forall o, heap s !! CPyTagged_LongAsObject x = Some o ->
                        heap s1 !! CPyTagged_LongAsObject x =
                        Some (mkObject (ob_refcnt o + 1) (ob_body o))).
Proof.
  intros Hwf Hx. unfold CPyTagged_IncRef, CPyTagged_DecRef, CPyTagged_CheckShort.
  destruct (CPyTagged_CheckLong x) eqn:Hl.
  - destruct (tagged_value_long_inv _ _ _ Hl Hx) as (c & w & Hp & Hw).
    rewrite (Py_INCREF_run _ _ _ Hp). eexists. split; [reflexivity |].
    cbn [ob_refcnt ob_body]. split_and!.
    + erewrite Py_DECREF_run by (cbn [heap set_heap]; apply lookup_insert_eq).
      cbn [ob_refcnt ob_body heap set_heap].
      pose proof (wf_referenced s Hwf _ _ Hp) as Hc. cbn in Hc.
      destruct (Z.eqb_spec (c + 1) 1); [lia |].
      rewrite insert_insert_eq. replace (c + 1 - 1) with c by lia.
      rewrite insert_id by assumption. destruct s; reflexivity.
    + unfold tagged_value, CPyTagged_CheckShort. rewrite Hl. cbn [negb heap set_heap].
      rewrite lookup_insert_eq. now rewrite Hw.
    + discriminate.
    + intros _ o Ho. rewrite Hp in Ho. injection Ho as <-. cbn [heap set_heap].
      apply lookup_insert_eq.
  - exists s. split_and!; try reflexivity; try assumption. discriminate.
Qed.

Lemma incref_decref_round_trip_witness :
  exists s1, CPyTagged_IncRef 17 Samples.rt_big = Ret tt s1 /\
             CPyTagged_DecRef 17 s1 = Ret tt Samples.rt_big /\
             tagged_value s1 17 = Some (2 ^ 62) /\
             (CPyTagged_CheckShort 17 = true -> s1 = Samples.rt_big) /\
             (CPyTagged_CheckLong 17 = true ->
              forall o, heap Samples.rt_big !! CPyTagged_LongAsObject 17 = Some o ->
                        heap s1 !! CPyTagged_LongAsObject 17 =
                        Some (mkObject (ob_refcnt o + 1) (ob_body o))).
Proof.
  apply (incref_decref_round_trip 17 (2 ^ 62) Samples.rt_big rt_big_wf eq_refl).
Defined.

(** X6: [CPyTagged_XDecRef] accepts the error sentinel [CPY_INT_TAG],
    whose object pointer is [NULL], and does nothing there, while
    [CPyTagged_DecRef] and [CPyTagged_IncRef] dereference [NULL]; on a word
    that stands for an integer the two decrements agree. *)
Theorem xdecref_tolerates_sentinel (s : Runtime) :
  wf_runtime s ->
  CPyTagged_XDecRef CPY_INT_TAG s = Ret tt s /\
  CPyTagged_DecRef CPY_INT_TAG s = Undef /\
  CPyTagged_IncRef CPY_INT_TAG s = Undef /\
  (forall x v, tagged_value s x = Some v -> CPyTagged_XDecRef x s = CPyTagged_DecRef x s).
Proof.
  intros Hwf.
  assert (Hnull : heap s !! 0 = None).
  { destruct (heap s !! 0) as [o |] eqn:Ho; [| reflexivity].
    destruct (wf_below_brk s 0 Hwf) as ((Hpos & _) & _); [eauto | lia]. }
  split_and!.
  - reflexivity.
  - unfold CPyTagged_DecRef. change (CPyTagged_CheckLong CPY_INT_TAG) with true.
    change (CPyTagged_LongAsObject CPY_INT_TAG) with 0. cbv iota.
    unfold Py_DECREF, get_object, mbind, M_bind. now rewrite Hnull.
  - unfold CPyTagged_IncRef. change (CPyTagged_CheckLong CPY_INT_TAG) with true.
    change (CPyTagged_LongAsObject CPY_INT_TAG) with 0. cbv iota.
    unfold Py_INCREF, get_object, mbind, M_bind. now rewrite Hnull.
  - intros x v Hx. unfold CPyTagged_XDecRef, CPyTagged_DecRef.
    destruct (CPyTagged_CheckLong x) eqn:Hl; [| reflexivity].
    destruct (tagged_value_long_inv _ _ _ Hl Hx) as (c & w & Hp & _).
    unfold Py_XDECREF.
    destruct (Z.eqb_spec (CPyTagged_LongAsObject x) NULL) as [H0 | _]; [| reflexivity].
    rewrite H0 in Hp. unfold NULL in Hp. congruence.
Qed.

Lemma xdecref_tolerates_sentinel_witness :
  CPyTagged_XDecRef CPY_INT_TAG Samples.rt_big = Ret tt Samples.rt_big /\
  CPyTagged_DecRef CPY_INT_TAG Samples.rt_big = Undef.
Proof.
  split; apply (xdecref_tolerates_sentinel Samples.rt_big rt_big_wf).
Defined.

(** ** The two ways through the bitwise engine *)

(** The sign of the digit count of an inline operand is that of its value. *)
Lemma GetIntDigits_short_sign (n : Z) (ds : list Z) (size : Z) (s s' : Runtime) :
  CPyTagged_CheckShort n = true ->
  GetIntDigits n [0; 0; 0] s = Ret (ds, size) s' ->
  (size < 0 <-> CPyTagged_ShortAsSsize_t n < 0).
Proof.
  intros Hs. unfold GetIntDigits. rewrite Hs. cbv zeta.
  destruct (Z.ltb_spec (CPyTagged_ShortAsSsize_t n) 0) as [Hneg | Hnn];
    repeat match goal with
           | |- context [if ?c then _ else _] => destruct c
           end;
    intros [= _ <- _]; lia.
Qed.

Lemma size_sign (size : Z) (ds : list Z) :
  valid_long (mkLong size ds) ->
  (PyLong_value (mkLong size ds) < 0 -> size < 0) /\
  (0 < PyLong_value (mkLong size ds) -> 0 < size).
Proof.
  intros (Hds & _). cbn [ob_digit] in Hds.
  unfold PyLong_value, long_digits. cbn [ob_size ob_digit].
  pose proof (digits_value_bound (take (Z.to_nat (Z.abs size)) ds)
                (Forall_take _ _ _ Hds)) as (Hnn & _).
  destruct (Z.sgn_spec size) as [(H & ->) | [(H & ->) | (H & ->)]]; split; lia.
Qed.

Lemma operand_sizes (a va : Z) (s : Runtime) :
  wf_runtime s -> tagged_value s a = Some va ->
  exists ad asz,
    GetIntDigits a [0; 0; 0] s = Ret (ad, asz) s /\
    valid_long (mkLong asz ad) /\ PyLong_value (mkLong asz ad) = va /\
    (va < 0 -> asz < 0) /\
    (0 <= va -> (va = 0 -> CPyTagged_CheckShort a = true) -> 0 <= asz).
Proof.
  intros Hwf Ha.
  destruct (GetIntDigits_spec a va s Hwf Ha) as (ad & asz & Hrun & Hvalid & Hval & _).
  exists ad, asz. split_and!; try assumption.
  - intros Hneg. apply (size_sign asz ad Hvalid). now rewrite Hval.
  - intros Hnn Hzero. destruct (Z.eq_dec va 0) as [H0 | H0].
    + specialize (Hzero H0).
      pose proof (GetIntDigits_short_sign a ad asz s s Hzero Hrun) as Hsign.
      rewrite tagged_value_short in Ha
        by (unfold CPyTagged_CheckShort in Hzero; now apply negb_true_iff in Hzero).
      injection Ha as Ha. lia.
    + assert (0 < asz); [| lia].
      apply (size_sign asz ad Hvalid). rewrite Hval. lia.
Qed.

Lemma GenericBitwiseOp_shape (a b : Z) (op : ascii) :
  GenericBitwiseOp a b op = binary_fatal (long_binop (bitop op)) a b.
Proof.
  unfold GenericBitwiseOp, binary_fatal, bitop.
  destruct (Ascii.eqb op "&"); [reflexivity |].
  destruct (Ascii.eqb op "|"); reflexivity.
Qed.

(** X21: with a negative operand [CPyTagged_BitwiseLongOp_] is
    [GenericBitwiseOp], and returns the operation on the two's complement
    of the values ([Z.land], [Z.lor], [Z.lxor]). *)
Theorem bitwise_negative_operand_delegates (a b va vb : Z) (op : ascii) (s : Runtime) :
  wf_runtime s -> tagged_value s a = Some va -> tagged_value s b = Some vb ->
  va < 0 \/ vb < 0 ->
  CPyTagged_BitwiseLongOp_ a b op s = GenericBitwiseOp a b op s /\
  (brk s + slots2 a b <= limit s ->
   exists x s', CPyTagged_BitwiseLongOp_ a b op s = Ret x s' /\
                returns_integer s (bitop op va vb) x s').
Proof.
  intros Hwf Ha Hb Hneg.
  destruct (operand_sizes a va s Hwf Ha) as (ad & asz & Hga & _ & _ & Hsa & _).
  destruct (operand_sizes b vb s Hwf Hb) as (bd & bsz & Hgb & _ & _ & Hsb & _).
  assert (Heq : CPyTagged_BitwiseLongOp_ a b op s = GenericBitwiseOp a b op s).
  { rewrite (BitwiseLongOp_unfold a b op s ad bd asz bsz Hga Hgb).
    replace ((asz <? 0) || (bsz <? 0)) with true; [reflexivity |].
    symmetry. apply orb_true_iff.
    destruct Hneg as [H | H]; [left | right]; apply Z.ltb_lt; auto. }
  split; [exact Heq |]. intros Hmem. rewrite Heq, GenericBitwiseOp_shape.
  destruct (slow_path_returns (long_binop (bitop op)) a b va vb (bitop op va vb) s
              Hwf Ha Hb Hmem) as (x & s' & Hrun & _ & Hret); [| now exists x, s'].
  intros lo ro cl wl cr wr s2 Hlo <- Hro <-. now apply (long_binop_FromZ _ _ _ cl cr).
Qed.

Lemma bitwise_negative_operand_delegates_witness :
  CPyTagged_BitwiseLongOp_ 33 10 "&" Samples.rt_big = GenericBitwiseOp 33 10 "&" Samples.rt_big /\
  (brk Samples.rt_big + slots2 33 10 <= limit Samples.rt_big ->
   exists x s', CPyTagged_BitwiseLongOp_ 33 10 "&" Samples.rt_big = Ret x s' /\
                returns_integer Samples.rt_big (bitop "&" (- (2 ^ 62 + 1)) 5) x s').
Proof.
  apply (bitwise_negative_operand_delegates 33 10 (- (2 ^ 62 + 1)) 5 "&"
           Samples.rt_big rt_big_wf eq_refl eq_refl).
  left. lia.
Defined.

(** Without memory for its temporaries and its result a slow path that
    checks the host's result does not return. *)
(** X22: on operands that are not negative the digit-level engine
    allocates exactly one object, the result: it returns with room for a
    single object, materializes no operand, leaves the operands' objects
    untouched and the heap as it was when the result is inline. *)
Theorem bitwise_engine_single_allocation (a b va vb : Z) (op : ascii) (s : Runtime) :
  wf_runtime s -> tagged_value s a = Some va -> tagged_value s b = Some vb ->
  0 <= va -> 0 <= vb ->
  (va = 0 -> CPyTagged_CheckShort a = true) ->
  (vb = 0 -> CPyTagged_CheckShort b = true) ->
  brk s + OBJECT_SLOT <= limit s ->
  exists x s',
    CPyTagged_BitwiseLongOp_ a b op s = Ret x s' /\
    tagged_value s' x = Some (bitop op va vb) /\
    (CPyTagged_CheckShort x = true <-> bitop op va vb <= CPY_TAGGED_MAX) /\
    brk s' = brk s + OBJECT_SLOT /\ err s' = err s /\ limit s' = limit s /\
    (forall p o, heap s !! p = Some o -> heap s' !! p = Some o) /\
    (CPyTagged_CheckShort x = true -> heap s' = heap s) /\
    wf_runtime s'.
Proof.
  intros Hwf Ha Hb Hna Hnb Hza Hzb Hmem.
  assert (Hslot : OBJECT_SLOT = 16) by reflexivity.
  destruct (operand_sizes a va s Hwf Ha) as (ad & asz & Hga & Hvla & Hvala & _ & Hsa).
  destruct (operand_sizes b vb s Hwf Hb) as (bd & bsz & Hgb & Hvlb & Hvalb & _ & Hsb).
  specialize (Hsa Hna Hza). specialize (Hsb Hnb Hzb).
  destruct (engine_result a b va vb op s ad bd asz bsz Hwf Hga Hgb Hvla Hvlb Hvala Hvalb
              Hsa Hsb Hmem)
    as (x & s' & v & Hrun & Henc & _ & _ & _ & _ & Hval).
  pose proof (encodes_value _ _ _ Henc) as Hx. rewrite Hval in Hx.
  exists x, s'. split; [exact Hrun |]. split; [exact Hx |].
  (* the state, from the run of the loop *)
  rewrite (BitwiseLongOp_unfold a b op s ad bd asz bsz Hga Hgb) in Hrun.
  destruct (Z.ltb_spec asz 0); [lia |]. destruct (Z.ltb_spec bsz 0); [lia |].
  cbn [orb] in Hrun.
  destruct Hvla as (Hda & Hla). destruct Hvlb as (Hdb & Hlb).
  cbn [ob_size ob_digit] in Hda, Hla, Hdb, Hlb.
  assert (Hnonneg : 0 <= bitop op va vb).
  { unfold bitop. destruct (Ascii.eqb op "&"); [now apply Z.land_nonneg; left |].
    destruct (Ascii.eqb op "|"); [now apply Z.lor_nonneg | now apply Z.lxor_nonneg]. }
  assert (Hstate : forall xs ys nx ny,
            0 <= nx <= ny -> nx <= Z.of_nat (length xs) -> ny <= Z.of_nat (length ys) ->
            Forall digit_ok xs -> Forall digit_ok ys ->
            engine_body op xs nx ys ny s = Ret x s' ->
            (CPyTagged_CheckShort x = true <-> bitop op va vb <= CPY_TAGGED_MAX) /\
            brk s' = brk s + OBJECT_SLOT /\ err s' = err s /\ limit s' = limit s /\
            (forall p o, heap s !! p = Some o -> heap s' !! p = Some o) /\
            (CPyTagged_CheckShort x = true -> heap s' = heap s) /\
            wf_runtime s').
  { intros xs ys nx ny Hn Hlx Hly Hxs Hys Hbody.
    rewrite engine_body_run in Hbody by (assumption || lia). cbv zeta in Hbody.
    set (E := digitwise op xs (Z.to_nat nx) ys (Z.to_nat ny)) in *.
    set (n := if Ascii.eqb op "&" then nx else ny) in *.
    set (w := mkLong (Z.of_nat (normalize_size (mkLong n E) (Z.to_nat n))) E) in *.
    assert (Hlen : length E = Z.to_nat n).
    { subst E n. rewrite digitwise_length by lia. now destruct (Ascii.eqb op "&"). }
    assert (Hw : valid_long w).
    { split; [now apply digitwise_ok |]. subst w. cbn [ob_size ob_digit].
      destruct (normalize_size_spec (mkLong n E) (Z.to_nat n)) as (Hj & _);
        [cbn [ob_digit]; lia |]. lia. }
    set (s5 := mkRuntime _ _ _ _) in Hbody.
    destruct (steal_object s s5 (brk s) w Hwf)
      as (x' & s'' & Hsteal & Hv & Hs & Hheap & Hobj & He & Hl & Hb' & Hwf');
      try (subst s5; cbn [heap brk limit err]; (reflexivity || lia || assumption)).
    { destruct Hwf as (_ & Hev & _). exact Hev. }
    { subst s5. cbn [brk]. apply even_add_slot. destruct Hwf as (_ & Hev & _). exact Hev. }
    rewrite Hsteal in Hbody. injection Hbody as -> ->.
    rewrite Hx in Hv. injection Hv as Hv. rewrite <- Hv in Hs.
    pose proof (wf_fresh s (brk s) Hwf ltac:(lia)) as Hfresh.
    destruct tagged_range as (Hmax & Hmin & _).
    split_and!; try assumption.
    - rewrite Hs. split; [lia |]. intros. lia.
    - intros p o Hp. rewrite Hheap. destruct (CPyTagged_CheckShort x) eqn:Hsx; [exact Hp |].
      rewrite lookup_insert_ne; [exact Hp |].
      rewrite Hobj by (unfold CPyTagged_CheckShort in Hsx; now apply negb_false_iff in Hsx).
      intros <-. congruence.
    - intros Hsx. now rewrite Hheap, Hsx. }
  destruct (Z.gtb_spec asz bsz) as [Hgt | Hle].
  - apply (Hstate bd ad bsz asz); (assumption || lia).
  - apply (Hstate ad bd asz bsz); (assumption || lia).
Qed.

Lemma rt_tight_wf : wf_runtime rt_tight.
Proof.
  apply (sample_heap_wf 48 64 None); [lia | reflexivity | vm_compute; discriminate].
Qed.

Lemma bitwise_engine_single_allocation_witness :
  exists x s',
    CPyTagged_BitwiseLongOp_ 17 10 "^" rt_tight = Ret x s' /\
    tagged_value s' x = Some (bitop "^" (2 ^ 62) 5) /\
    (CPyTagged_CheckShort x = true <-> bitop "^" (2 ^ 62) 5 <= CPY_TAGGED_MAX) /\
    brk s' = brk rt_tight + OBJECT_SLOT /\ err s' = err rt_tight /\
    limit s' = limit rt_tight /\
    (forall p o, heap rt_tight !! p = Some o -> heap s' !! p = Some o) /\
    (CPyTagged_CheckShort x = true -> heap s' = heap rt_tight) /\
    wf_runtime s'.
Proof.
  apply (bitwise_engine_single_allocation 17 10 (2 ^ 62) 5 "^" rt_tight rt_tight_wf
           eq_refl eq_refl); try discriminate.
Defined.

(** ** Unboxing to fixed widths *)

Lemma AsLongAndOverflow_run (o c : Z) (w : PyLongObject) (s : Runtime) :
  heap s !! o = Some (mkObject c (PyLong w)) ->
  PyLong_AsLongAndOverflow o s =
  Ret (if PyLong_value w >? LONG_MAX then (-1, 1)
       else if PyLong_value w <? LONG_MIN then (-1, -1)
       else (PyLong_value w, 0)) s.
Proof.
  intros Ho. unfold PyLong_AsLongAndOverflow.
  now rewrite (bind_run _ _ _ _ _ (get_long_run _ _ _ _ Ho)).
Qed.

Ltac unbox Ho He :=
  rewrite (bind_run _ _ _ _ _ (AsLongAndOverflow_run _ _ _ _ Ho));
  unfold LONG_MAX, LONG_MIN, PyErr_Occurred, mbind, M_bind;
  repeat match goal with
         | |- context [?a >? ?b] => destruct (Z.gtb_spec a b); try lia
         | |- context [?a <? ?b] => destruct (Z.ltb_spec a b); try lia
         | |- context [?a >=? ?b] => destruct (Z.geb_spec a b); try lia
         end;
  cbn [orb negb Z.eqb];
  repeat match goal with
         | |- context [?a =? ?b] => destruct (Z.eqb_spec a b); try lia
         end;
  cbn [orb negb Z.eqb Pos.eqb]; cbv beta; rewrite ?He; cbv beta iota;
  unfold to_int64, to_int32, to_int16, to_uint8;
  rewrite ?to_signed_id, ?to_unsigned_id by lia;
  try reflexivity; try (f_equal; lia).

(** X23: with no error pending, unboxing an integer object to [i64],
    [i32], [i16] or [u8] returns the value when it lies in the range of
    the type, -1 and [CPY_LL_INT_ERROR] included, and leaves the state;
    otherwise it returns the error sentinel with the [OverflowError] of
    that width, the one [CPyInt32_Overflow], [CPyInt16_Overflow] and
    [CPyUInt8_Overflow] set. *)
Theorem fixed_width_unboxing (o c : Z) (w : PyLongObject) (s : Runtime) :
  heap s !! o = Some (mkObject c (PyLong w)) -> err s = None ->
  (INT64_MIN <= PyLong_value w <= INT64_MAX -> CPyLong_AsInt64_ o s = Ret (PyLong_value w) s) /\
  (~ (INT64_MIN <= PyLong_value w <= INT64_MAX) ->
   CPyLong_AsInt64_ o s =
     Ret CPY_LL_INT_ERROR
         (set_err (Some (PyExc_OverflowError, "int too large to convert to i64"%string)) s)) /\
  (INT32_MIN <= PyLong_value w <= INT32_MAX -> CPyLong_AsInt32_ o s = Ret (PyLong_value w) s) /\
  (~ (INT32_MIN <= PyLong_value w <= INT32_MAX) ->
   exists s', CPyInt32_Overflow s = Ret tt s' /\
              CPyLong_AsInt32_ o s = Ret CPY_LL_INT_ERROR s') /\
  (INT16_MIN <= PyLong_value w <= INT16_MAX -> CPyLong_AsInt16_ o s = Ret (PyLong_value w) s) /\
  (~ (INT16_MIN <= PyLong_value w <= INT16_MAX) ->
   exists s', CPyInt16_Overflow s = Ret tt s' /\
              CPyLong_AsInt16_ o s = Ret CPY_LL_INT_ERROR s') /\
  (forall uerr,
      (0 <= PyLong_value w < 256 -> CPyLong_AsUInt8_ uerr o s = Ret (PyLong_value w) s) /\
      (~ (0 <= PyLong_value w < 256) ->
       exists s', CPyUInt8_Overflow s = Ret tt s' /\
                  CPyLong_AsUInt8_ uerr o s = Ret (to_uint8 uerr) s')).
Proof.
  intros Ho He.
  assert (H64 : INT64_MIN = - 2 ^ 63 /\ INT64_MAX = 2 ^ 63 - 1) by (split; reflexivity).
  assert (H32 : INT32_MIN = - 2 ^ 31 /\ INT32_MAX = 2 ^ 31 - 1) by (split; reflexivity).
  assert (H16 : INT16_MIN = - 2 ^ 15 /\ INT16_MAX = 2 ^ 15 - 1) by (split; reflexivity).
  destruct H64 as [-> ->], H32 as [-> ->], H16 as [-> ->].
  set (z := PyLong_value w).
  split_and!.
  - intros Hr. unfold CPyLong_AsInt64_, PyLong_AsLongLongAndOverflow. unbox Ho He.
  - intros Hr. unfold CPyLong_AsInt64_, PyLong_AsLongLongAndOverflow. unbox Ho He.
  - intros Hr. unfold CPyLong_AsInt32_. unbox Ho He.
  - intros Hr. eexists. split; [reflexivity |]. unfold CPyLong_AsInt32_. unbox Ho He.
  - intros Hr. unfold CPyLong_AsInt16_. unbox Ho He.
  - intros Hr. eexists. split; [reflexivity |]. unfold CPyLong_AsInt16_. unbox Ho He.
  - intros uerr. split.
    + intros Hr. unfold CPyLong_AsUInt8_. unbox Ho He.
    + intros Hr. eexists. split; [reflexivity |]. unfold CPyLong_AsUInt8_. unbox Ho He.
Qed.

Lemma fixed_width_unboxing_witness :
  CPyLong_AsInt64_ 16 Samples.rt_big = Ret (2 ^ 62) Samples.rt_big /\
  (exists s', CPyInt32_Overflow Samples.rt_big = Ret tt s' /\
              CPyLong_AsInt32_ 16 Samples.rt_big = Ret CPY_LL_INT_ERROR s').
Proof.
  destruct (fixed_width_unboxing 16 1 Samples.big Samples.rt_big eq_refl eq_refl)
    as (H64 & _ & _ & H32 & _).
  split.
  - apply H64. vm_compute. split; discriminate.
  - apply H32. vm_compute. intros [_ H]. apply H. reflexivity.
Defined.

(** X24: with an error already pending the unboxing functions change
    nothing in the state; the value -1 is then reported as
    [CPY_LL_INT_ERROR], and so is every value out of range, the pending
    error being kept in place of the [OverflowError]. *)
Theorem unboxing_with_pending_error (o c : Z) (w : PyLongObject) (s : Runtime)
    (e : PyExc * string) :
  heap s !! o = Some (mkObject c (PyLong w)) -> err s = Some e ->
  CPyLong_AsInt64_ o s =
    Ret (if (INT64_MIN <=? PyLong_value w) && (PyLong_value w <=? INT64_MAX)
            && negb (PyLong_value w =? -1)
         then PyLong_value w else CPY_LL_INT_ERROR) s /\
  CPyLong_AsInt32_ o s =
    Ret (if (INT32_MIN <=? PyLong_value w) && (PyLong_value w <=? INT32_MAX)
            && negb (PyLong_value w =? -1)
         then PyLong_value w else CPY_LL_INT_ERROR) s /\
  CPyLong_AsInt16_ o s =
    Ret (if (INT16_MIN <=? PyLong_value w) && (PyLong_value w <=? INT16_MAX)
            && negb (PyLong_value w =? -1)
         then PyLong_value w else CPY_LL_INT_ERROR) s /\
  (forall uerr,
      CPyLong_AsUInt8_ uerr o s =
        Ret (if (0 <=? PyLong_value w) && (PyLong_value w <? 256)
             then PyLong_value w else to_uint8 uerr) s).
Proof.
  intros Ho He.
  assert (H64 : INT64_MIN = - 2 ^ 63 /\ INT64_MAX = 2 ^ 63 - 1) by (split; reflexivity).
  assert (H32 : INT32_MIN = - 2 ^ 31 /\ INT32_MAX = 2 ^ 31 - 1) by (split; reflexivity).
  assert (H16 : INT16_MIN = - 2 ^ 15 /\ INT16_MAX = 2 ^ 15 - 1) by (split; reflexivity).
  destruct H64 as [-> ->], H32 as [-> ->], H16 as [-> ->].
  set (z := PyLong_value w).
  split_and!; [| | | intros uerr].
  all: unfold CPyLong_AsInt64_, PyLong_AsLongLongAndOverflow, CPyLong_AsInt32_,
         CPyLong_AsInt16_, CPyLong_AsUInt8_;
    rewrite (bind_run _ _ _ _ _ (AsLongAndOverflow_run _ _ _ _ Ho));
    unfold LONG_MAX, LONG_MIN, PyErr_Occurred, mbind, M_bind; fold z;
    repeat match goal with
           | |- context [?a >? ?b] => destruct (Z.gtb_spec a b); try lia
           | |- context [?a <? ?b] => destruct (Z.ltb_spec a b); try lia
           | |- context [?a >=? ?b] => destruct (Z.geb_spec a b); try lia
           | |- context [?a <=? ?b] => destruct (Z.leb_spec a b); try lia
           end;
    cbn [orb andb negb Z.eqb Pos.eqb];
    repeat match goal with
           | |- context [?a =? ?b] => destruct (Z.eqb_spec a b); try lia
           end;
    cbn [orb andb negb Z.eqb Pos.eqb]; cbv beta; rewrite ?He; cbv beta iota;
    unfold to_int64, to_int32, to_int16, to_uint8;
    rewrite ?to_signed_id, ?to_unsigned_id by lia;
    try reflexivity.
Qed.

Lemma unboxing_with_pending_error_witness :
  CPyLong_AsInt32_ 16 (set_err (Some (PyExc_ValueError, "pending"%string)) Samples.rt_big) =
    Ret CPY_LL_INT_ERROR (set_err (Some (PyExc_ValueError, "pending"%string)) Samples.rt_big).
Proof.
  apply (unboxing_with_pending_error 16 1 Samples.big
           (set_err (Some (PyExc_ValueError, "pending"%string)) Samples.rt_big)
           (PyExc_ValueError, "pending"%string) eq_refl eq_refl).
Defined.

(** ** The size conversion, read on values *)

(** X25: the size conversion depends on the value of the object only,
    not on its digit array: it returns the value with [*overflow == 0]
    when it lies within [CPY_TAGGED_MIN, CPY_TAGGED_MAX], else -1 with
    [*overflow] the sign of the value; so it reads back what the host
    wrote for an integer. *)
Theorem size_conversion_round_trip (v : PyLongObject) (z : Z) :
  Forall digit_ok (ob_digit v) -> PyLong_value v = z ->
  CPyLong_AsSsize_tAndOverflow_ v =
    (if (CPY_TAGGED_MIN <=? z) && (z <=? CPY_TAGGED_MAX) then (z, 0) else (-1, Z.sgn z)) /\
  CPyLong_AsSsize_tAndOverflow_ (PyLong_of_Z z) = CPyLong_AsSsize_tAndOverflow_ v.
Proof.
  assert (Hgen : forall u, Forall digit_ok (ob_digit u) ->
            CPyLong_AsSsize_tAndOverflow_ u =
            (if (CPY_TAGGED_MIN <=? PyLong_value u) && (PyLong_value u <=? CPY_TAGGED_MAX)
             then (PyLong_value u, 0) else (-1, Z.sgn (PyLong_value u)))).
  { intros u Hu. destruct tagged_range as (Hmax & Hmin & _).
    destruct (AsSsize_t_value u Hu) as [(Hin & ->) | (Hout & ->)].
    - destruct (Z.leb_spec CPY_TAGGED_MIN (PyLong_value u)); [| lia].
      destruct (Z.leb_spec (PyLong_value u) CPY_TAGGED_MAX); [| lia]. reflexivity.
    - replace ((CPY_TAGGED_MIN <=? PyLong_value u) && (PyLong_value u <=? CPY_TAGGED_MAX))
        with false.
      2:{ symmetry. apply andb_false_iff.
          destruct (Z.leb_spec CPY_TAGGED_MIN (PyLong_value u)); [| now left].
          destruct (Z.leb_spec (PyLong_value u) CPY_TAGGED_MAX); [lia | now right]. }
      f_equal. pose proof (PyLong_value_sign u) as Hv.
      pose proof (magnitude_nonneg u Hu) as Hm.
      destruct (sign_of_cases u) as [Hs | Hs]; rewrite Hs in *.
      + rewrite Z.sgn_pos; lia.
      + rewrite Z.sgn_neg; lia. }
  intros Hv <-. split; [now apply Hgen |].
  rewrite (Hgen v Hv), (Hgen (PyLong_of_Z (PyLong_value v))) by apply PyLong_of_Z_valid.
  now rewrite PyLong_of_Z_value.
Qed.

Lemma size_conversion_round_trip_witness :
  CPyLong_AsSsize_tAndOverflow_ Samples.big_neg = (-1, -1) /\
  CPyLong_AsSsize_tAndOverflow_ (PyLong_of_Z (- (2 ^ 62 + 1))) =
  CPyLong_AsSsize_tAndOverflow_ Samples.big_neg.
Proof.
  apply (size_conversion_round_trip Samples.big_neg (- (2 ^ 62 + 1))).
  - apply digits_ok_check. reflexivity.
  - reflexivity.
Defined.

(** ** Owned references *)

(** X4: [CPyTagged_AsObject] hands out one owned reference to an integer
    object of the operand's value: releasing it with [Py_DECREF] gives the
    heap back as it was.  [CPyTagged_StealAsObject] returns the same object
    but takes no reference of a boxed operand, so the state is untouched
    there; for an inline operand it does what [CPyTagged_AsObject] does. *)
Theorem as_object_owned_reference (x v : Z) (s : Runtime) :
  wf_runtime s -> tagged_value s x = Some v ->
  (CPyTagged_CheckShort x = true -> brk s + OBJECT_SLOT <= limit s) ->
  exists p s1 c w s2,
    CPyTagged_AsObject x s = Ret p s1 /\ p <> NULL /\
    heap s1 !! p = Some (mkObject c (PyLong w)) /\ PyLong_value w = v /\
    wf_runtime s1 /\
    Py_DECREF p s1 = Ret tt s2 /\ heap s2 = heap s /\ err s2 = err s /\
    CPyTagged_StealAsObject x s = (if CPyTagged_CheckShort x then Ret p s1 else Ret p s).
Proof.
  intros Hwf Hx Hmem.
  destruct (AsObject_ok x v s Hwf Hx) as (p & s1 & c & w & Hrun & Hp & Hw).
  { intros Hl. apply Hmem. unfold CPyTagged_CheckShort. now rewrite Hl. }
  destruct (AsObject_frame _ _ _ _ Hwf Hrun) as (Hwf1 & _).
  destruct (AsObject_heap _ _ _ _ Hwf Hrun) as (Hh1 & Hlim & Herr & Hbrk & Hcase).
  destruct (wf_below_brk s1 p Hwf1) as ((Hpos & _) & _); [eauto |].
  exists p, s1, c, w, (set_heap (partial_alter released p (heap s1)) s1).
  split_and!; try assumption.
  - unfold NULL. lia.
  - apply Py_DECREF_heap. eauto.
  - cbn [heap set_heap]. rewrite Hh1. apply map_eq. intros q.
    destruct (decide (p = q)) as [<- | Hne].
    + rewrite !lookup_partial_alter_eq. apply released_retained; [reflexivity |].
      intros o' Ho'. exact (wf_referenced s Hwf _ _ Ho').
    + now rewrite !lookup_partial_alter_ne.
  - unfold CPyTagged_StealAsObject, CPyTagged_CheckShort in *.
    destruct (CPyTagged_CheckLong x) eqn:Hl; cbn [negb] in *.
    + destruct Hcase as [-> _]. reflexivity.
    + unfold CPyTagged_AsObject in Hrun. now rewrite Hl in Hrun.
Qed.

Lemma as_object_owned_reference_witness :
  exists p s1 c w s2,
    CPyTagged_AsObject 17 Samples.rt_big = Ret p s1 /\ p <> NULL /\
    heap s1 !! p = Some (mkObject c (PyLong w)) /\ PyLong_value w = 2 ^ 62 /\
    wf_runtime s1 /\
    Py_DECREF p s1 = Ret tt s2 /\ heap s2 = heap Samples.rt_big /\
    err s2 = err Samples.rt_big /\
    CPyTagged_StealAsObject 17 Samples.rt_big =
      (if CPyTagged_CheckShort 17 then Ret p s1 else Ret p Samples.rt_big).
Proof.
  apply (as_object_owned_reference 17 (2 ^ 62) Samples.rt_big rt_big_wf eq_refl).
  discriminate.
Defined.

(** ** Conversion from a double *)

Lemma float_bounds :
  double_add (double_of_Z CPY_TAGGED_MAX) (double_of_Z 1) =
    S754_finite false 4503599627370496 10 /\
  double_sub (double_of_Z CPY_TAGGED_MIN) (double_of_Z 1) =
    S754_finite true 4503599627370496 10.
Proof. split; vm_compute; reflexivity. Qed.

Lemma digits2_pos_bounds (m : positive) :
  2 ^ (Zpos (digits2_pos m) - 1) <= Zpos m < 2 ^ Zpos (digits2_pos m).
Proof.
  induction m as [m IH | m IH |]; cbn [digits2_pos].
  - rewrite Pos2Z.inj_succ. replace (Z.succ (Z.pos (digits2_pos m)) - 1)
      with (Z.succ (Z.pos (digits2_pos m) - 1)) by lia.
    rewrite !Z.pow_succ_r by lia. lia.
  - rewrite Pos2Z.inj_succ. replace (Z.succ (Z.pos (digits2_pos m)) - 1)
      with (Z.succ (Z.pos (digits2_pos m) - 1)) by lia.
    rewrite !Z.pow_succ_r by lia. lia.
  - cbn. lia.
Qed.

(** The integral part of a valid double against 2^62. *)
Lemma valid_magnitude (m : positive) (e : Z) :
  bounded double_prec double_emax m e = true ->
  let n := if 0 <=? e then Zpos m * 2 ^ e else Zpos m / 2 ^ (- e) in
  0 <= n /\ (e < 10 -> n < 2 ^ 62) /\ (10 <= e -> 2 ^ 62 <= n /\ 2 ^ 52 <= Zpos m).
Proof.
  unfold bounded, canonical_mantissa, fexp, emin, double_prec, double_emax.
  intros H. apply andb_true_iff in H as [Hc _]. apply Z.eqb_eq in Hc.
  pose proof (digits2_pos_bounds m) as Hd.
  set (d := Zpos (digits2_pos m)) in *.
  assert (Hdpos : 0 < d) by (subst d; lia).
  cbv zeta. split_and!.
  - destruct (Z.leb_spec 0 e).
    + apply Z.mul_nonneg_nonneg; [lia | apply Z.pow_nonneg; lia].
    + apply Z.div_pos; [lia | apply Z.pow_pos_nonneg; lia].
  - intros He. assert (Hd53 : d <= 53) by lia.
    assert (Hm : Zpos m < 2 ^ 53).
    { eapply Z.lt_le_trans; [apply Hd |]. apply Z.pow_le_mono_r; lia. }
    destruct (Z.leb_spec 0 e).
    + assert (H2 : 2 ^ e <= 2 ^ 9) by (apply Z.pow_le_mono_r; lia).
      assert (H0 : 0 < 2 ^ e) by (apply Z.pow_pos_nonneg; lia).
      change (2 ^ 62) with (2 ^ 53 * 2 ^ 9). nia.
    + assert (H0 : 0 < 2 ^ (- e)) by (apply Z.pow_pos_nonneg; lia).
      apply Z.div_lt_upper_bound; [exact H0 |].
      assert (2 ^ 53 < 2 ^ 62) by reflexivity. nia.
  - intros He. assert (Hd53 : d = 53) by lia.
    rewrite Hd53 in Hd. change (2 ^ (53 - 1)) with (2 ^ 52) in Hd.
    split; [| lia].
    destruct (Z.leb_spec 0 e); [| lia].
    assert (H2 : 2 ^ 10 <= 2 ^ e) by (apply Z.pow_le_mono_r; lia).
    change (2 ^ 62) with (2 ^ 52 * 2 ^ 10). nia.
Qed.

(** The test of the fast path, read on the integral part. *)
Lemma fast_path_test (f : spec_float) :
  valid_binary double_prec double_emax f = true ->
  SFltb f (double_add (double_of_Z CPY_TAGGED_MAX) (double_of_Z 1))
  && SFltb (double_sub (double_of_Z CPY_TAGGED_MIN) (double_of_Z 1)) f =
  match f with
  | S754_nan | S754_infinity _ => false
  | _ => (CPY_TAGGED_MIN <? double_trunc f) && (double_trunc f <=? CPY_TAGGED_MAX)
  end.
Proof.
  intros Hv. destruct float_bounds as [-> ->].
  destruct tagged_range as (Hmax & Hmin & _). rewrite Hmax, Hmin.
  destruct f as [sg | sg | | sg m e].
  - destruct sg; reflexivity.
  - destruct sg; reflexivity.
  - reflexivity.
  - cbn [valid_binary] in Hv.
    destruct (valid_magnitude m e Hv) as (Hnn & Hlt & Hge). cbv zeta in *.
    unfold double_trunc.
    set (n := if 0 <=? e then Z.pos m * 2 ^ e else Z.pos m / 2 ^ (- e)) in *.
    unfold SFltb, SFcompare. destruct sg.
    + cbn [andb]. destruct (Z.compare_spec 10 e) as [He | He | He].
      * subst e. destruct (Hge ltac:(lia)) as [Hn Hm].
        change (2 ^ 52) with (Z.pos 4503599627370496) in Hm.
        rewrite Pos.compare_cont_spec. cbn [Pos.switch_Eq].
        rewrite Pos2Z.inj_compare.
        destruct (Z.compare_spec (Z.pos 4503599627370496) (Z.pos m)) as [Hc | Hc | Hc];
          [ | | exfalso; clear - Hc Hm; lia ];
          cbn [CompOpp]; symmetry; apply andb_false_iff; left; apply Z.ltb_ge;
          clear - Hn; lia.
      * destruct (Hge ltac:(lia)) as [Hn Hm].
        symmetry; apply andb_false_iff; left; apply Z.ltb_ge; lia.
      * specialize (Hlt ltac:(lia)). symmetry. apply andb_true_iff.
        split; [apply Z.ltb_lt | apply Z.leb_le]; lia.
    + rewrite andb_true_r. destruct (Z.compare_spec e 10) as [He | He | He].
      * subst e. destruct (Hge ltac:(lia)) as [Hn Hm].
        change (2 ^ 52) with (Z.pos 4503599627370496) in Hm.
        rewrite Pos.compare_cont_spec. cbn [Pos.switch_Eq].
        rewrite Pos2Z.inj_compare.
        destruct (Z.compare_spec (Z.pos m) (Z.pos 4503599627370496)) as [Hc | Hc | Hc];
          [ | exfalso; clear - Hc Hm; lia | ];
          symmetry; apply andb_false_iff; right; apply Z.leb_gt; clear - Hn; lia.
      * specialize (Hlt ltac:(lia)). symmetry. apply andb_true_iff.
        split; [apply Z.ltb_lt | apply Z.leb_le]; lia.
      * destruct (Hge ltac:(lia)) as [Hn Hm].
        symmetry; apply andb_false_iff; right; apply Z.leb_gt; lia.
Qed.

Lemma double_trunc_fits (z : Z) :
  CPY_TAGGED_MIN < z <= CPY_TAGGED_MAX ->
  to_ssize_t z = z /\ CPY_TAGGED_MIN <= z <= CPY_TAGGED_MAX.
Proof.
  destruct tagged_range as (Hmax & Hmin & _). intros Hz.
  split; [| lia]. apply to_ssize_t_id.
  unfold PY_SSIZE_T_MIN, PY_SSIZE_T_MAX, CPY_INT_BITS.
  change (2 ^ (64 - 1)) with (2 * 2 ^ 62). lia.
Qed.

(** X17: [CPyTagged_FromFloat] on a double: a NaN gives [CPY_INT_TAG] with
    [ValueError], an infinity [CPY_INT_TAG] with [OverflowError]; a finite
    double whose integral part lies in ([CPY_TAGGED_MIN], [CPY_TAGGED_MAX]]
    is converted inline without touching the state; any other goes
    through the host and is returned exactly, the double [-2^62] ending
    inline all the same; without memory for the host's object the result
    is [CPY_INT_TAG] with [MemoryError]. *)
Theorem from_float_conversion (f : spec_float) (s : Runtime) :
  valid_binary double_prec double_emax f = true ->
  match f with
  | S754_nan =>
      CPyTagged_FromFloat f s =
      Ret CPY_INT_TAG
          (set_err (Some (PyExc_ValueError,
                          "cannot convert float NaN to integer"%string)) s)
  | S754_infinity _ =>
      CPyTagged_FromFloat f s =
      Ret CPY_INT_TAG
          (set_err (Some (PyExc_OverflowError,
                          "cannot convert float infinity to integer"%string)) s)
  | _ =>
      (CPY_TAGGED_MIN < double_trunc f <= CPY_TAGGED_MAX ->
       CPyTagged_FromFloat f s = Ret (to_size_t (Z.shiftl (double_trunc f) 1)) s /\
       tagged_value s (to_size_t (Z.shiftl (double_trunc f) 1)) = Some (double_trunc f)) /\
      (~ (CPY_TAGGED_MIN < double_trunc f <= CPY_TAGGED_MAX) ->
       (wf_runtime s -> brk s + OBJECT_SLOT <= limit s ->
        exists x s', CPyTagged_FromFloat f s = Ret x s' /\
                     returns_integer s (double_trunc f) x s') /\
       (limit s < brk s + OBJECT_SLOT ->
        CPyTagged_FromFloat f s =
        Ret CPY_INT_TAG (set_err (Some (PyExc_MemoryError, EmptyString)) s)))
  end.
Proof.
  intros Hv. pose proof (fast_path_test f Hv) as Htest.
  assert (Hfinite : forall g, g = f ->
            match g with S754_nan | S754_infinity _ => False | _ => True end ->
            (CPY_TAGGED_MIN < double_trunc g <= CPY_TAGGED_MAX ->
             CPyTagged_FromFloat g s = Ret (to_size_t (Z.shiftl (double_trunc g) 1)) s /\
             tagged_value s (to_size_t (Z.shiftl (double_trunc g) 1)) = Some (double_trunc g)) /\
            (~ (CPY_TAGGED_MIN < double_trunc g <= CPY_TAGGED_MAX) ->
             (wf_runtime s -> brk s + OBJECT_SLOT <= limit s ->
              exists x s', CPyTagged_FromFloat g s = Ret x s' /\
                           returns_integer s (double_trunc g) x s') /\
             (limit s < brk s + OBJECT_SLOT ->
              CPyTagged_FromFloat g s =
              Ret CPY_INT_TAG (set_err (Some (PyExc_MemoryError, EmptyString)) s)))).
  { intros g -> Hg.
    assert (Ht : SFltb f (double_add (double_of_Z CPY_TAGGED_MAX) (double_of_Z 1))
                 && SFltb (double_sub (double_of_Z CPY_TAGGED_MIN) (double_of_Z 1)) f =
                 (CPY_TAGGED_MIN <? double_trunc f) && (double_trunc f <=? CPY_TAGGED_MAX))
      by (rewrite Htest; destruct f; (reflexivity || contradiction)).
    assert (Hhost : PyLong_FromDouble f = PyLong_FromZ (double_trunc f))
      by (destruct f; (reflexivity || contradiction)).
    unfold CPyTagged_FromFloat. rewrite Ht, Hhost. split.
    - intros Hin. destruct (double_trunc_fits _ Hin) as [Hid Hr].
      replace ((CPY_TAGGED_MIN <? double_trunc f) && (double_trunc f <=? CPY_TAGGED_MAX))
        with true
        by (symmetry; apply andb_true_iff; split; [apply Z.ltb_lt | apply Z.leb_le]; lia).
      rewrite Hid. split; [reflexivity |].
      unfold tagged_value. now rewrite shiftl1_short, shiftl1_decode.
    - intros Hout.
      replace ((CPY_TAGGED_MIN <? double_trunc f) && (double_trunc f <=? CPY_TAGGED_MAX))
        with false.
      2:{ symmetry. apply andb_false_iff.
          destruct (Z.ltb_spec CPY_TAGGED_MIN (double_trunc f)); [| now left].
          destruct (Z.leb_spec (double_trunc f) CPY_TAGGED_MAX); [lia | now right]. }
      split.
      + intros Hwf Hmem. rewrite (bind_run _ _ _ _ _ (PyLong_FromZ_run _ _ Hmem)).
        pose proof Hwf as (Hb & Hev & _).
        destruct (Z.eqb_spec (brk s) NULL) as [H0 | _]; [unfold NULL in H0; lia |].
        apply (steal_result s _ (brk s) (double_trunc f) Hwf);
          cbn [heap brk limit err]; try (reflexivity || lia || assumption).
        * unfold OBJECT_SLOT. lia.
        * now apply even_add_slot.
      + intros Hmem. unfold PyLong_FromZ.
        rewrite (bind_run _ _ _ _ _ (PyObject_New_fail _ _ Hmem)). reflexivity. }
  destruct f as [sg | sg | | sg m e].
  - now apply (Hfinite (S754_zero sg)).
  - unfold CPyTagged_FromFloat. rewrite Htest. reflexivity.
  - unfold CPyTagged_FromFloat. rewrite Htest. reflexivity.
  - now apply (Hfinite (S754_finite sg m e)).
Qed.

Lemma from_float_conversion_witness :
  CPyTagged_FromFloat (double_of_Z (- 2 ^ 62)) Samples.rt_full =
    Ret CPY_INT_TAG
        (set_err (Some (PyExc_MemoryError, EmptyString)) Samples.rt_full) /\
  (exists x s', CPyTagged_FromFloat (double_of_Z (- 2 ^ 62)) Samples.rt_big = Ret x s' /\
                returns_integer Samples.rt_big (- 2 ^ 62) x s') /\
  CPyTagged_FromFloat (double_of_Z 7) Samples.rt_full = Ret 14 Samples.rt_full.
Proof.
  split; [| split].
  - destruct (from_float_conversion (double_of_Z (- 2 ^ 62)) Samples.rt_full eq_refl)
      as [_ H].
    apply H; [vm_compute; intros [H0 _]; discriminate H0 | reflexivity].
  - destruct (from_float_conversion (double_of_Z (- 2 ^ 62)) Samples.rt_big eq_refl)
      as [_ H].
    apply H; [vm_compute; intros [H0 _]; discriminate H0 | apply rt_big_wf |].
    vm_compute. discriminate.
  - destruct (from_float_conversion (double_of_Z 7) Samples.rt_full eq_refl) as [H _].
    apply H. vm_compute. split; [reflexivity | discriminate].
Defined.

(** ** Parsing *)

(** X18: [CPyLong_FromStr] parses in base 10.  [CPyLong_FromStrWithBase]
    hands the parser the value of the base converted to [int]: a base
    that fits an [int] arrives unchanged, one outside [int] arrives
    wrapped to 32 bits; the conversion of the base to [Py_ssize_t] is not
    checked, so for a base outside [Py_ssize_t] the parser is called with
    -1 and [OverflowError] already set. *)
Theorem from_str_base (host : Z -> Z -> M Z) (o base b : Z) (s : Runtime) :
  tagged_value s base = Some b ->
  CPyLong_FromStr host o s = host o 10 s /\
  (PY_SSIZE_T_MIN <= b <= PY_SSIZE_T_MAX ->
   CPyLong_FromStrWithBase host o base s = host o (to_int32 b) s) /\
  (INT32_MIN <= b <= INT32_MAX ->
   CPyLong_FromStrWithBase host o base s = host o b s) /\
  (~ (PY_SSIZE_T_MIN <= b <= PY_SSIZE_T_MAX) ->
   CPyLong_FromStrWithBase host o base s =
   host o (-1)
        (set_err (Some (PyExc_OverflowError,
                        "Python int too large to convert to C ssize_t"%string)) s)).
Proof.
  intros Hb.
  assert (Hin : PY_SSIZE_T_MIN <= b <= PY_SSIZE_T_MAX ->
                CPyLong_FromStrWithBase host o base s = host o (to_int32 b) s).
  { intros Hr. unfold CPyLong_FromStrWithBase, CPyTagged_AsSsize_t.
    destruct (CPyTagged_CheckShort base) eqn:Hs.
    + unfold tagged_value in Hb. rewrite Hs in Hb. injection Hb as <-. reflexivity.
    + assert (Hl : CPyTagged_CheckLong base = true)
        by (unfold CPyTagged_CheckShort in Hs; now apply negb_false_iff in Hs).
      destruct (tagged_value_long_inv _ _ _ Hl Hb) as (c & w & Hp & <-).
      unfold PyLong_AsSsize_t.
      rewrite (bind_run _ (fun x => host o (to_int32 x)) s s (PyLong_value w));
        [reflexivity |].
      rewrite (bind_run _ _ _ _ _ (get_long_run _ _ _ _ Hp)).
      destruct (Z.leb_spec PY_SSIZE_T_MIN (PyLong_value w)); [| lia].
      destruct (Z.leb_spec (PyLong_value w) PY_SSIZE_T_MAX); [| lia]. reflexivity. }
  split_and!.
  - reflexivity.
  - exact Hin.
  - intros Hr. unfold INT32_MIN, INT32_MAX in Hr.
    assert (H63 : PY_SSIZE_T_MAX = 2 ^ 63 - 1) by reflexivity.
    assert (H63' : PY_SSIZE_T_MIN = - 2 ^ 63) by reflexivity.
    rewrite Hin by lia. unfold to_int32. rewrite to_signed_id; [reflexivity | lia |].
    change (32 - 1) with 31. lia.
  - intros Hr. unfold CPyLong_FromStrWithBase, CPyTagged_AsSsize_t.
    destruct (CPyTagged_CheckShort base) eqn:Hs.
    + exfalso. unfold tagged_value in Hb. rewrite Hs in Hb. injection Hb as <-.
      apply Hr. pose proof (short_value_range base) as Hsr.
      destruct tagged_range as (Hmax & Hmin & _).
      unfold PY_SSIZE_T_MIN, PY_SSIZE_T_MAX, CPY_INT_BITS.
      change (2 ^ (64 - 1)) with (2 * 2 ^ 62). lia.
    + assert (Hl : CPyTagged_CheckLong base = true)
        by (unfold CPyTagged_CheckShort in Hs; now apply negb_false_iff in Hs).
      destruct (tagged_value_long_inv _ _ _ Hl Hb) as (c & w & Hp & <-).
      unfold PyLong_AsSsize_t.
      erewrite (bind_run _ (fun x => host o (to_int32 x)) s _ (-1)); [reflexivity |].
      rewrite (bind_run _ _ _ _ _ (get_long_run _ _ _ _ Hp)).
      replace ((PY_SSIZE_T_MIN <=? PyLong_value w) && (PyLong_value w <=? PY_SSIZE_T_MAX))
        with false; [reflexivity |].
      symmetry. apply andb_false_iff.
      destruct (Z.leb_spec PY_SSIZE_T_MIN (PyLong_value w)); [| now left].
      destruct (Z.leb_spec (PyLong_value w) PY_SSIZE_T_MAX); [lia | now right].
Qed.

(** With a parser that hands back the base it was called with: the base
    [2 ^ 32 + 2] reaches it as 2. *)
Lemma from_str_base_witness :
  tagged_value Samples.rt_empty (2 * (2 ^ 32 + 2)) = Some (2 ^ 32 + 2) /\
  CPyLong_FromStrWithBase (fun _ base => mret base) 0 (2 * (2 ^ 32 + 2)) Samples.rt_empty =
  Ret 2 Samples.rt_empty.
Proof.
  split; [reflexivity |].
  destruct (from_str_base (fun _ base => mret base) 0 (2 * (2 ^ 32 + 2)) (2 ^ 32 + 2)
              Samples.rt_empty eq_refl) as (_ & H & _).
  apply H. vm_compute. split; discriminate.
Defined.

(** ** Digits of operands *)

(** X19: the digits and the signed digit count that [GetIntDigits] gives
    stand for the operand's value, and the state is untouched; an inline
    operand takes one to three digits of the three-digit buffer, the
    count being negative exactly for a negative value. *)
Theorem get_int_digits_decodes (n v : Z) (s : Runtime) :
  wf_runtime s -> tagged_value s n = Some v ->
  exists ds size,
    GetIntDigits n [0; 0; 0] s = Ret (ds, size) s /\
    Forall digit_ok ds /\ Z.abs size <= Z.of_nat (length ds) /\
    Z.sgn size * digits_value (take (Z.to_nat (Z.abs size)) ds) = v /\
    (v < 0 -> size < 0) /\ (0 < v -> 0 < size) /\
    (CPyTagged_CheckShort n = true ->
     1 <= Z.abs size <= 3 /\ length ds = 3%nat /\ (size < 0 <-> v < 0)).
Proof.
  intros Hwf Hn.
  destruct (GetIntDigits_spec n v s Hwf Hn) as (ds & size & Hrun & Hvalid & Hval & Hshort).
  exists ds, size. destruct (size_sign size ds Hvalid) as [Hneg Hpos].
  rewrite Hval in Hneg, Hpos. destruct Hvalid as [Hds Hlen].
  cbn [ob_size ob_digit] in Hds, Hlen.
  split_and!; try assumption.
  intros Hs. split; [now apply Hshort |].
  pose proof (GetIntDigits_short_sign n ds size s s Hs Hrun) as Hsign.
  rewrite tagged_value_short in Hn
    by (unfold CPyTagged_CheckShort in Hs; now apply negb_true_iff in Hs).
  injection Hn as Hn. rewrite Hn in Hsign. split; [| exact Hsign].
  unfold GetIntDigits in Hrun. rewrite Hs in Hrun. cbv zeta in Hrun.
  repeat match type of Hrun with
         | context [if ?c then _ else _] => destruct c
         end; injection Hrun as <- _; reflexivity.
Qed.

Lemma get_int_digits_decodes_witness :
  exists ds size,
    GetIntDigits (to_size_t (Z.shiftl (- (2 ^ 61)) 1)) [0; 0; 0] Samples.rt_empty =
      Ret (ds, size) Samples.rt_empty /\
    Forall digit_ok ds /\ Z.abs size <= Z.of_nat (length ds) /\
    Z.sgn size * digits_value (take (Z.to_nat (Z.abs size)) ds) = - (2 ^ 61) /\
    (- (2 ^ 61) < 0 -> size < 0) /\ (0 < - (2 ^ 61) -> 0 < size) /\
    (CPyTagged_CheckShort (to_size_t (Z.shiftl (- (2 ^ 61)) 1)) = true ->
     1 <= Z.abs size <= 3 /\ length ds = 3%nat /\ (size < 0 <-> - (2 ^ 61) < 0)).
Proof.
  apply (get_int_digits_decodes (to_size_t (Z.shiftl (- (2 ^ 61)) 1)) (- (2 ^ 61))
           Samples.rt_empty rt_empty_wf).
  reflexivity.
Defined.

(** ** Normalization is idempotent *)

Lemma normalize_size_fixed (v : PyLongObject) (i : nat) :
  canonical_digits (take i (ob_digit v)) -> (i <= length (ob_digit v))%nat ->
  normalize_size v i = i.
Proof.
  destruct i as [| i]; [reflexivity |]. intros Hcan Hlen. cbn [normalize_size].
  unfold CPY_LONG_DIGIT.
  destruct (nth_lookup_or_length (ob_digit v) i 0) as [Hi | Hi]; [| lia].
  rewrite (take_S_r _ _ _ Hi) in Hcan. destruct Hcan as [Hnil | Hlast].
  - destruct (take i (ob_digit v)); discriminate.
  - rewrite last_snoc in Hlast.
    destruct (Z.eqb_spec (nth i (ob_digit v) 0) 0) as [Hz | _]; [| reflexivity].
    congruence.
Qed.

(** X20: [CPyLong_NormalizeUnsigned] only lowers the digit count: the
    digits and the value stay, the result is canonical, an object that
    was canonical is left as it is, and normalizing twice is normalizing
    once. *)
Theorem normalize_unsigned_canonical (p c n : Z) (ds : list Z) (s : Runtime) :
  heap s !! p = Some (mkObject c (PyLong (mkLong n ds))) ->
  0 <= n <= Z.of_nat (length ds) ->
  exists j s',
    CPyLong_NormalizeUnsigned p s = Ret tt s' /\
    s' = set_heap (<[p := mkObject c (PyLong (mkLong j ds))]> (heap s)) s /\
    0 <= j <= n /\
    PyLong_value (mkLong j ds) = PyLong_value (mkLong n ds) /\
    canonical_long (mkLong j ds) /\
    (canonical_long (mkLong n ds) -> s' = s) /\
    CPyLong_NormalizeUnsigned p s' = Ret tt s'.
Proof.
  intros Hp Hn.
  destruct (normalize_size_spec (mkLong n ds) (Z.to_nat n)) as (Hle & Hval & Hcan);
    [cbn [ob_digit]; lia |].
  cbn [ob_digit] in Hval, Hcan.
  set (j := normalize_size (mkLong n ds) (Z.to_nat n)) in *.
  assert (Hdj : long_digits (mkLong (Z.of_nat j) ds) = take j ds).
  { unfold long_digits. cbn [ob_size ob_digit]. f_equal. lia. }
  assert (Hdn : long_digits (mkLong n ds) = take (Z.to_nat n) ds).
  { unfold long_digits. cbn [ob_size ob_digit]. f_equal. lia. }
  assert (Hsame : forall m k, canonical_digits (take k ds) -> (k <= length ds)%nat ->
            normalize_size (mkLong m ds) k = k).
  { intros m k Hk Hlen. now apply normalize_size_fixed. }
  exists (Z.of_nat j), (set_heap (<[p := mkObject c (PyLong (mkLong (Z.of_nat j) ds))]> (heap s)) s).
  split_and!.
  - apply (NormalizeUnsigned_run _ _ _ _ _ Hp).
  - reflexivity.
  - lia.
  - lia.
  - rewrite !nonneg_size_value by lia. now rewrite Nat2Z.id.
  - unfold canonical_long. now rewrite Hdj.
  - unfold canonical_long. rewrite Hdn. intros Hc.
    assert (Hj : j = Z.to_nat n) by (apply Hsame; [assumption | lia]).
    rewrite Hj, Z2Nat.id by lia. rewrite insert_id by assumption. apply set_heap_same.
  - erewrite NormalizeUnsigned_run by (cbn [heap set_heap]; apply lookup_insert_eq).
    rewrite Nat2Z.id.
    replace (normalize_size (mkLong (Z.of_nat j) ds) j) with j
      by (symmetry; apply Hsame; [assumption | lia]).
    unfold set_heap. cbn [heap brk limit err]. now rewrite insert_insert_eq.
Qed.

Lemma normalize_unsigned_canonical_witness :
  exists j s',
    CPyLong_NormalizeUnsigned 16 Samples.rt_big = Ret tt s' /\
    s' = set_heap (<[16 := mkObject 1 (PyLong (mkLong j [0; 0; 4]))]> (heap Samples.rt_big))
                  Samples.rt_big /\
    0 <= j <= 3 /\
    PyLong_value (mkLong j [0; 0; 4]) = PyLong_value (mkLong 3 [0; 0; 4]) /\
    canonical_long (mkLong j [0; 0; 4]) /\
    (canonical_long (mkLong 3 [0; 0; 4]) -> s' = Samples.rt_big) /\
    CPyLong_NormalizeUnsigned 16 s' = Ret tt s'.
Proof.
  apply (normalize_unsigned_canonical 16 1 3 [0; 0; 4] Samples.rt_big eq_refl).
  cbn. lia.
Defined.

(** ** Slow paths one after the other *)

(** What a slow path returned leaves the other tagged values readable. *)
Lemma returns_integer_keeps (s s' : Runtime) (z x y v : Z) :
  wf_runtime s -> returns_integer s z x s' ->
  tagged_value s y = Some v -> tagged_value s' y = Some v.
Proof.
  intros Hwf (_ & _ & Hheap & Hfresh & _) Hy.
  destruct (CPyTagged_CheckLong y) eqn:Hl.
  - destruct (tagged_value_long_inv _ _ _ Hl Hy) as (c & w & Hp & <-).
    unfold tagged_value, CPyTagged_CheckShort. rewrite Hl. cbn [negb].
    rewrite Hheap. destruct (CPyTagged_CheckShort x) eqn:Hsx.
    + now rewrite Hp.
    + assert (Hlx : CPyTagged_CheckLong x = true)
        by (unfold CPyTagged_CheckShort in Hsx; now apply negb_false_iff in Hsx).
      specialize (Hfresh Hlx).
      destruct (wf_below_brk s (CPyTagged_LongAsObject y) Hwf) as ((_ & Hlt) & _);
        [eauto |].
      rewrite lookup_insert_ne by lia. now rewrite Hp.
  - rewrite tagged_value_short in * by assumption. exact Hy.
Qed.

(** X28: for a divisor other than zero the slow path of [%] returns a
    word that stands for the remainder with the sign of the divisor
    ([Z.modulo]), inline exactly when it fits; the operands still stand
    for their values and the error indicator is as before. *)
Theorem remainder_value (l r vl vr : Z) (s : Runtime) :
  wf_runtime s -> tagged_value s l = Some vl -> tagged_value s r = Some vr ->
  vr <> 0 -> brk s + slots2 l r <= limit s ->
  exists x s',
    CPyTagged_Remainder_ l r s = Ret x s' /\
    tagged_value s' x = Some (vl mod vr) /\
    (CPyTagged_CheckShort x = true <-> CPY_TAGGED_MIN <= vl mod vr <= CPY_TAGGED_MAX) /\
    tagged_value s' l = Some vl /\ tagged_value s' r = Some vr /\
    err s' = err s.
Proof.
  intros Hwf Hl Hr Hnz Hmem. apply Z.eqb_neq in Hnz.
  destruct (slow_path_returns PyNumber_Remainder l r vl vr (vl mod vr) s Hwf Hl Hr Hmem)
    as (x & s' & _ & Hrun & Hret).
  { intros lo ro cl wl cr wr s2 Hlo <- Hro <-.
    destruct (FloorDivide_FromZ _ _ _ _ _ _ s2 Hlo Hro) as [_ ->]. now rewrite Hnz. }
  exists x, s'. split; [exact Hrun |].
  pose proof (returns_integer_keeps s s' _ x l vl Hwf Hret Hl) as Hl'.
  pose proof (returns_integer_keeps s s' _ x r vr Hwf Hret Hr) as Hr'.
  destruct Hret as (Hv & Hs & _ & _ & He & _).
  split_and!; assumption.
Qed.

Lemma remainder_value_witness :
  exists x s',
    CPyTagged_Remainder_ 33 (to_size_t (-6)) Samples.rt_big = Ret x s' /\
    tagged_value s' x = Some (- (2 ^ 62 + 1) mod -3) /\
    (CPyTagged_CheckShort x = true <->
     CPY_TAGGED_MIN <= - (2 ^ 62 + 1) mod -3 <= CPY_TAGGED_MAX) /\
    tagged_value s' 33 = Some (- (2 ^ 62 + 1)) /\
    tagged_value s' (to_size_t (-6)) = Some (-3) /\
    err s' = err Samples.rt_big.
Proof.
  apply (remainder_value 33 (to_size_t (-6)) (- (2 ^ 62 + 1)) (-3)
           Samples.rt_big rt_big_wf eq_refl eq_refl).
  - discriminate.
  - vm_compute. discriminate.
Defined.

(** X26: what a slow path returns can be fed to the next one: after
    [CPyTagged_Add_] the right operand still stands for its value, and
    subtracting it again from the sum gives back the value of the left
    operand, inline whenever the left operand was inline. *)
Theorem add_then_subtract (l r vl vr : Z) (s : Runtime) :
  wf_runtime s -> tagged_value s l = Some vl -> tagged_value s r = Some vr ->
  brk s + slots2 l r <= limit s ->
  exists x s1,
    CPyTagged_Add_ l r s = Ret x s1 /\ tagged_value s1 x = Some (vl + vr) /\
    tagged_value s1 r = Some vr /\
    (brk s1 + slots2 x r <= limit s1 ->
     exists y s2, CPyTagged_Subtract_ x r s1 = Ret y s2 /\
                  returns_integer s1 vl y s2 /\
                  (CPyTagged_CheckShort l = true -> CPyTagged_CheckShort y = true)).
Proof.
  intros Hwf Hl Hr Hmem.
  destruct (slow_path_returns PyNumber_Add l r vl vr (vl + vr) s Hwf Hl Hr Hmem)
    as (x & s1 & Hrun & _ & Hret).
  { intros lo ro cl wl cr wr s2 Hlo <- Hro <-. now apply (long_binop_FromZ Z.add _ _ cl cr). }
  pose proof (returns_integer_keeps s s1 _ x r vr Hwf Hret Hr) as Hr1.
  pose proof Hret as (Hx & _ & _ & _ & _ & _ & Hwf1).
  exists x, s1. split_and!; try assumption.
  intros Hmem1.
  destruct (slow_path_returns PyNumber_Subtract x r (vl + vr) vr vl s1 Hwf1 Hx Hr1 Hmem1)
    as (y & s2 & Hrun2 & _ & Hret2).
  { intros lo ro cl wl cr wr s2 Hlo Hwl Hro Hwr.
    unfold PyNumber_Subtract.
    rewrite (long_binop_FromZ Z.sub _ _ cl cr _ _ _ Hlo Hro), Hwl, Hwr.
    f_equal. lia. }
  exists y, s2. split_and!; try assumption.
  intros Hs. apply Hret2.
  unfold tagged_value in Hl. rewrite Hs in Hl. injection Hl as <-.
  apply short_value_range.
Qed.

Lemma add_then_subtract_witness :
  exists x s1,
    CPyTagged_Add_ 17 33 Samples.rt_big = Ret x s1 /\
    tagged_value s1 x = Some (2 ^ 62 + - (2 ^ 62 + 1)) /\
    tagged_value s1 33 = Some (- (2 ^ 62 + 1)) /\
    (brk s1 + slots2 x 33 <= limit s1 ->
     exists y s2, CPyTagged_Subtract_ x 33 s1 = Ret y s2 /\
                  returns_integer s1 (2 ^ 62) y s2 /\
                  (CPyTagged_CheckShort 17 = true -> CPyTagged_CheckShort y = true)).
Proof.
  apply (add_then_subtract 17 33 (2 ^ 62) (- (2 ^ 62 + 1)) Samples.rt_big rt_big_wf
           eq_refl eq_refl).
  vm_compute. discriminate.
Defined.

(** ** Equality under its precondition *)

(** X27: under its precondition, a left operand that is boxed and
    outside the inline range, [CPyTagged_IsEq_] decides the equality of
    the values: the answer [false] it gives for an inline right operand
    without looking at the left one is the right answer, and the heap and
    the error indicator are as before the call. *)
Theorem is_eq_correct_for_boxed_left (l r vl vr : Z) (s : Runtime) :
  wf_runtime s -> tagged_value s l = Some vl -> tagged_value s r = Some vr ->
  CPyTagged_CheckLong l = true -> ~ (CPY_TAGGED_MIN <= vl <= CPY_TAGGED_MAX) ->
  brk s <= limit s ->
  exists s', CPyTagged_IsEq_ l r s = Ret (vl =? vr) s' /\ state_kept s s' /\
             (CPyTagged_CheckShort r = true -> s' = s).
Proof.
  intros Hwf Hl Hr Hlong Hout Hroom.
  destruct (CPyTagged_CheckShort r) eqn:Hs.
  - exists s. unfold CPyTagged_IsEq_. rewrite Hs.
    assert (Hne : (vl =? vr) = false).
    { apply Z.eqb_neq. intros ->. apply Hout.
      unfold tagged_value in Hr. rewrite Hs in Hr. injection Hr as <-.
      apply short_value_range. }
    rewrite Hne. split_and!; try reflexivity. unfold state_kept. auto.
  - assert (Hlr : CPyTagged_CheckLong r = true)
      by (unfold CPyTagged_CheckShort in Hs; now apply negb_false_iff in Hs).
    destruct (compare_run l r vl vr Py_EQ s Hwf Hl Hr) as (s' & Hrun & Hkept).
    { unfold CPyTagged_CheckShort. rewrite Hlong, Hlr. cbn. lia. }
    exists s'. unfold CPyTagged_IsEq_. rewrite Hs. split_and!; try assumption.
    discriminate.
Qed.

Lemma is_eq_correct_for_boxed_left_witness :
  exists s', CPyTagged_IsEq_ 17 6 Samples.rt_big = Ret (2 ^ 62 =? 3) s' /\
             state_kept Samples.rt_big s' /\
             (CPyTagged_CheckShort 6 = true -> s' = Samples.rt_big).
Proof.
  apply (is_eq_correct_for_boxed_left 17 6 (2 ^ 62) 3 Samples.rt_big rt_big_wf
           eq_refl eq_refl eq_refl).
  - vm_compute. intros [_ H]. apply H. reflexivity.
  - vm_compute. discriminate.
Defined.
